(** * whylogs constraints: a shallow embedding of
      [whylogs/core/statistics/constraints.py]

    Python objects become records, attributes that an instance may or may
    not carry become [option] fields ([None] = the attribute is absent),
    exceptions become the [Raise] constructor of an error monad, and the
    closures bound by the operator tables become first-order descriptions
    that an [apply] function interprets. *)

From Stdlib Require Import ZArith QArith Bool List String Ascii DecimalString Lia.
From Stdlib Require Import Permutation.
Import ListNotations.
Local Open Scope string_scope.
Local Open Scope Z_scope.

(* ------------------------------------------------------------------ *)
(** ** Exceptions and the error monad *)

Inductive exn : Type :=
| ValueError
| TypeError
| AttributeError
| KeyError
| AssertionError
| OverflowError
| ReError.

Inductive result (A : Type) : Type :=
| Ok (a : A)
| Raise (e : exn).

Arguments Ok {A} a.
Arguments Raise {A} e.

Definition bind {A B : Type} (r : result A) (k : A -> result B) : result B :=
  match r with
  | Ok a => k a
  | Raise e => Raise e
  end.

Notation "x <- r ;; k" := (bind r (fun x => k))
  (at level 61, r at next level, right associativity).

(** [assert cond] of Python. *)
Definition py_assert (b : bool) : result unit :=
  if b then Ok tt else Raise AssertionError.

(** Reading an attribute that an instance may lack. *)
Definition attr {A : Type} (a : option A) : result A :=
  match a with
  | Some x => Ok x
  | None => Raise AttributeError
  end.

(** The spec's error taxonomy: a configuration error is what the
    constructors raise as [ValueError] or [TypeError]; an incompatible
    merge is the failure of one of the [assert]s of [merge]. *)
Definition configuration_error (e : exn) : Prop :=
  e = ValueError \/ e = TypeError.

Definition incompatible_merge_error (e : exn) : Prop :=
  e = AssertionError.

(* ------------------------------------------------------------------ *)
(** ** Python values

    The scalars that reach the constraints: [None], [bool], [int],
    [float], [str], and an instance of some other class, compared by
    identity and unordered. A [float] is a finite one, given by its exact
    rational value, or [float("nan")]; the infinities are left out. Each
    occurrence of [PNaN] stands for a float object of its own. *)

Inductive pyval : Type :=
| PNone
| PBool (b : bool)
| PInt (z : Z)
| PFloat (q : Q)
| PStr (s : string)
| PObj (id : positive)
| PNaN.

Definition is_none (v : pyval) : bool :=
  match v with PNone => true | _ => false end.

(** [isinstance(v, str)] *)
Definition is_str (v : pyval) : bool :=
  match v with PStr _ => true | _ => false end.

(** [isinstance(v, bool)] *)
Definition is_bool (v : pyval) : bool :=
  match v with PBool _ => true | _ => false end.

(** [math.isnan(v)] on a float *)
Definition is_nan (v : pyval) : bool :=
  match v with PNaN => true | _ => false end.

(** [isinstance(v, (int, float))]; [bool] is a subclass of [int]. *)
Definition is_int_or_float (v : pyval) : bool :=
  match v with PBool _ | PInt _ | PFloat _ | PNaN => true | _ => false end.

(** [isinstance(v, numbers.Real)] *)
Definition is_real (v : pyval) : bool :=
  match v with PBool _ | PInt _ | PFloat _ | PNaN => true | _ => false end.

(** The number a numeric value stands for; NaN stands for none. *)
Definition num_of (v : pyval) : option Q :=
  match v with
  | PBool b => Some (inject_Z (if b then 1 else 0))
  | PInt z => Some (inject_Z z)
  | PFloat q => Some q
  | _ => None
  end.

(** Truth value of an object, as [if v], [not v] and [any] test it. *)
Definition truthy (v : pyval) : bool :=
  match v with
  | PNone => false
  | PBool b => b
  | PInt z => negb (z =? 0)
  | PFloat q => negb (Qeq_bool q 0)
  | PStr s => negb (s =? "")%string
  | PObj _ => true
  | PNaN => true
  end.

Definition truthy_str (s : option string) : bool :=
  match s with
  | None => false
  | Some s => negb (s =? "")%string
  end.

(** [a == b]: never raises on these values. NaN equals nothing, itself
    included. *)
Definition py_eq (a b : pyval) : bool :=
  match num_of a, num_of b with
  | Some x, Some y => Qeq_bool x y
  | _, _ =>
      match a, b with
      | PNone, PNone => true
      | PStr s, PStr t => (s =? t)%string
      | PObj i, PObj j => (i =? j)%positive
      | _, _ => false
      end
  end.

Definition Qlt_bool (x y : Q) : bool := negb (Qle_bool y x).

(** The ordering comparisons: defined between two numbers and between two
    strings, a [TypeError] otherwise. Between NaN and a number, or NaN,
    each of them is false. *)
Definition py_order (fnum : Q -> Q -> bool) (fstr : string -> string -> bool)
    (a b : pyval) : result bool :=
  match num_of a, num_of b with
  | Some x, Some y => Ok (fnum x y)
  | _, _ =>
      if is_real a && is_real b then Ok false
      else
        match a, b with
        | PStr s, PStr t => Ok (fstr s t)
        | _, _ => Raise TypeError
        end
  end.

Definition py_lt : pyval -> pyval -> result bool :=
  py_order Qlt_bool String.ltb.
Definition py_le : pyval -> pyval -> result bool :=
  py_order Qle_bool String.leb.
Definition py_gt (a b : pyval) : result bool := py_lt b a.
Definition py_ge (a b : pyval) : result bool := py_le b a.

(** Equality of optional strings ([None] or a [str]). *)
Definition opt_str_eq (a b : option string) : bool :=
  match a, b with
  | None, None => true
  | Some s, Some t => (s =? t)%string
  | _, _ => false
  end.

(* ------------------------------------------------------------------ *)
(** ** Doubles

    What a [double] field of a message holds, and what a sketch hashes: a
    finite value or NaN. *)

Inductive double : Type :=
| Finite (q : Q)
| NaN.

(** [float(z)] of an [int]: exact below 2^53 in magnitude, beyond that the
    nearest double, a tie going to the even one; [OverflowError] when that
    is beyond the largest double. *)
Definition float_of_int (z : Z) : result Q :=
  let a := Z.abs z in
  if a <? 2 ^ 53 then Ok (inject_Z z)
  else
    let e := Z.log2 a - 52 in
    let q := Z.shiftr a e in
    let r := a - Z.shiftl q e in
    let half := Z.shiftl 1 (e - 1) in
    let q' := if (half <? r) || ((r =? half) && Z.odd q) then q + 1 else q in
    let m := Z.shiftl q' e in
    if 2 ^ 1024 <=? m then Raise OverflowError
    else Ok (inject_Z (Z.sgn z * m)).

Arguments float_of_int : simpl never.

(** Assigning [v] to a [double] field: the field takes a number and
    stores [float(v)]; it refuses anything else with [TypeError]. *)
Definition to_double (v : pyval) : result double :=
  match v with
  | PFloat q => Ok (Finite q)
  | PNaN => Ok NaN
  | PBool b => Ok (Finite (inject_Z (if b then 1 else 0)))
  | PInt z => q <- float_of_int z ;; Ok (Finite q)
  | PNone | PStr _ | PObj _ => Raise TypeError
  end.

(** Reading a [double] field yields a [float]. *)
Definition of_double (d : double) : pyval :=
  match d with
  | Finite q => PFloat q
  | NaN => PNaN
  end.

(* ------------------------------------------------------------------ *)
(** ** The operator enumeration [Op] *)

Inductive Op : Type :=
| LT | LE | EQ | NE | GE | GT
| MATCH | NOMATCH
| BTWN
| IN_SET | CONTAIN_SET | EQ_SET.

Definition Op_eqb (a b : Op) : bool :=
  match a, b with
  | LT, LT | LE, LE | EQ, EQ | NE, NE | GE, GE | GT, GT
  | MATCH, MATCH | NOMATCH, NOMATCH | BTWN, BTWN
  | IN_SET, IN_SET | CONTAIN_SET, CONTAIN_SET | EQ_SET, EQ_SET => true
  | _, _ => false
  end.

(** [Op.Name(op)] *)
Definition Op_Name (o : Op) : string :=
  match o with
  | LT => "LT" | LE => "LE" | EQ => "EQ" | NE => "NE" | GE => "GE" | GT => "GT"
  | MATCH => "MATCH" | NOMATCH => "NOMATCH" | BTWN => "BTWN"
  | IN_SET => "IN_SET" | CONTAIN_SET => "CONTAIN_SET" | EQ_SET => "EQ_SET"
  end.

(** [op in [Op.MATCH, Op.NOMATCH]] *)
Definition is_match_op (o : Op) : bool :=
  match o with MATCH | NOMATCH => true | _ => false end.

(** [op in (Op.IN_SET, Op.CONTAIN_SET, Op.EQ_SET)] *)
Definition is_set_op (o : Op) : bool :=
  match o with IN_SET | CONTAIN_SET | EQ_SET => true | _ => false end.

(* ------------------------------------------------------------------ *)
(** ** Python sets of scalars

    A set is the list of its members in iteration order; [set_add] is
    [set.add], which keeps a set free of members equal under [==]. The
    order in which a set that [set()] or [set.add] built is iterated comes
    from the hashes of its members; the lists below put the members in
    the order of their first insertion, as one representative, and what is
    stated of such a set is stated of its members, not of their order. *)

Definition pyset : Type := list pyval.

Definition set_mem (x : pyval) (s : pyset) : bool := existsb (py_eq x) s.

Definition set_add (s : pyset) (x : pyval) : pyset :=
  if set_mem x s then s else (s ++ [x])%list.

(** [set(iterable)] *)
Definition set_of_list (l : list pyval) : pyset := fold_left set_add l [].

Definition set_subset (a b : pyset) : bool :=
  forallb (fun x => set_mem x b) a.

(** [a == b] on sets *)
Definition set_eq (a b : pyset) : bool := set_subset a b && set_subset b a.

(** No two members of a set are equal under [==]. *)
Fixpoint pyset_wf (s : pyset) : Prop :=
  match s with
  | [] => True
  | x :: r => set_mem x r = false /\ pyset_wf r
  end.

(** An update theta sketch, represented by the items it was fed, in order:
    [update_theta_sketch()] is the empty list and [theta.update(item)]
    appends. *)
Definition theta_sketch : Type := list pyval.

Definition update_theta_sketch : theta_sketch := [].

(** What [theta.update] takes: the method of the datasketches binding is
    overloaded for a 64-bit integer, a double and a string. An [int] of at
    most 64 bits, [bool] included, is taken as it is, and a larger one as
    a double when [float] converts it; anything else is a [TypeError]. *)
Definition theta_accepts (x : pyval) : bool :=
  match x with
  | PStr _ | PBool _ | PFloat _ | PNaN => true
  | PInt z => match float_of_int z with Ok _ => true | Raise _ => false end
  | PNone | PObj _ => false
  end.

(** [theta.update(item)] *)
Definition theta_update (t : theta_sketch) (x : pyval) : result theta_sketch :=
  if theta_accepts x then Ok (t ++ [x])%list else Raise TypeError.

(* ------------------------------------------------------------------ *)
(** ** Supplied primitives

    The regular-expression engine, the sketch difference estimate and the
    rendering of values by [str()] are collaborators of the module. *)

Class Builtins : Type := {
  (** [re.compile(p)] succeeds *)
  re_valid : string -> bool;
  (** [re.compile(p).match(s) is not None] *)
  re_match : string -> string -> bool;
  (** [round(theta_a_not_b().compute(a, b).get_estimate(), 1)] *)
  a_not_b_estimate : theta_sketch -> theta_sketch -> Q;
  (** [str(v)], as an f-string renders a value *)
  py_str : pyval -> string;
  (** [str(s)] for a set *)
  set_str : pyset -> string
}.

(** [logger.info(msg)]: the message is an f-string, rendered before the
    call; emitting the record changes no state of a constraint. *)
Definition logger_info (msg : result string) : result unit :=
  _ <- msg ;; Ok tt.

(** What an operator-table entry is bound to: a literal, or the pattern
    object [re.compile(p)]. *)
Inductive operand : Type :=
| Lit (x : pyval)
| Pattern (p : string).

(** A summary object: its attributes by name, for [getattr(s, f)]. *)
Definition summary : Type := list (string * pyval).

Fixpoint getattr (s : summary) (f : string) : result pyval :=
  match s with
  | [] => Raise AttributeError
  | (k, v) :: r => if (k =? f)%string then Ok v else getattr r f
  end.

(** [str(x)] where [x] is [None] or a [str]. *)
Definition str_of_opt (s : option string) : string :=
  match s with
  | None => "None"
  | Some s => s
  end.

(* ------------------------------------------------------------------ *)
(** ** The operator tables *)

Section OperatorTables.
Context `{Builtins}.

(** [v < x] and the like, where [x] is the bound operand. *)
Definition cmp_operand (c : pyval -> pyval -> result bool)
    (x : operand) (v : pyval) : result bool :=
  match x with
  | Lit x => c v x
  | Pattern _ => Raise TypeError
  end.

Definition eq_operand (x : operand) (v : pyval) : bool :=
  match x with
  | Lit x => py_eq v x
  | Pattern _ => false
  end.

(** [x.match(v)]: only a pattern object has the method, and it takes
    text. *)
Definition operand_match (x : operand) (v : pyval) : result bool :=
  match x with
  | Lit _ => Raise AttributeError
  | Pattern p =>
      match v with
      | PStr s => Ok (re_match p s)
      | _ => Raise TypeError
      end
  end.

(** [_value_funcs]: [None] is a missing key. *)
Definition _value_funcs (o : Op)
    : option (operand -> pyval -> result bool) :=
  match o with
  | LT => Some (fun x v => cmp_operand py_lt x v)
  | LE => Some (fun x v => cmp_operand py_le x v)
  | EQ => Some (fun x v => Ok (eq_operand x v))
  | NE => Some (fun x v => Ok (negb (eq_operand x v)))
  | GE => Some (fun x v => cmp_operand py_ge x v)
  | GT => Some (fun x v => cmp_operand py_gt x v)
  | MATCH => Some (fun x v => operand_match x v)
  | NOMATCH => Some (fun x v => b <- operand_match x v ;; Ok (negb b))
  | _ => None
  end.

(** Subscripting one of the tables. *)
Definition table_get {A : Type} (t : Op -> option A) (o : Op) : result A :=
  match t o with
  | Some f => Ok f
  | None => Raise KeyError
  end.

(** [a <= b <= c], evaluated left to right with short circuit. *)
Definition chained_le (a b : pyval) (c : result pyval) : result bool :=
  r <- py_le a b ;;
  if r then (c' <- c ;; py_le b c') else Ok false.

(** The entries of [_summary_funcs1] that compare a field to a literal. *)
Definition _summary_funcs1 (o : Op)
    : option (string -> pyval -> summary -> result bool) :=
  let field (c : pyval -> pyval -> result bool) :=
    fun f v s => x <- getattr s f ;; c x v in
  match o with
  | LT => Some (field py_lt)
  | LE => Some (field py_le)
  | EQ => Some (field (fun x v => Ok (py_eq x v)))
  | NE => Some (field (fun x v => Ok (negb (py_eq x v))))
  | GE => Some (field py_ge)
  | GT => Some (field py_gt)
  | _ => None
  end.

(** [_summary_funcs1[Op.BTWN]] *)
Definition _summary_funcs1_BTWN (f : string) (v1 v2 : pyval) (s : summary)
    : result bool :=
  x <- getattr s f ;; chained_le v1 x (Ok v2).

(** The set-relation entries of [_summary_funcs1], bound to a reference
    sketch and applied to a column sketch. *)
Definition _summary_funcs1_set (o : Op)
    : option (theta_sketch -> theta_sketch -> bool) :=
  match o with
  | IN_SET => Some (fun reference column =>
      Qeq_bool (a_not_b_estimate column reference) 0)
  | CONTAIN_SET => Some (fun reference column =>
      Qeq_bool (a_not_b_estimate reference column) 0)
  | EQ_SET => Some (fun reference column =>
      Qeq_bool (a_not_b_estimate column reference)
               (a_not_b_estimate reference column)
      && Qeq_bool (a_not_b_estimate reference column) 0)
  | _ => None
  end.

(** [_summary_funcs2]: a field against a field. *)
Definition _summary_funcs2 (o : Op)
    : option (string -> string -> summary -> result bool) :=
  let fields (c : pyval -> pyval -> result bool) :=
    fun f f2 s => x <- getattr s f ;; y <- getattr s f2 ;; c x y in
  match o with
  | LT => Some (fields py_lt)
  | LE => Some (fields py_le)
  | EQ => Some (fields (fun x y => Ok (py_eq x y)))
  | NE => Some (fields (fun x y => Ok (negb (py_eq x y))))
  | GE => Some (fields py_ge)
  | GT => Some (fields py_gt)
  | _ => None
  end.

(** [_summary_funcs2[Op.BTWN]] *)
Definition _summary_funcs2_BTWN (f f2 f3 : string) (s : summary)
    : result bool :=
  lo <- getattr s f2 ;; x <- getattr s f ;; chained_le lo x (getattr s f3).

End OperatorTables.

(* ------------------------------------------------------------------ *)
(** ** The wire messages *)

(** [google.protobuf.struct_pb2.ListValue], the library class that carries
    a reference set: each item is a null, a number (a [double]), a string
    or a boolean. [extend] stores an item by its Python type, [bool]
    before the numbers, and raises [ValueError] for a type it does not
    know; iterating the list yields [None], a [float], a [str] or a
    [bool]. *)
Module ListValue.

Inductive value : Type :=
| NullValue
| NumberValue (d : double)
| StringValue (s : string)
| BoolValue (b : bool).

Definition t : Type := list value.

(** Storing one item. *)
Definition set_value (x : pyval) : result value :=
  match x with
  | PNone => Ok NullValue
  | PBool b => Ok (BoolValue b)
  | PStr s => Ok (StringValue s)
  | PInt _ | PFloat _ | PNaN => d <- to_double x ;; Ok (NumberValue d)
  | PObj _ => Raise ValueError
  end.

(** [ListValue().extend(items)] *)
Fixpoint extend (items : list pyval) : result t :=
  match items with
  | [] => Ok []
  | x :: r => v <- set_value x ;; vs <- extend r ;; Ok (v :: vs)
  end.

(** Reading one item. *)
Definition get_value (v : value) : pyval :=
  match v with
  | NullValue => PNone
  | NumberValue d => of_double d
  | StringValue s => PStr s
  | BoolValue b => PBool b
  end.

(** The items that iterating the list yields. *)
Definition items (l : t) : list pyval := map get_value l.

End ListValue.

(** Modelled from the spec: the message classes of [whylogs.proto], which
    is not among the sources. Section 6 of the specification gives
    [ValueConstraintMsg { name, op, value | regex_pattern, verbose }] with
    exactly one of [value] and [regex_pattern] set. The [value] fields of
    the messages are of type [double]. A keyword argument that is [None]
    leaves its field unset, and reading a field that is not set yields the
    default of a scalar field, never [None]. *)
Module ValueConstraintMsg.

Inductive oneof : Type :=
| Unset
| Value (v : double)
| RegexPattern (p : string).

Record t : Type := mk {
  name : string;
  op : Op;
  operand : oneof;
  verbose : bool
}.

(** [msg.value] *)
Definition value (m : t) : pyval :=
  match operand m with
  | Value v => of_double v
  | _ => PFloat 0
  end.

(** The keyword argument [value=v] *)
Definition of_value (v : pyval) : result oneof :=
  if is_none v then Ok Unset else d <- to_double v ;; Ok (Value d).

End ValueConstraintMsg.

(** Modelled from the spec: [SummaryBetweenConstraintMsg] of
    [whylogs.proto], which is not among the sources; section 6 gives
    [between{ (lower_value & upper_value) | (second_field & third_field) }].
    [HasField] is asked of each of the four fields, so each is optional;
    the two values are of type [double]. *)
Module SummaryBetweenConstraintMsg.

Record t : Type := mk {
  lower_value : option double;
  upper_value : option double;
  second_field : option string;
  third_field : option string
}.

Definition of_value (v : pyval) : result (option double) :=
  if is_none v then Ok None else d <- to_double v ;; Ok (Some d).

End SummaryBetweenConstraintMsg.

(** Modelled from the spec: [SummaryConstraintMsg] of [whylogs.proto],
    which is not among the sources; section 6 gives
    [SummaryConstraintMsg { name, first_field, op, verbose, one of: value |
    second_field | between | reference_set }]. [value] is of type
    [double] and [reference_set] is a [ListValue]. *)
Module SummaryConstraintMsg.

Inductive oneof : Type :=
| Unset
| Value (v : double)
| SecondField (f : string)
| Between (b : SummaryBetweenConstraintMsg.t)
| ReferenceSet (items : ListValue.t).

Record t : Type := mk {
  name : string;
  first_field : string;
  op : Op;
  operand : oneof;
  verbose : bool
}.

(** [msg.HasField(...)] for the four variants *)
Definition has_value (m : t) : bool :=
  match operand m with Value _ => true | _ => false end.
Definition has_second_field (m : t) : bool :=
  match operand m with SecondField _ => true | _ => false end.
Definition has_between (m : t) : bool :=
  match operand m with Between _ => true | _ => false end.
Definition has_reference_set (m : t) : bool :=
  match operand m with ReferenceSet _ => true | _ => false end.

(** Reading the variants; a variant that is not set reads as its
    default. *)
Definition value (m : t) : pyval :=
  match operand m with Value v => of_double v | _ => PFloat 0 end.
Definition second_field (m : t) : string :=
  match operand m with SecondField f => f | _ => "" end.
Definition between (m : t) : SummaryBetweenConstraintMsg.t :=
  match operand m with
  | Between b => b
  | _ => SummaryBetweenConstraintMsg.mk None None None None
  end.
Definition reference_set (m : t) : list pyval :=
  match operand m with ReferenceSet l => ListValue.items l | _ => [] end.

Definition of_value (v : pyval) : result oneof :=
  if is_none v then Ok Unset else d <- to_double v ;; Ok (Value d).
Definition of_second_field (f : option string) : oneof :=
  match f with None => Unset | Some f => SecondField f end.

End SummaryConstraintMsg.

(** Modelled from the spec: [ValueConstraintMsgs] and
    [SummaryConstraintMsgs] of [whylogs.proto], which is not among the
    sources; section 6 gives [ValueConstraintMsgs { repeated
    ValueConstraintMsg }] and [SummaryConstraintMsgs { repeated
    SummaryConstraintMsg }]. *)
Module ValueConstraintMsgs.

Record t : Type := mk { constraints : list ValueConstraintMsg.t }.

End ValueConstraintMsgs.

Module SummaryConstraintMsgs.

Record t : Type := mk { constraints : list SummaryConstraintMsg.t }.

End SummaryConstraintMsgs.

(* ------------------------------------------------------------------ *)
(** ** class ValueConstraint *)

Module ValueConstraint.

(** An instance. [value] and [regex_pattern] are attributes that
    [__init__] sets on one branch only: [None] here means the instance
    does not have the attribute. [func] is the closure taken from
    [_value_funcs]. *)
Record t : Type := mk {
  _name : option string;
  _verbose : bool;
  op : Op;
  total : Z;
  failures : Z;
  value : option pyval;
  regex_pattern : option string;
  func : pyval -> result bool
}.

Definition set_total (c : t) (n : Z) : t :=
  mk (_name c) (_verbose c) (op c) n (failures c)
     (value c) (regex_pattern c) (func c).

Definition set_failures (c : t) (n : Z) : t :=
  mk (_name c) (_verbose c) (op c) (total c) n
     (value c) (regex_pattern c) (func c).

Section Methods.
Context `{Builtins}.

(** [__init__(op, value=None, regex_pattern=None, name=None,
    verbose=False)] *)
Definition __init__ (o : Op) (v : pyval) (pattern : option string)
    (nm : option string) (verbose : bool) : result t :=
  match pattern with
  | None =>
      if negb (is_none v) then
        f <- table_get _value_funcs o ;;
        Ok (mk nm verbose o 0 0 (Some v) None (f (Lit v)))
      else Raise ValueError
  | Some p =>
      if is_none v then
        f <- table_get _value_funcs o ;;
        if re_valid p
        then Ok (mk nm verbose o 0 0 None (Some p) (f (Pattern p)))
        else Raise ReError
      else Raise ValueError
  end.

(** The [name] property. Its test is [getattr(self, "value", None)]:
    the truth value of the literal, not its presence. *)
Definition name (c : t) : result string :=
  let shown :=
    match value c with
    | Some v => truthy v
    | None => false
    end in
  match _name c with
  | Some n => Ok n
  | None =>
      if shown then
        v <- attr (value c) ;;
        Ok ("value " ++ Op_Name (op c) ++ " " ++ py_str v)
      else
        p <- attr (regex_pattern c) ;;
        Ok ("value " ++ Op_Name (op c) ++ " " ++ p)
  end.

(** [update(v)]: the instance after the call, and whether the call
    returned or raised; what was assigned before an exception stays
    assigned. *)
Definition update (c : t) (v : pyval) : t * result unit :=
  let c1 := set_total c (total c + 1) in
  if is_match_op (op c1) && negb (is_str v) then
    let c2 := set_failures c1 (failures c1 + 1) in
    if _verbose c2
    then (c2, logger_info
                (n <- name c2 ;;
                 Ok ("value constraint " ++ n ++ " failed: value "
                     ++ py_str v ++ " not a string")))
    else (c2, Ok tt)
  else
    match func c1 v with
    | Raise e => (c1, Raise e)
    | Ok true => (c1, Ok tt)
    | Ok false =>
        let c2 := set_failures c1 (failures c1 + 1) in
        if _verbose c2
        then (c2, logger_info
                    (n <- name c2 ;;
                     Ok ("value constraint " ++ n ++ " failed on value "
                         ++ py_str v)))
        else (c2, Ok tt)
    end.

(** [merge(other)]; [other] is [None] or an instance. *)
Definition merge (self : t) (other : option t) : result t :=
  match other with
  | None => Ok self
  | Some other =>
      n1 <- name self ;; n2 <- name other ;;
      _ <- py_assert (n1 =? n2)%string ;;
      _ <- py_assert (Op_eqb (op self) (op other)) ;;
      v1 <- attr (value self) ;; v2 <- attr (value other) ;;
      _ <- py_assert (py_eq v1 v2) ;;
      v <- attr (value self) ;;
      n <- name self ;;
      m <- __init__ (op self) v None (Some n) (_verbose self) ;;
      let m1 := set_total m (total self + total other) in
      Ok (set_failures m1 (failures self + failures other))
  end.

(** [report()] *)
Definition report (c : t) : result (string * Z * Z) :=
  n <- name c ;; Ok (n, total c, failures c).

(** [from_protobuf(msg)] *)
Definition from_protobuf (msg : ValueConstraintMsg.t) : result t :=
  __init__ (ValueConstraintMsg.op msg) (ValueConstraintMsg.value msg)
           None (Some (ValueConstraintMsg.name msg))
           (ValueConstraintMsg.verbose msg).

(** [to_protobuf()]; the test is
    [hasattr(self, "value")]. *)
Definition to_protobuf (c : t) : result ValueConstraintMsg.t :=
  match value c with
  | Some v =>
      n <- name c ;;
      x <- ValueConstraintMsg.of_value v ;;
      Ok (ValueConstraintMsg.mk n (op c) x (_verbose c))
  | None =>
      n <- name c ;;
      p <- attr (regex_pattern c) ;;
      Ok (ValueConstraintMsg.mk n (op c)
            (ValueConstraintMsg.RegexPattern p) (_verbose c))
  end.

End Methods.
End ValueConstraint.

(* ------------------------------------------------------------------ *)
(** ** class SummaryConstraint *)

(** What a caller may pass as [reference_set]: a set, a list or tuple, or
    a scalar ([None] when the argument is left out). *)
Inductive set_like : Type :=
| ASet (s : pyset)
| ASeq (l : list pyval)
| AVal (v : pyval).

(** Truth value of the argument: an empty set or sequence is false. *)
Definition truthy_set_like (r : set_like) : bool :=
  match r with
  | ASet [] | ASeq [] => false
  | ASet _ | ASeq _ => true
  | AVal v => truthy v
  end.

(** The characters of a string, as iterating it yields them. *)
Definition chars (s : string) : list pyval :=
  map (fun c => PStr (String c EmptyString)) (list_ascii_of_string s).

(** [set(reference_set)]; a scalar other than a string is not iterable. *)
Definition set_cast (r : set_like) : result pyset :=
  match r with
  | ASet s => Ok s
  | ASeq l => Ok (set_of_list l)
  | AVal (PStr s) => Ok (set_of_list (chars s))
  | AVal _ => Raise TypeError
  end.

(** [isinstance(item, numbers.Real) and not isinstance(item, bool)] *)
Definition is_number_item (x : pyval) : bool := is_real x && negb (is_bool x).

(** A caller's set is a set; what [set()] builds from the other inputs is
    one by construction. *)
Definition set_like_wf (r : set_like) : Prop :=
  match r with
  | ASet s => pyset_wf s
  | _ => True
  end.

(** [s[:-1]] *)
Fixpoint drop_last (s : string) : string :=
  match s with
  | EmptyString => EmptyString
  | String c EmptyString => EmptyString
  | String c r => String c (drop_last r)
  end.

(** The dictionary handed to [SummaryConstraint.update]; [None] is a
    missing key. *)
Record update_dict : Type := mk_update_dict {
  number_summary : option summary;
  string_theta : option theta_sketch;
  number_theta : option theta_sketch
}.

Definition item {A : Type} (a : option A) : result A :=
  match a with
  | Some x => Ok x
  | None => Raise KeyError
  end.

Module SummaryConstraint.

(** An instance. The attributes of the set branch of [__init__] and
    [func] are optional: [None] means the instance lacks the
    attribute. *)
Record t : Type := mk {
  _verbose : bool;
  _name : option string;
  op : Op;
  first_field : string;
  second_field : option string;
  third_field : option string;
  total : Z;
  failures : Z;
  value : pyval;
  upper_value : pyval;
  reference_set : option pyset;
  ref_string_set : option pyset;
  ref_numbers_set : option pyset;
  reference_theta_sketch : option theta_sketch;
  string_theta_sketch : option theta_sketch;
  numbers_theta_sketch : option theta_sketch;
  func : option (summary -> result bool)
}.

Definition set_total (c : t) (n : Z) : t :=
  mk (_verbose c) (_name c) (op c) (first_field c) (second_field c)
     (third_field c) n (failures c) (value c) (upper_value c)
     (reference_set c) (ref_string_set c) (ref_numbers_set c)
     (reference_theta_sketch c) (string_theta_sketch c)
     (numbers_theta_sketch c) (func c).

Definition set_failures (c : t) (n : Z) : t :=
  mk (_verbose c) (_name c) (op c) (first_field c) (second_field c)
     (third_field c) (total c) n (value c) (upper_value c)
     (reference_set c) (ref_string_set c) (ref_numbers_set c)
     (reference_theta_sketch c) (string_theta_sketch c)
     (numbers_theta_sketch c) (func c).

(** The loop of [get_string_and_numbers_sets], over the reference
    set. *)
Definition string_and_numbers_step (acc : pyset * pyset) (item : pyval)
    : pyset * pyset :=
  let (string_set, numbers_set) := acc in
  if is_str item then (set_add string_set item, numbers_set)
  else if is_number_item item
       then (string_set, set_add numbers_set item)
       else (string_set, numbers_set).

Definition string_and_numbers_sets (reference : pyset) : pyset * pyset :=
  fold_left string_and_numbers_step reference ([], []).

(** [get_string_and_numbers_sets()] *)
Definition get_string_and_numbers_sets (c : t) : result (pyset * pyset) :=
  r <- attr (reference_set c) ;; Ok (string_and_numbers_sets r).

(** The loop of [create_theta_sketch]: the first item that the sketch
    does not take ends it. *)
Fixpoint theta_loop (target_set : pyset) (theta : theta_sketch)
    : result theta_sketch :=
  match target_set with
  | [] => Ok theta
  | item :: r => theta' <- theta_update theta item ;; theta_loop r theta'
  end.

(** [create_theta_sketch(ref_set=None)] *)
Definition create_theta_sketch (c : t) (ref_set : option pyset)
    : result theta_sketch :=
  match ref_set with
  | None => r <- attr (reference_set c) ;; theta_loop r update_theta_sketch
  | Some r => theta_loop r update_theta_sketch
  end.

Section Methods.
Context `{Builtins}.

(** [__init__(first_field, op, value=None, upper_value=None,
    second_field=None, third_field=None, reference_set=None,
    name=None, verbose=False)] *)
Definition __init__ (ff : string) (o : Op) (v uv : pyval)
    (sf tf : option string) (rs : set_like) (nm : option string)
    (verbose : bool) : result t :=
  let self := mk verbose nm o ff sf tf 0 0 v uv
                 None None None None None None in
  if is_set_op o then
    if truthy v || truthy uv || truthy_str sf || truthy_str tf
       || negb (truthy_set_like rs)
    then Raise ValueError
    else
      r <- set_cast rs ;;
      let self1 :=
        mk verbose nm o ff sf tf 0 0 v uv (Some r) None None
           None None None None in
      sn <- get_string_and_numbers_sets self1 ;;
      let self2 :=
        mk verbose nm o ff sf tf 0 0 v uv (Some r) (Some (fst sn))
           (Some (snd sn)) None None None None in
      full <- create_theta_sketch self2 None ;;
      strs <- create_theta_sketch self2 (ref_string_set self2) ;;
      nums <- create_theta_sketch self2 (ref_numbers_set self2) ;;
      Ok (mk verbose nm o ff sf tf 0 0 v uv (Some r) (Some (fst sn))
             (Some (snd sn)) (Some full) (Some strs) (Some nums) None)
  else
    match o with
    | BTWN =>
        match sf, tf with
        | None, None =>
            if negb (is_none v) && negb (is_none uv) then
              if negb (is_int_or_float v) || negb (is_int_or_float uv)
              then Raise TypeError
              else
                ge <- py_ge v uv ;;
                if ge then Raise ValueError
                else Ok (self (Some (_summary_funcs1_BTWN ff v uv)))
            else Raise ValueError
        | Some f2, Some f3 =>
            if is_none v && is_none uv
            then Ok (self (Some (_summary_funcs2_BTWN ff f2 f3)))
            else Raise ValueError
        | _, _ => Raise ValueError
        end
    | _ =>
        if negb (is_none uv) || match tf with Some _ => true | None => false end
        then Raise ValueError
        else
          match sf with
          | None =>
              if negb (is_none v) then
                f <- table_get _summary_funcs1 o ;;
                Ok (self (Some (f ff v)))
              else Raise ValueError
          | Some f2 =>
              if is_none v then
                f <- table_get _summary_funcs2 o ;;
                Ok (self (Some (f ff f2)))
              else Raise ValueError
          end
    end.

(** The [name] property. *)
Definition name (c : t) : result string :=
  if is_set_op (op c) then
    r <- attr (reference_set c) ;;
    let reference_set_str :=
      if (20 <? Z.of_nat (List.length r))
      then drop_last (set_str (set_of_list (firstn 20 r))) ++ ", ...}"
      else set_str r in
    match _name c with
    | Some n => Ok n
    | None =>
        Ok ("summary " ++ first_field c ++ " " ++ Op_Name (op c) ++ " "
            ++ reference_set_str)
    end
  else
    match op c with
    | BTWN =>
        let lower_target :=
          if negb (is_none (value c)) then py_str (value c)
          else str_of_opt (second_field c) in
        let upper_target :=
          if negb (is_none (upper_value c)) then py_str (upper_value c)
          else str_of_opt (third_field c) in
        match _name c with
        | Some n => Ok n
        | None =>
            Ok ("summary " ++ first_field c ++ " " ++ Op_Name (op c)
                ++ " " ++ lower_target ++ " and " ++ upper_target)
        end
    | _ =>
        match _name c with
        | Some n => Ok n
        | None =>
            Ok ("summary " ++ first_field c ++ " " ++ Op_Name (op c)
                ++ " " ++ py_str (value c) ++ "/"
                ++ str_of_opt (second_field c))
        end
    end.

(** The failure branch shared by the two arms of [update]. *)
Definition count_failure (c : t) : t * result unit :=
  let c2 := set_failures c (failures c + 1) in
  if _verbose c2
  then (c2, logger_info
              (n <- name c2 ;;
               Ok ("summary constraint " ++ n ++ " failed")))
  else (c2, Ok tt).

(** What [update] evaluates after counting the call: [Ok true] when
    the constraint holds on the bundle. *)
Definition evaluate (c : t) (d : update_dict) : result bool :=
  summ <- item (number_summary d) ;;
  column_string_theta <- item (string_theta d) ;;
  column_number_theta <- item (number_theta d) ;;
  if is_set_op (op c) then
    f <- table_get _summary_funcs1_set (op c) ;;
    s <- attr (string_theta_sketch c) ;;
    let on_strings := f s column_string_theta in
    g <- table_get _summary_funcs1_set (op c) ;;
    n <- attr (numbers_theta_sketch c) ;;
    let on_numbers := g n column_number_theta in
    Ok (forallb (fun b => b) [on_strings; on_numbers])
  else
    f <- attr (func c) ;;
    f summ.

(** [update(update_dict)]: the instance after the call and whether the
    call returned or raised. *)
Definition update (c : t) (d : update_dict) : t * result unit :=
  let c1 := set_total c (total c + 1) in
  match evaluate c1 d with
  | Raise e => (c1, Raise e)
  | Ok true => (c1, Ok tt)
  | Ok false => count_failure c1
  end.

(** [merge(other)]; [other] is [None] or an instance. *)
Definition merge (self : t) (other : option t) : result t :=
  match other with
  | None => Ok self
  | Some other =>
      n1 <- name self ;; n2 <- name other ;;
      _ <- py_assert (n1 =? n2)%string ;;
      _ <- py_assert (Op_eqb (op self) (op other)) ;;
      _ <- py_assert (py_eq (value self) (value other)) ;;
      _ <- py_assert (first_field self =? first_field other)%string ;;
      _ <- py_assert (opt_str_eq (second_field self) (second_field other)) ;;
      merged_constraint <-
        (if is_set_op (op self) then
           r1 <- attr (reference_set self) ;;
           r2 <- attr (reference_set other) ;;
           _ <- py_assert (set_eq r1 r2) ;;
           r <- attr (reference_set self) ;;
           n <- name self ;;
           __init__ (first_field self) (op self) PNone PNone None None
                    (ASet r) (Some n) (_verbose self)
         else
           match op self with
           | BTWN =>
               _ <- py_assert (py_eq (upper_value self) (upper_value other)) ;;
               _ <- py_assert (opt_str_eq (third_field self)
                                          (third_field other)) ;;
               n <- name self ;;
               __init__ (first_field self) (op self) (value self)
                        (upper_value self) (second_field self)
                        (third_field self) (AVal PNone) (Some n)
                        (_verbose self)
           | _ =>
               n <- name self ;;
               __init__ (first_field self) (op self) (value self) PNone
                        (second_field self) None (AVal PNone) (Some n)
                        (_verbose self)
           end) ;;
      let m1 := set_total merged_constraint (total self + total other) in
      Ok (set_failures m1 (failures self + failures other))
  end.

(** [report()] *)
Definition report (c : t) : result (string * Z * Z) :=
  n <- name c ;; Ok (n, total c, failures c).

(** [from_protobuf(msg)]; the [between] arm has no final [else] and
    then returns [None]. *)
Definition from_protobuf (msg : SummaryConstraintMsg.t)
    : result (option t) :=
  let has_value := SummaryConstraintMsg.has_value msg in
  let has_second := SummaryConstraintMsg.has_second_field msg in
  let has_between := SummaryConstraintMsg.has_between msg in
  let has_reference := SummaryConstraintMsg.has_reference_set msg in
  let ff := SummaryConstraintMsg.first_field msg in
  let o := SummaryConstraintMsg.op msg in
  let nm := Some (SummaryConstraintMsg.name msg) in
  let vb := SummaryConstraintMsg.verbose msg in
  let some (r : result t) : result (option t) := c <- r ;; Ok (Some c) in
  if has_reference && negb has_value && negb has_second && negb has_between
  then some (__init__ ff o PNone PNone None None
               (ASet (set_of_list (SummaryConstraintMsg.reference_set msg)))
               nm vb)
  else if has_value && negb has_second && negb has_between
          && negb has_reference
  then some (__init__ ff o (SummaryConstraintMsg.value msg) PNone None None
               (AVal PNone) nm vb)
  else if has_second && negb has_value && negb has_between
          && negb has_reference
  then some (__init__ ff o PNone PNone
               (Some (SummaryConstraintMsg.second_field msg)) None
               (AVal PNone) nm vb)
  else if has_between && negb has_value && negb has_second
          && negb has_reference
  then
    let b := SummaryConstraintMsg.between msg in
    match SummaryBetweenConstraintMsg.lower_value b,
          SummaryBetweenConstraintMsg.upper_value b,
          SummaryBetweenConstraintMsg.second_field b,
          SummaryBetweenConstraintMsg.third_field b with
    | Some lo, Some up, None, None =>
        some (__init__ ff o (of_double lo) (of_double up) None None
                (AVal PNone) nm vb)
    | None, None, Some f2, Some f3 =>
        some (__init__ ff o PNone PNone (Some f2) (Some f3)
                (AVal PNone) nm vb)
    | _, _, _, _ => Ok None
    end
  else Raise ValueError.

(** [to_protobuf()]; the list of the reference set and the [between]
    message are built before the name is rendered, the other fields are
    converted when the message is constructed. *)
Definition to_protobuf (c : t) : result SummaryConstraintMsg.t :=
  if is_set_op (op c) then
    r <- attr (reference_set c) ;;
    reference_set_msg <- ListValue.extend r ;;
    n <- name c ;;
    Ok (SummaryConstraintMsg.mk n (first_field c) (op c)
          (SummaryConstraintMsg.ReferenceSet reference_set_msg) (_verbose c))
  else
    match op c with
    | BTWN =>
        summary_between_constraint_msg <-
          match second_field c, third_field c with
          | None, None =>
              lo <- SummaryBetweenConstraintMsg.of_value (value c) ;;
              up <- SummaryBetweenConstraintMsg.of_value (upper_value c) ;;
              Ok (SummaryBetweenConstraintMsg.mk lo up None None)
          | f2, f3 => Ok (SummaryBetweenConstraintMsg.mk None None f2 f3)
          end ;;
        n <- name c ;;
        Ok (SummaryConstraintMsg.mk n (first_field c) (op c)
              (SummaryConstraintMsg.Between summary_between_constraint_msg)
              (_verbose c))
    | _ =>
        match second_field c with
        | None =>
            n <- name c ;;
            x <- SummaryConstraintMsg.of_value (value c) ;;
            Ok (SummaryConstraintMsg.mk n (first_field c) (op c) x
                  (_verbose c))
        | Some f2 =>
            n <- name c ;;
            Ok (SummaryConstraintMsg.mk n (first_field c) (op c)
                  (SummaryConstraintMsg.SecondField f2) (_verbose c))
        end
    end.

End Methods.
End SummaryConstraint.

(* ------------------------------------------------------------------ *)
(** ** classes ValueConstraints and SummaryConstraints

    The two collection classes have the same body, member class apart;
    [Constraints] is that body, over the member class [C] and the input
    [V] of its [update]. *)

Module Constraints.
Section Collection.
Variables C V : Type.
Variable c_name : C -> result string.
Variable c_update : C -> V -> C * result unit.
Variable c_report : C -> result (string * Z * Z).

(** A [dict] with [str] keys: the entries in insertion order. *)
Definition dict : Type := list (string * C).

Fixpoint dict_get (d : dict) (k : string) : option C :=
  match d with
  | [] => None
  | (k', c) :: r => if (k' =? k)%string then Some c else dict_get r k
  end.

(** [d[k] = c] *)
Fixpoint dict_set (d : dict) (k : string) (c : C) : dict :=
  match d with
  | [] => [(k, c)]
  | (k', c') :: r =>
      if (k' =? k)%string then (k', c) :: r else (k', c') :: dict_set r k c
  end.

Definition keys (d : dict) : list string := map fst d.
Definition values (d : dict) : list C := map snd d.

Record t : Type := mk { constraints : dict }.

(** What [__init__] may be given. *)
Inductive init_arg : Type :=
| NoArg
| OfList (l : list C)
| OfMapping (d : dict).

(** [{constraint.name: constraint for constraint in constraints}] *)
Fixpoint by_name (l : list C) (acc : dict) : result dict :=
  match l with
  | [] => Ok acc
  | c :: r => n <- c_name c ;; by_name r (dict_set acc n c)
  end.

(** [__init__(constraints=None)] *)
Definition __init__ (a : init_arg) : result t :=
  match a with
  | NoArg => Ok (mk [])
  | OfList l => d <- by_name l [] ;; Ok (mk d)
  | OfMapping d => Ok (mk d)
  end.

(** What looking an attribute up on an instance finds. *)
Inductive attribute : Type :=
| Data (d : dict)
| Method.

(** The names the class defines. *)
Definition class_attributes : list string :=
  ["__init__"; "from_protobuf"; "__getitem__"; "to_protobuf"; "update";
   "merge"; "report"].

(** [self.<n>]: the instance dictionary, which [__init__] fills with
    [constraints] alone, then the class. *)
Definition getattribute (self : t) (n : string) : result attribute :=
  if (n =? "constraints")%string then Ok (Data (constraints self))
  else if existsb (String.eqb n) class_attributes then Ok Method
  else Raise AttributeError.

Definition truthy_attribute (a : attribute) : bool :=
  match a with
  | Data [] => false
  | _ => true
  end.

(** [self.constraints.get(name)]; a method object has no [get]. *)
Definition attribute_get (a : attribute) (k : string) : result (option C) :=
  match a with
  | Data d => Ok (dict_get d k)
  | Method => Raise AttributeError
  end.

(** [__getitem__(name)], which tests [self.contraints]. *)
Definition __getitem__ (self : t) (nm : string) : result (option C) :=
  a <- getattribute self "contraints" ;;
  if truthy_attribute a then
    d <- getattribute self "constraints" ;;
    attribute_get d nm
  else Ok None.

(** [update(v)]: every member in turn; an exception ends the loop. *)
Fixpoint update_all (d : dict) (v : V) : dict * result unit :=
  match d with
  | [] => ([], Ok tt)
  | (k, c) :: r =>
      match c_update c v with
      | (c', Ok _) => let (r', out) := update_all r v in ((k, c') :: r', out)
      | (c', Raise e) => ((k, c') :: r, Raise e)
      end
  end.

Definition update (self : t) (v : V) : t * result unit :=
  let (d, out) := update_all (constraints self) v in (mk d, out).

(** Unpacking a key into the two targets [name, constraint]: a string
    unpacks into its characters, and there must be two. *)
Definition unpack2 (k : string) : result (string * string) :=
  match k with
  | String a (String b EmptyString) =>
      Ok (String a EmptyString, String b EmptyString)
  | _ => Raise ValueError
  end.

(** [constraint.merge] where [constraint] is a [str]: the class has no
    such attribute. *)
Definition str_merge (s : string) : result (option C -> result C) :=
  Raise AttributeError.

(** The loop [for name, constraint in self.constraints], which
    iterates the keys. *)
Fixpoint merge_loop (ks : list string) (other_constraints merged : dict)
    : result dict :=
  match ks with
  | [] => Ok merged
  | k :: r =>
      nc <- unpack2 k ;;
      let (name, constraint) := nc in
      m <- str_merge constraint ;;
      c <- m (dict_get other_constraints name) ;;
      merge_loop r other_constraints (dict_set merged name c)
  end.

(** [merge(other)]; [other] is [None] or a collection. *)
Definition merge (self : t) (other : option t) : result t :=
  match other with
  | None => Ok self
  | Some other =>
      match constraints other with
      | [] => Ok self
      | _ =>
          let merged_constraints := constraints other in
          d <- merge_loop (keys (constraints self)) (constraints other)
                 merged_constraints ;;
          __init__ (OfMapping d)
      end
  end.

(** [report()]: [None] for a collection without members. *)
Fixpoint report_all (l : list C) : result (list (string * Z * Z)) :=
  match l with
  | [] => Ok []
  | c :: r => x <- c_report c ;; xs <- report_all r ;; Ok (x :: xs)
  end.

Definition report (self : t) : result (option (list (string * Z * Z))) :=
  v <- report_all (values (constraints self)) ;;
  match v with
  | [] => Ok None
  | _ => Ok (Some v)
  end.

End Collection.

Arguments mk {C} constraints.
Arguments constraints {C} t.
Arguments NoArg {C}.
Arguments OfList {C} l.
Arguments OfMapping {C} d.
Arguments dict_get {C} d k.
Arguments dict_set {C} d k c.
Arguments keys {C} d.
Arguments __getitem__ {C} self nm.

Section Wire.
Variables C M : Type.
Variable c_name : C -> result string.
Variable c_to_protobuf : C -> result M.
Variable c_from_protobuf : M -> result (option C).

(** [[c.to_protobuf() for c in self.constraints.values()]] *)
Fixpoint to_protobuf_all (l : list C) : result (list M) :=
  match l with
  | [] => Ok []
  | c :: r => m <- c_to_protobuf c ;; ms <- to_protobuf_all r ;; Ok (m :: ms)
  end.

(** [to_protobuf()]: [None] for a collection without members. *)
Definition to_protobuf (self : t C) : result (option (list M)) :=
  v <- to_protobuf_all (values C (constraints self)) ;;
  match v with
  | [] => Ok None
  | _ => Ok (Some v)
  end.

(** [[Constraint.from_protobuf(c) for c in msg.constraints]] *)
Fixpoint from_protobuf_all (ms : list M) : result (list (option C)) :=
  match ms with
  | [] => Ok []
  | m :: r => c <- c_from_protobuf m ;; cs <- from_protobuf_all r ;; Ok (c :: cs)
  end.

(** [{v.name: v for v in constraints}] over what [from_protobuf]
    returned; [None] has no [name]. *)
Fixpoint by_name_decoded (l : list (option C)) (acc : dict C)
    : result (dict C) :=
  match l with
  | [] => Ok acc
  | None :: _ => Raise AttributeError
  | Some c :: r => n <- c_name c ;; by_name_decoded r (dict_set acc n c)
  end.

(** [from_protobuf(msg)], on the list [msg.constraints]: [None] for a
    message without constraints. *)
Definition from_protobuf (ms : list M) : result (option (t C)) :=
  l <- from_protobuf_all ms ;;
  match l with
  | [] => Ok None
  | _ =>
      d <- by_name_decoded l [] ;;
      c <- __init__ C c_name (OfMapping d) ;;
      Ok (Some c)
  end.

End Wire.
End Constraints.

Module ValueConstraints.
Definition t : Type := Constraints.t ValueConstraint.t.

Section Methods.
Context `{Builtins}.

Definition __init__ : Constraints.init_arg ValueConstraint.t -> result t :=
  Constraints.__init__ _ ValueConstraint.name.
Definition __getitem__ : t -> string -> result (option ValueConstraint.t) :=
  Constraints.__getitem__.
Definition update : t -> pyval -> t * result unit :=
  Constraints.update _ _ ValueConstraint.update.
Definition merge : t -> option t -> result t :=
  Constraints.merge _ ValueConstraint.name.
Definition report : t -> result (option (list (string * Z * Z))) :=
  Constraints.report _ ValueConstraint.report.

(** [from_protobuf(msg)] *)
Definition from_protobuf (msg : ValueConstraintMsgs.t) : result (option t) :=
  Constraints.from_protobuf _ _ ValueConstraint.name
    (fun m => c <- ValueConstraint.from_protobuf m ;; Ok (Some c))
    (ValueConstraintMsgs.constraints msg).

(** [to_protobuf()] *)
Definition to_protobuf (self : t) : result (option ValueConstraintMsgs.t) :=
  v <- Constraints.to_protobuf _ _ ValueConstraint.to_protobuf self ;;
  Ok (option_map ValueConstraintMsgs.mk v).
End Methods.
End ValueConstraints.

Module SummaryConstraints.
Definition t : Type := Constraints.t SummaryConstraint.t.

Section Methods.
Context `{Builtins}.

Definition __init__ : Constraints.init_arg SummaryConstraint.t -> result t :=
  Constraints.__init__ _ SummaryConstraint.name.
Definition __getitem__ : t -> string -> result (option SummaryConstraint.t) :=
  Constraints.__getitem__.
Definition update : t -> update_dict -> t * result unit :=
  Constraints.update _ _ SummaryConstraint.update.
Definition merge : t -> option t -> result t :=
  Constraints.merge _ SummaryConstraint.name.
Definition report : t -> result (option (list (string * Z * Z))) :=
  Constraints.report _ SummaryConstraint.report.

(** [from_protobuf(msg)] *)
Definition from_protobuf (msg : SummaryConstraintMsgs.t) : result (option t) :=
  Constraints.from_protobuf _ _ SummaryConstraint.name
    SummaryConstraint.from_protobuf (SummaryConstraintMsgs.constraints msg).

(** [to_protobuf()] *)
Definition to_protobuf (self : t) : result (option SummaryConstraintMsgs.t) :=
  v <- Constraints.to_protobuf _ _ SummaryConstraint.to_protobuf self ;;
  Ok (option_map SummaryConstraintMsgs.mk v).
End Methods.
End SummaryConstraints.

(* ------------------------------------------------------------------ *)
(** ** class DatasetConstraints *)

(** Modelled from the spec: [DatasetConstraintMsg] of [whylogs.proto],
    which is not among the sources; section 6 gives
    [DatasetConstraintMsg { properties, map<column_name,
    ValueConstraintMsgs>, map<column_name, SummaryConstraintMsgs> }]. The
    properties are opaque, of a type [P]. *)
Module DatasetConstraintMsg.

Record t (P : Type) : Type := mk {
  properties : P;
  value_constraints : list (string * ValueConstraintMsgs.t);
  summary_constraints : list (string * SummaryConstraintMsgs.t)
}.

Arguments mk {P} properties value_constraints summary_constraints.
Arguments properties {P} t.
Arguments value_constraints {P} t.
Arguments summary_constraints {P} t.

End DatasetConstraintMsg.

Module DatasetConstraints.

(** What a column name maps to: a list of constraints, which [__init__]
    repackages, a collection, or [None], which the [from_protobuf] of a
    collection returns for a message without constraints. *)
Inductive column (C : Type) : Type :=
| AList (l : list C)
| ACollection (c : Constraints.t C)
| ANone.

Arguments AList {C} l.
Arguments ACollection {C} c.
Arguments ANone {C}.

Record t (P : Type) : Type := mk {
  dataset_properties : P;
  value_constraint_map : list (string * column ValueConstraint.t);
  summary_constraint_map : list (string * column SummaryConstraint.t)
}.

Arguments mk {P} dataset_properties value_constraint_map
  summary_constraint_map.
Arguments dataset_properties {P} t.
Arguments value_constraint_map {P} t.
Arguments summary_constraint_map {P} t.

(** [key in m] and [m[key]] on a [dict] with [str] keys. *)
Fixpoint lookup {A : Type} (m : list (string * A)) (k : string) : option A :=
  match m with
  | [] => None
  | (k', v) :: r => if (k' =? k)%string then Some v else lookup r k
  end.

Section Columns.
Variable C : Type.
Variable c_name : C -> result string.
Variable c_report : C -> result (string * Z * Z).

(** The loop [for k, v in m.items(): if isinstance(v, list): m[k] =
    Constraints(v)]. *)
Fixpoint repackage (m : list (string * column C))
    : result (list (string * column C)) :=
  match m with
  | [] => Ok []
  | (k, v) :: r =>
      v' <- match v with
            | AList l =>
                c <- Constraints.__init__ C c_name (Constraints.OfList l) ;;
                Ok (ACollection c)
            | _ => Ok v
            end ;;
      r' <- repackage r ;;
      Ok ((k, v') :: r')
  end.

(** [v.report()] on what a column maps to; neither a list nor [None] has
    the method. *)
Definition column_report (v : column C)
    : result (option (list (string * Z * Z))) :=
  match v with
  | ACollection c => Constraints.report C c_report c
  | AList _ => Raise AttributeError
  | ANone => Raise AttributeError
  end.

(** [[(k, v.report()) for k, v in m.items()]] *)
Fixpoint report_columns (m : list (string * column C))
    : result (list (string * option (list (string * Z * Z)))) :=
  match m with
  | [] => Ok []
  | (k, v) :: r =>
      x <- column_report v ;; xs <- report_columns r ;; Ok ((k, x) :: xs)
  end.

End Columns.

(** [dict([(k, Constraints.from_protobuf(v)) for k, v in m.items()])] *)
Fixpoint decode_columns {C M : Type}
    (decode : M -> result (option (Constraints.t C)))
    (m : list (string * M)) : result (list (string * column C)) :=
  match m with
  | [] => Ok []
  | (k, v) :: r =>
      c <- decode v ;;
      r' <- decode_columns decode r ;;
      Ok ((k, match c with Some c => ACollection c | None => ANone end) :: r')
  end.

Section Methods.
Variable P : Type.
Context `{Builtins}.

(** [__init__(props, value_constraints=None, summary_constraints=None)] *)
Definition __init__ (props : P)
    (value_constraints : option (list (string * column ValueConstraint.t)))
    (summary_constraints : option (list (string * column SummaryConstraint.t)))
    : result (t P) :=
  let value_constraints :=
    match value_constraints with None => [] | Some m => m end in
  vm <- repackage _ ValueConstraint.name value_constraints ;;
  let summary_constraints :=
    match summary_constraints with None => [] | Some m => m end in
  sm <- repackage _ SummaryConstraint.name summary_constraints ;;
  Ok (mk props vm sm).

(** [__getitem__(key)], which consults the value constraints only. *)
Definition __getitem__ (self : t P) (key : string)
    : column ValueConstraint.t :=
  match lookup (value_constraint_map self) key with
  | Some v => v
  | None => ANone
  end.

(** [from_protobuf(msg)] *)
Definition from_protobuf (msg : DatasetConstraintMsg.t P) : result (t P) :=
  vm <- decode_columns ValueConstraints.from_protobuf
          (DatasetConstraintMsg.value_constraints msg) ;;
  sm <- decode_columns SummaryConstraints.from_protobuf
          (DatasetConstraintMsg.summary_constraints msg) ;;
  __init__ (DatasetConstraintMsg.properties msg) (Some vm) (Some sm).

(** [report()] *)
Definition report (self : t P)
    : result (list (string * option (list (string * Z * Z)))) :=
  l1 <- report_columns _ ValueConstraint.report (value_constraint_map self) ;;
  l2 <- report_columns _ SummaryConstraint.report
          (summary_constraint_map self) ;;
  Ok (l1 ++ l2)%list.

End Methods.
End DatasetConstraints.

(* ------------------------------------------------------------------ *)
(** ** The factory functions *)

Definition stddevBetweenConstraint (lower_value upper_value : pyval)
    (lower_field upper_field : option string) (verbose : bool)
    : result SummaryConstraint.t :=
  SummaryConstraint.__init__ "stddev" BTWN lower_value upper_value
    lower_field upper_field (AVal PNone) None verbose.

Definition meanBetweenConstraint (lower_value upper_value : pyval)
    (lower_field upper_field : option string) (verbose : bool)
    : result SummaryConstraint.t :=
  SummaryConstraint.__init__ "mean" BTWN lower_value upper_value
    lower_field upper_field (AVal PNone) None verbose.

Definition minBetweenConstraint (lower_value upper_value : pyval)
    (lower_field upper_field : option string) (verbose : bool)
    : result SummaryConstraint.t :=
  SummaryConstraint.__init__ "min" BTWN lower_value upper_value
    lower_field upper_field (AVal PNone) None verbose.

Definition minGreaterThanEqualConstraint (value : pyval)
    (field : option string) (verbose : bool) : result SummaryConstraint.t :=
  SummaryConstraint.__init__ "min" GE value PNone field None (AVal PNone)
    None verbose.

Definition maxBetweenConstraint (lower_value upper_value : pyval)
    (lower_field upper_field : option string) (verbose : bool)
    : result SummaryConstraint.t :=
  SummaryConstraint.__init__ "max" BTWN lower_value upper_value
    lower_field upper_field (AVal PNone) None verbose.

Definition maxLessThanEqualConstraint (value : pyval)
    (field : option string) (verbose : bool) : result SummaryConstraint.t :=
  SummaryConstraint.__init__ "max" LE value PNone field None (AVal PNone)
    None verbose.

(** The three set factories pass [verbose=False], whatever they are
    given. *)
Definition distinctValuesInSetConstraint (reference_set : set_like)
    (name : option string) (verbose : bool) : result SummaryConstraint.t :=
  SummaryConstraint.__init__ "distinct_column_values" IN_SET PNone PNone
    None None reference_set name false.

Definition distinctValuesEqualSetConstraint (reference_set : set_like)
    (name : option string) (verbose : bool) : result SummaryConstraint.t :=
  SummaryConstraint.__init__ "distinct_column_values" EQ_SET PNone PNone
    None None reference_set name false.

Definition distinctValuesContainSetConstraint (reference_set : set_like)
    (name : option string) (verbose : bool) : result SummaryConstraint.t :=
  SummaryConstraint.__init__ "distinct_column_values" CONTAIN_SET PNone PNone
    None None reference_set name false.

(* ------------------------------------------------------------------ *)
(** ** Notions used in the statements *)

(** The six operators that compare two values. *)
Definition is_compare_op (o : Op) : bool :=
  match o with LT | LE | EQ | NE | GE | GT => true | _ => false end.

(** The four of them that need an order. *)
Definition is_ordering_op (o : Op) : bool :=
  match o with LT | LE | GE | GT => true | _ => false end.

(** What a comparison operator means on two numbers: [a o b]. *)
Definition compare_holds (o : Op) (a b : Q) : Prop :=
  match o with
  | LT => a < b
  | LE => a <= b
  | EQ => a == b
  | NE => ~ a == b
  | GE => b <= a
  | GT => b < a
  | _ => False
  end%Q.

(** The [ValueConstraint] with its counters set. *)
Definition value_counted (c : ValueConstraint.t) (t f : Z) : ValueConstraint.t :=
  ValueConstraint.set_failures (ValueConstraint.set_total c t) f.

(** [failures] is between zero and [total]. *)
Definition counters_ok (total failures : Z) : Prop := 0 <= failures <= total.

(** What a set operator requires of the difference estimates between a
    reference sketch and a column sketch. *)
Definition set_relation_holds `{Builtins} (o : Op)
    (reference column : theta_sketch) : Prop :=
  match o with
  | IN_SET => a_not_b_estimate column reference == 0
  | CONTAIN_SET => a_not_b_estimate reference column == 0
  | EQ_SET => a_not_b_estimate column reference == 0
              /\ a_not_b_estimate reference column == 0
  | _ => False
  end%Q.

(** The member [c] renders the name [n]. *)
Definition named {C : Type} (c_name : C -> result string) (n : string)
    (c : C) : bool :=
  match c_name c with
  | Ok n' => (n' =? n)%string
  | Raise _ => false
  end.

(** Entry [y] is entry [x] after an [update] with [v] that returned. *)
Definition updated_entry (C V : Type) (c_update : C -> V -> C * result unit)
    (v : V) (x y : string * C) : Prop :=
  fst x = fst y /\ c_update (snd x) v = (snd y, Ok tt).

(** The message of [c] decodes to [c']. *)
Definition decodes {C M : Type} (c_to_protobuf : C -> result M)
    (c_from_protobuf : M -> result (option C)) (c c' : C) : Prop :=
  exists m, c_to_protobuf c = Ok m /\ c_from_protobuf m = Ok (Some c').

(** The instance that the set arm builds: each of the three sketches has
    been fed the members of its set. *)
Definition set_instance (ff : string) (o : Op) (v uv : pyval)
    (sf tf : option string) (r : pyset) (nm : option string) (vb : bool)
    : SummaryConstraint.t :=
  let sn := SummaryConstraint.string_and_numbers_sets r in
  SummaryConstraint.mk vb nm o ff sf tf 0 0 v uv (Some r)
    (Some (fst sn)) (Some (snd sn))
    (Some r) (Some (fst sn)) (Some (snd sn)) None.

(** The instance that the arms without a set build. *)
Definition field_instance (ff : string) (o : Op) (v uv : pyval)
    (sf tf : option string) (nm : option string) (vb : bool)
    (fn : summary -> result bool) : SummaryConstraint.t :=
  SummaryConstraint.mk vb nm o ff sf tf 0 0 v uv
    None None None None None None (Some fn).

(** The operand shapes that [__init__] accepts without a set operator:
    two literal bounds or two bound fields for BETWEEN, one literal or
    one field otherwise. *)
Definition field_shape (o : Op) (v uv : pyval) (sf tf : option string)
    : Prop :=
  (o = BTWN /\ sf = None /\ tf = None
   /\ is_none v = false /\ is_none uv = false)
  \/ (o = BTWN /\ v = PNone /\ uv = PNone
      /\ exists f2 f3, sf = Some f2 /\ tf = Some f3)
  \/ (o <> BTWN /\ uv = PNone /\ tf = None
      /\ sf = None /\ is_none v = false)
  \/ (o <> BTWN /\ uv = PNone /\ tf = None
      /\ v = PNone /\ exists f2, sf = Some f2).

(** The instance with its counters set. *)
Definition counted (c : SummaryConstraint.t) (t f : Z) : SummaryConstraint.t :=
  SummaryConstraint.set_failures (SummaryConstraint.set_total c t) f.

(** An [int] that [float] converts exactly. *)
Definition exact_int (z : Z) : bool := Z.abs z <? 2 ^ 53.

(** A literal that a [double] field takes and holds with its value: a
    [float], a [bool], or an [int] that converts exactly. *)
Definition exact_double (v : pyval) : bool :=
  match v with
  | PBool _ | PFloat _ | PNaN => true
  | PInt z => exact_int z
  | PNone | PStr _ | PObj _ => false
  end.

(** What such a literal is read back as: the [float] of the same
    value. [None] stands for a keyword argument left out. *)
Definition as_float (v : pyval) : pyval :=
  match v with
  | PInt z => PFloat (inject_Z z)
  | PBool b => PFloat (inject_Z (if b then 1 else 0))
  | _ => v
  end.

(** A member of a reference set that a [ListValue] takes and holds with
    its value. *)
Definition exact_item (x : pyval) : bool :=
  match x with
  | PInt z => exact_int z
  | PObj _ => false
  | _ => true
  end.

(** What such a member is read back as: an [int] as the [float] of the
    same value, anything else as it is. *)
Definition as_item (x : pyval) : pyval :=
  match x with
  | PInt z => PFloat (inject_Z z)
  | _ => x
  end.

(** The operands of [c] are held by a message with their values. *)
Definition wire_exact (c : SummaryConstraint.t) : Prop :=
  match SummaryConstraint.reference_set c with
  | Some r => forallb exact_item r = true
  | None =>
      is_none (SummaryConstraint.value c)
      || exact_double (SummaryConstraint.value c) = true
      /\ is_none (SummaryConstraint.upper_value c)
         || exact_double (SummaryConstraint.upper_value c) = true
  end.

(** The set [b] has the members of the set [a] as a message holds them,
    in some order; or neither is there. *)
Definition on_wire (a b : option pyset) : Prop :=
  match a, b with
  | None, None => True
  | Some r, Some r' => Permutation r' (map as_item r)
  | _, _ => False
  end.

(** No member of the set is NaN. *)
Definition no_nan (s : pyset) : bool := forallb (fun x => negb (is_nan x)) s.

(** A constraint on the literal [v] with operator [o] whose name renders
    as [n]: what [__init__] builds from a literal, with any counters. *)
Definition literal_constraint `{Builtins} (o : Op) (v : pyval) (n : string)
    (c : ValueConstraint.t) : Prop :=
  ValueConstraint.op c = o
  /\ ValueConstraint.value c = Some v
  /\ is_none v = false
  /\ (exists f, _value_funcs o = Some f)
  /\ ValueConstraint.name c = Ok n.

(** A [SummaryConstraint] that [__init__] returned, with any counters. *)
Definition built_summary (c : SummaryConstraint.t) : Prop :=
  exists ff o v uv sf tf rs nm vb c0 t f,
    set_like_wf rs
    /\ SummaryConstraint.__init__ ff o v uv sf tf rs nm vb = Ok c0
    /\ c = counted c0 t f.

(** Column entry [y] is column entry [x] after the repackaging of
    [DatasetConstraints.__init__]: a list has become the collection built
    from it, anything else is as it was. *)
Definition repackaged (C : Type) (c_name : C -> result string)
    (x y : string * DatasetConstraints.column C) : Prop :=
  fst x = fst y
  /\ match snd x with
     | DatasetConstraints.AList l =>
         exists c, Constraints.__init__ C c_name (Constraints.OfList l) = Ok c
                   /\ snd y = DatasetConstraints.ACollection c
     | v => snd y = v
     end.

(* ------------------------------------------------------------------ *)
(** ** A stand-in for the collaborators

    Used to run the model on examples: every pattern compiles and matches
    the strings it is a prefix of, the difference estimate counts the
    items of the first sketch that the second lacks, and [str] renders
    integers in decimal. *)

Definition example_str (v : pyval) : string :=
  match v with
  | PNone => "None"
  | PBool true => "True"
  | PBool false => "False"
  | PInt z => NilZero.string_of_int (Z.to_int z)
  | PFloat q =>
      NilZero.string_of_int (Z.to_int (Qnum q)) ++ "/"
      ++ NilZero.string_of_int (Z.to_int (Zpos (Qden q)))
  | PStr s => s
  | PObj _ => "<object>"
  | PNaN => "nan"
  end.

Definition example_builtins : Builtins := {|
  re_valid := fun _ => true;
  re_match := fun p s => String.prefix p s;
  a_not_b_estimate := fun a b =>
    inject_Z (Z.of_nat (List.length (filter (fun x => negb (set_mem x b)) a)));
  py_str := example_str;
  set_str := fun s => "{" ++ String.concat ", " (map example_str s) ++ "}"
|}.

(** The constraint of scenario 1, as [__init__] builds it. *)
Definition gt_zero : ValueConstraint.t :=
  ValueConstraint.mk None false GT 0 0 (Some (PInt 0)) None
    (fun v => cmp_operand py_gt (Lit (PInt 0)) v).

(** [ValueConstraint(GT, 5)], as [__init__] builds it. *)
Definition gt_five : ValueConstraint.t :=
  ValueConstraint.mk None false GT 0 0 (Some (PInt 5)) None
    (fun v => cmp_operand py_gt (Lit (PInt 5)) v).

(** [SummaryConstraint("min", GE, value=0)], as [__init__] builds it. *)
Definition min_ge_zero : SummaryConstraint.t :=
  field_instance "min" GE (PInt 0) PNone None None None false
    (fun s => x <- getattr s "min" ;; py_ge x (PInt 0)).

Section Scenarios.
#[local] Existing Instance example_builtins.

(** Scenario 1 of the specification: [ValueConstraint(GT, 0)], then
  [update(5)] and [update(-1)]. *)
Example scenario_value_constraint :
exists c,
  ValueConstraint.__init__ GT (PInt 0) None None false = Ok c
  /\ let c1 := fst (ValueConstraint.update c (PInt 5)) in
     let c2 := fst (ValueConstraint.update c1 (PInt (-1))) in
     (ValueConstraint.total c1, ValueConstraint.failures c1) = (1, 0)
     /\ (ValueConstraint.total c2, ValueConstraint.failures c2) = (2, 1).
Proof. eexists; split; [reflexivity | split; reflexivity]. Qed.

(** Scenario 2: [SummaryConstraint("min", GE, value=0)] on a summary
  whose [min] is -1. *)
Example scenario_summary_constraint :
exists c,
  SummaryConstraint.__init__ "min" GE (PInt 0) PNone
    None None (AVal PNone) None false = Ok c
  /\ SummaryConstraint.failures
       (fst (SummaryConstraint.update c
               (mk_update_dict (Some [("min", PInt (-1))]) (Some []) (Some []))))
     = 1.
Proof. eexists; split; reflexivity. Qed.

(** The set scenario: a reference set of three strings against the
  observed strings [a, b], then against [a, z]. *)
Example scenario_in_set :
exists c,
  SummaryConstraint.__init__ "distinct_column_values"
    IN_SET PNone PNone None None (ASet [PStr "a"; PStr "b"; PStr "c"])
    None false = Ok c
  /\ SummaryConstraint.failures
       (fst (SummaryConstraint.update c
               (mk_update_dict (Some []) (Some [PStr "a"; PStr "b"]) (Some []))))
     = 0
  /\ SummaryConstraint.failures
       (fst (SummaryConstraint.update c
               (mk_update_dict (Some []) (Some [PStr "a"; PStr "z"]) (Some []))))
     = 1.
Proof. eexists; split; [reflexivity | split; reflexivity]. Qed.

End Scenarios.

(* ------------------------------------------------------------------ *)
(** ** update: what a call changes *)

Section UpdateFacts.
Context `{Builtins}.

(** [logger.info] returns nothing or raises. *)
Lemma logger_info_cases (msg : result string) :
  logger_info msg = Ok tt \/ exists e, logger_info msg = Raise e.
Proof.
  destruct msg as [s | e]; [left | right; exists e]; reflexivity.
Qed.

(** A call of [ValueConstraint.update] leaves an instance that differs
    from the one before in the counters only: [total] is one more and
    [failures] is the same or one more. *)
Lemma value_update_shape (c : ValueConstraint.t) (v : pyval) :
  exists f,
    fst (ValueConstraint.update c v)
    = ValueConstraint.set_failures
        (ValueConstraint.set_total c (ValueConstraint.total c + 1)) f
    /\ (f = ValueConstraint.failures c \/ f = ValueConstraint.failures c + 1).
Proof.
  unfold ValueConstraint.update.
  destruct c as [nm vb o t f val pat fn]; cbn.
  destruct (is_match_op o && negb (is_str v)).
  - exists (f + 1). destruct vb; cbn; auto.
  - destruct (fn v) as [[|] | e]; cbn.
    + exists f; auto.
    + exists (f + 1). destruct vb; cbn; auto.
    + exists f; auto.
Qed.

(** The same for [SummaryConstraint.update]. *)
Lemma summary_update_shape (c : SummaryConstraint.t) (d : update_dict) :
  exists f,
    fst (SummaryConstraint.update c d)
    = SummaryConstraint.set_failures
        (SummaryConstraint.set_total c (SummaryConstraint.total c + 1)) f
    /\ (f = SummaryConstraint.failures c
        \/ f = SummaryConstraint.failures c + 1).
Proof.
  unfold SummaryConstraint.update.
  destruct (SummaryConstraint.evaluate _ d) as [[|] | e].
  - exists (SummaryConstraint.failures c). destruct c; cbn; auto.
  - exists (SummaryConstraint.failures c + 1).
    unfold SummaryConstraint.count_failure.
    destruct c as [vb nm o ff sf tf t f v uv r rs rn ts tss tn fn]; cbn.
    destruct vb; cbn; auto.
  - exists (SummaryConstraint.failures c). destruct c; cbn; auto.
Qed.

End UpdateFacts.

(** C4. A call of [update] increases [total] by exactly one and leaves
    [failures] as it was or increases it by one, for a [ValueConstraint]
    and for a [SummaryConstraint]: for every instance and every input,
    whether the call returns or raises, and so for every input that
    [update] accepts. *)
Theorem update_is_monotonic `{Builtins} :
  (forall (c : ValueConstraint.t) (v : pyval),
      let c' := fst (ValueConstraint.update c v) in
      ValueConstraint.total c' = ValueConstraint.total c + 1
      /\ ValueConstraint.failures c <= ValueConstraint.failures c'
         <= ValueConstraint.failures c + 1)
  /\ (forall (c : SummaryConstraint.t) (d : update_dict),
         let c' := fst (SummaryConstraint.update c d) in
         SummaryConstraint.total c' = SummaryConstraint.total c + 1
         /\ SummaryConstraint.failures c <= SummaryConstraint.failures c'
            <= SummaryConstraint.failures c + 1).
Proof.
  split; intros c x; cbv zeta.
  - destruct (value_update_shape c x) as [f [-> Hf]].
    destruct c; cbn in *. split; [reflexivity | lia].
  - destruct (summary_update_shape c x) as [f [-> Hf]].
    destruct c; cbn in *. split; [reflexivity | lia].
Qed.

Lemma update_is_monotonic_witness :
  @ValueConstraint.update example_builtins gt_zero (PInt (-1))
  = (value_counted gt_zero 1 1, Ok tt)
  /\ @SummaryConstraint.update example_builtins min_ge_zero
       (mk_update_dict (Some [("min", PInt 3)]) (Some []) (Some []))
     = (counted min_ge_zero 1 0, Ok tt)
  /\ (let c' := fst (@ValueConstraint.update example_builtins gt_zero
                       (PInt (-1))) in
      ValueConstraint.total c' = ValueConstraint.total gt_zero + 1
      /\ ValueConstraint.failures gt_zero <= ValueConstraint.failures c'
         <= ValueConstraint.failures gt_zero + 1)
  /\ (let c' := fst (@SummaryConstraint.update example_builtins min_ge_zero
                       (mk_update_dict (Some [("min", PInt 3)]) (Some [])
                          (Some []))) in
      SummaryConstraint.total c' = SummaryConstraint.total min_ge_zero + 1
      /\ SummaryConstraint.failures min_ge_zero
         <= SummaryConstraint.failures c'
         <= SummaryConstraint.failures min_ge_zero + 1).
Proof.
  split; [reflexivity |]. split; [reflexivity |]. split.
  - exact (proj1 (@update_is_monotonic example_builtins) gt_zero (PInt (-1))).
  - exact (proj2 (@update_is_monotonic example_builtins) min_ge_zero
             (mk_update_dict (Some [("min", PInt 3)]) (Some []) (Some []))).
Defined.

(** C10. Whatever a call of [update] does, return or raise, the instance
    afterwards is the instance before with new values of [total] and
    [failures]: operator, name, verbose flag, literal or pattern, operand
    fields, reference set, derived sets and sketches and the bound
    predicate are the same. *)
Theorem update_changes_counters_only `{Builtins} :
  (forall (c : ValueConstraint.t) (v : pyval),
      let c' := fst (ValueConstraint.update c v) in
      c' = ValueConstraint.set_failures
             (ValueConstraint.set_total c (ValueConstraint.total c'))
             (ValueConstraint.failures c'))
  /\ (forall (c : SummaryConstraint.t) (d : update_dict),
         let c' := fst (SummaryConstraint.update c d) in
         c' = SummaryConstraint.set_failures
                (SummaryConstraint.set_total c (SummaryConstraint.total c'))
                (SummaryConstraint.failures c')).
Proof.
  split; intros c x c'; subst c'.
  - destruct (value_update_shape c x) as [f [E _]].
    rewrite E. destruct c; reflexivity.
  - destruct (summary_update_shape c x) as [f [E _]].
    rewrite E. destruct c; reflexivity.
Qed.

(* ------------------------------------------------------------------ *)
(** ** MATCH and NOMATCH on a value that is not text *)

(** With a regular-expression operator and an input that is not a [str],
    [update] counts a failure, whether or not the call then returns. *)
Lemma match_update_counts_failure `{Builtins}
    (c : ValueConstraint.t) (v : pyval) :
  is_match_op (ValueConstraint.op c) = true ->
  is_str v = false ->
  fst (ValueConstraint.update c v)
  = ValueConstraint.set_failures
      (ValueConstraint.set_total c (ValueConstraint.total c + 1))
      (ValueConstraint.failures c + 1).
Proof.
  intros Ho Hv. unfold ValueConstraint.update.
  destruct c as [nm vb o t f val pat fn]; cbn in *.
  rewrite Ho, Hv; cbn. destruct vb; reflexivity.
Qed.

(** The call returns when the constraint is not verbose, or when its
    [name] can be rendered. *)
Lemma match_update_returns `{Builtins}
    (c : ValueConstraint.t) (v : pyval) :
  is_match_op (ValueConstraint.op c) = true ->
  is_str v = false ->
  ValueConstraint._verbose c = false
  \/ (exists n, ValueConstraint.name c = Ok n) ->
  snd (ValueConstraint.update c v) = Ok tt.
Proof.
  intros Ho Hv Hn. unfold ValueConstraint.update.
  destruct c as [nm vb o t f val pat fn]; cbn in *.
  rewrite Ho, Hv; cbn. destruct vb; cbn; [| reflexivity].
  destruct Hn as [Hn | [n Hn]]; [discriminate |].
  unfold ValueConstraint.name in *; cbn in *.
  rewrite Hn. reflexivity.
Qed.

(** A constraint built by [__init__] with a pattern always has a name to
    render. *)
Lemma pattern_constraint_has_name `{Builtins}
    (o : Op) (p : string) (nm : option string) (vb : bool)
    (c : ValueConstraint.t) :
  ValueConstraint.__init__ o PNone (Some p) nm vb = Ok c ->
  exists n, ValueConstraint.name c = Ok n.
Proof.
  unfold ValueConstraint.__init__; cbn.
  destruct (table_get _value_funcs o) as [f | e]; cbn; [| discriminate].
  destruct (re_valid p); [| discriminate].
  intros E; injection E as <-.
  unfold ValueConstraint.name; cbn. destruct nm; eauto.
Qed.

(** C5. [ValueConstraint(Op.MATCH, value=0, verbose=True)] updated with
    the integer 5: the failure is counted, and the call then raises
    [AttributeError], from the [name] property that the log message
    renders. *)
Theorem match_update_raises_on_falsy_literal `{Builtins} :
  exists c,
    ValueConstraint.__init__ MATCH (PInt 0) None None true = Ok c
    /\ ValueConstraint.update c (PInt 5)
       = (ValueConstraint.set_failures (ValueConstraint.set_total c 1) 1,
          Raise AttributeError).
Proof. eexists; split; reflexivity. Qed.

(* ------------------------------------------------------------------ *)
(** ** Indexing a collection *)

(** C8. [collection[name]] raises [AttributeError] for every collection
    of either class and every name: the attribute [contraints] that it
    tests is neither set by [__init__] nor defined by the class. *)
Theorem getitem_always_raises :
  (forall (c : ValueConstraints.t) (nm : string),
      ValueConstraints.__getitem__ c nm = Raise AttributeError)
  /\ (forall (c : SummaryConstraints.t) (nm : string),
         SummaryConstraints.__getitem__ c nm = Raise AttributeError).
Proof. split; intros c nm; reflexivity. Qed.

(** The lookup that the method was meant to do finds the member. *)
Lemma getitem_intended_lookup (C : Type) (c : Constraints.t C) (nm : string) :
  d <- Constraints.getattribute C c "constraints" ;;
  Constraints.attribute_get C d nm
  = Ok (Constraints.dict_get (Constraints.constraints c) nm).
Proof. reflexivity. Qed.

(* ------------------------------------------------------------------ *)
(** ** Construction of a SummaryConstraint *)

Section SummaryInit.

(** [value >= upper_value] never raises on what
    [isinstance(_, (int, float))] accepts. *)
Lemma py_ge_numeric (v uv : pyval) :
  is_int_or_float v = true ->
  is_int_or_float uv = true ->
  exists b, py_ge v uv = Ok b.
Proof.
  intros Hv Hu.
  unfold py_ge, py_le, py_order.
  destruct v; try discriminate; destruct uv; try discriminate; cbn;
    eexists; reflexivity.
Qed.

(** Without NaN, it is the negation of [value < upper_value]. *)
Lemma py_ge_not_lt (v uv : pyval) :
  is_int_or_float v = true ->
  is_int_or_float uv = true ->
  is_nan v = false ->
  is_nan uv = false ->
  exists b, py_ge v uv = Ok b /\ py_lt v uv = Ok (negb b).
Proof.
  intros Hv Hu Nv Nu.
  unfold py_ge, py_le, py_lt, py_order, Qlt_bool.
  destruct v; try discriminate; destruct uv; try discriminate; cbn;
    eexists; split; reflexivity.
Qed.

(** With NaN on either side, both are false. *)
Lemma py_order_nan (v uv : pyval) :
  is_int_or_float v = true ->
  is_int_or_float uv = true ->
  is_nan v = true \/ is_nan uv = true ->
  py_ge v uv = Ok false /\ py_lt v uv = Ok false.
Proof.
  intros Hv Hu N.
  unfold py_ge, py_le, py_lt, py_order.
  destruct v; try discriminate; destruct uv; try discriminate;
    destruct N as [N | N]; try discriminate N; cbn; split; reflexivity.
Qed.

(** Two numbers that are equal are not in strict order. *)
Lemma py_eq_not_lt (v uv : pyval) :
  py_eq v uv = true -> py_lt v uv <> Ok true.
Proof.
  unfold py_eq, py_lt, py_order, Qlt_bool.
  destruct (num_of v) as [x |] eqn:Ex, (num_of uv) as [y |] eqn:Ey.
  - intros E. apply Qeq_bool_iff in E.
    assert (L : Qle_bool y x = true)
      by (apply Qle_bool_iff; rewrite E; apply Qle_refl).
    rewrite L. discriminate.
  - destruct v, uv; try discriminate.
  - destruct v, uv; try discriminate.
  - destruct v, uv; try discriminate; cbn.
    intros E. apply String.eqb_eq in E. subst.
    unfold String.ltb. pose proof (String.compare_antisym s0 s0) as A.
    destruct (String.compare s0 s0); cbn in A; discriminate.
Qed.

(** The BETWEEN arm of [__init__] with both literal bounds given. *)
Lemma between_literals_init (ff : string) (v uv : pyval)
    (sf tf : option string) (rs : set_like) (nm : option string)
    (vb : bool) :
  is_none v = false ->
  is_none uv = false ->
  SummaryConstraint.__init__ ff BTWN v uv sf tf rs nm vb
  = match sf, tf with
    | None, None =>
        if negb (is_int_or_float v) || negb (is_int_or_float uv)
        then Raise TypeError
        else match py_ge v uv with
             | Ok false =>
                 Ok (SummaryConstraint.mk vb nm BTWN ff None None 0 0 v uv
                       None None None None None None
                       (Some (_summary_funcs1_BTWN ff v uv)))
             | _ => Raise ValueError
             end
    | _, _ => Raise ValueError
    end.
Proof.
  intros Hv Hu. unfold SummaryConstraint.__init__; cbn.
  rewrite Hv, Hu; cbn.
  destruct sf, tf; try reflexivity.
  destruct (is_int_or_float v) eqn:Nv, (is_int_or_float uv) eqn:Nu;
    cbn; try reflexivity.
  destruct (py_ge_numeric v uv Nv Nu) as [b Eg].
  rewrite Eg. destruct b; reflexivity.
Qed.

(** With both literal bounds given and neither of them NaN, a BETWEEN
    constraint is constructed exactly when no bound field is given, both
    bounds are instances of [int] or [float] and the lower bound is
    strictly less than the upper one; otherwise the constructor raises
    [ValueError] or [TypeError], and it does so for equal bounds. *)
Lemma between_literals_checked
    (ff : string) (v uv : pyval) (sf tf : option string)
    (rs : set_like) (nm : option string) (vb : bool) :
  is_none v = false ->
  is_none uv = false ->
  is_nan v = false ->
  is_nan uv = false ->
  ((exists c, SummaryConstraint.__init__ ff BTWN v uv sf tf rs nm vb = Ok c)
   <-> (sf = None /\ tf = None
        /\ is_int_or_float v = true /\ is_int_or_float uv = true
        /\ py_lt v uv = Ok true))
  /\ (forall e, SummaryConstraint.__init__ ff BTWN v uv sf tf rs nm vb = Raise e ->
                configuration_error e)
  /\ (py_eq v uv = true ->
      exists e, SummaryConstraint.__init__ ff BTWN v uv sf tf rs nm vb = Raise e
                /\ configuration_error e).
Proof.
  intros Hv Hu Av Au.
  rewrite (between_literals_init ff v uv sf tf rs nm vb Hv Hu).
  unfold configuration_error.
  assert (G : is_int_or_float v = true -> is_int_or_float uv = true ->
              exists b, py_ge v uv = Ok b /\ py_lt v uv = Ok (negb b))
    by (intros Nv Nu; apply py_ge_not_lt; assumption).
  split; [| split].
  - split.
    + intros [c E].
      destruct sf, tf; try discriminate.
      destruct (is_int_or_float v), (is_int_or_float uv); try discriminate.
      destruct (G eq_refl eq_refl) as (b & Eg & El).
      cbn in E. rewrite Eg in E. destruct b; try discriminate.
      repeat split; try reflexivity. exact El.
    + intros (-> & -> & Nv & Nu & L). rewrite Nv, Nu. cbn.
      destruct (G Nv Nu) as (b & Eg & El). rewrite Eg.
      destruct b; [cbn in El; congruence | eauto].
  - intros e E.
    destruct sf, tf; try (injection E as <-; auto; fail).
    destruct (negb (is_int_or_float v) || negb (is_int_or_float uv)).
    + injection E as <-; auto.
    + destruct (py_ge v uv) as [[|] | e']; try discriminate;
        injection E as <-; auto.
  - intros Eq. pose proof (py_eq_not_lt v uv Eq) as NL.
    destruct sf, tf; try (exists ValueError; auto; fail).
    destruct (is_int_or_float v) eqn:Nv, (is_int_or_float uv) eqn:Nu; cbn;
      try (exists TypeError; auto; fail).
    destruct (G eq_refl eq_refl) as (b & Eg & El). rewrite Eg.
    destruct b; [exists ValueError; auto | cbn in El; congruence].
Qed.

End SummaryInit.

(** C6. The constructor tests the bounds by [value >= upper_value], which
    is false when either is NaN. With operator BETWEEN and two literal
    bounds of type [int] or [float] of which one is NaN, [__init__]
    returns a constraint on these bounds, although the lower bound is not
    less than the upper one. *)
Theorem between_admits_nan_bound
    (ff : string) (v uv : pyval) (rs : set_like) (nm : option string)
    (vb : bool) :
  is_int_or_float v = true ->
  is_int_or_float uv = true ->
  is_nan v = true \/ is_nan uv = true ->
  py_lt v uv = Ok false
  /\ exists c,
       SummaryConstraint.__init__ ff BTWN v uv None None rs nm vb = Ok c
       /\ SummaryConstraint.value c = v
       /\ SummaryConstraint.upper_value c = uv.
Proof.
  intros Hv Hu N.
  destruct (py_order_nan v uv Hv Hu N) as [Eg El].
  split; [exact El |].
  assert (Nv : is_none v = false) by (destruct v; try discriminate; reflexivity).
  assert (Nu : is_none uv = false) by (destruct uv; try discriminate; reflexivity).
  rewrite (between_literals_init ff v uv None None rs nm vb Nv Nu).
  rewrite Hv, Hu, Eg. cbn. eexists. repeat split.
Qed.

Lemma between_admits_nan_bound_witness :
  py_lt PNaN (PFloat 1) = Ok false
  /\ exists c,
       SummaryConstraint.__init__ "min" BTWN PNaN (PFloat 1) None None
         (AVal PNone) None false = Ok c
       /\ SummaryConstraint.value c = PNaN
       /\ SummaryConstraint.upper_value c = PFloat 1.
Proof.
  exact (between_admits_nan_bound "min" PNaN (PFloat 1) (AVal PNone) None
           false eq_refl eq_refl (or_introl eq_refl)).
Defined.

(** C9. With a set operator, a reference set whose truth value is false
    (an empty set, an empty list, an empty string, [None]) makes
    [__init__] raise [ValueError], by the test that also rejects a
    reference set left out. *)
Theorem empty_reference_set_rejected
    (ff : string) (o : Op) (v uv : pyval) (sf tf : option string)
    (rs : set_like) (nm : option string) (vb : bool) :
  is_set_op o = true ->
  truthy_set_like rs = false ->
  SummaryConstraint.__init__ ff o v uv sf tf rs nm vb = Raise ValueError
  /\ SummaryConstraint.__init__ ff o v uv sf tf (AVal PNone) nm vb
     = Raise ValueError
  /\ configuration_error ValueError.
Proof.
  intros Ho Hr. unfold SummaryConstraint.__init__. rewrite Ho, Hr. cbn.
  rewrite !orb_true_r. repeat split. left; reflexivity.
Qed.

Lemma empty_reference_set_rejected_witness :
  SummaryConstraint.__init__ "distinct_column_values"
    IN_SET PNone PNone None None (ASet []) None false
  = Raise ValueError.
Proof.
  exact (proj1 (empty_reference_set_rejected
                  "distinct_column_values" IN_SET PNone PNone None None
                  (ASet []) None false eq_refl eq_refl)).
Defined.

(* ------------------------------------------------------------------ *)
(** ** Sets *)

Lemma Qeq_bool_sym (x y : Q) : Qeq_bool x y = Qeq_bool y x.
Proof.
  destruct (Qeq_bool x y) eqn:E, (Qeq_bool y x) eqn:F; try reflexivity.
  - apply Qeq_bool_iff in E. symmetry in E. apply Qeq_bool_iff in E. congruence.
  - apply Qeq_bool_iff in F. symmetry in F. apply Qeq_bool_iff in F. congruence.
Qed.

Lemma py_eq_sym (a b : pyval) : py_eq a b = py_eq b a.
Proof.
  unfold py_eq.
  destruct (num_of a) as [x |] eqn:Ea, (num_of b) as [y |] eqn:Eb.
  - apply Qeq_bool_sym.
  - destruct a, b; try discriminate; reflexivity.
  - destruct a, b; try discriminate; reflexivity.
  - destruct a, b; try discriminate; try reflexivity.
    + apply String.eqb_sym.
    + apply Pos.eqb_sym.
Qed.

Lemma set_mem_app (x : pyval) (s r : pyset) :
  set_mem x (s ++ r)%list = set_mem x s || set_mem x r.
Proof. unfold set_mem. apply existsb_app. Qed.

(** The members of [s] all differ from [x]. *)
Lemma set_mem_false (x : pyval) (s : pyset) :
  set_mem x s = false <-> forall y, In y s -> py_eq x y = false.
Proof.
  unfold set_mem. induction s as [| a s IH]; cbn.
  - split; [intros _ y [] | reflexivity].
  - rewrite orb_false_iff, IH. split.
    + intros [E F] y [<- | I]; auto.
    + intros F. split; [apply F; auto | intros y I; apply F; auto].
Qed.

(** Adding, at the end of a set, a member that it lacks keeps it a set. *)
Lemma pyset_wf_snoc (s : pyset) (x : pyval) :
  pyset_wf s -> set_mem x s = false -> pyset_wf (s ++ [x])%list.
Proof.
  induction s as [| a s IH]; cbn.
  - auto.
  - intros [Ha Hs] Hx. apply orb_false_iff in Hx as [Hxa Hxs].
    split; [| auto].
    rewrite set_mem_app, Ha. cbn. rewrite py_eq_sym, Hxa. reflexivity.
Qed.

Lemma set_add_wf (s : pyset) (x : pyval) :
  pyset_wf s -> pyset_wf (set_add s x).
Proof.
  intros W. unfold set_add. destruct (set_mem x s) eqn:E; [assumption |].
  apply pyset_wf_snoc; assumption.
Qed.

Lemma fold_set_add_wf (l : list pyval) (acc : pyset) :
  pyset_wf acc -> pyset_wf (fold_left set_add l acc).
Proof.
  revert acc. induction l as [| x l IH]; cbn; intros acc W.
  - assumption.
  - apply IH, set_add_wf, W.
Qed.

(** [set(iterable)] is a set. *)
Lemma set_of_list_wf (l : list pyval) : pyset_wf (set_of_list l).
Proof. apply fold_set_add_wf. exact I. Qed.

(** Feeding the members of a set to [set.add], one by one, appends
    them. *)
Lemma fold_set_add_fresh (l : list pyval) (acc : pyset) :
  pyset_wf l ->
  (forall x, In x l -> set_mem x acc = false) ->
  fold_left set_add l acc = (acc ++ l)%list.
Proof.
  revert acc. induction l as [| x l IH]; cbn; intros acc W F.
  - symmetry. apply app_nil_r.
  - destruct W as [Hx W]. unfold set_add at 2.
    rewrite (F x (or_introl eq_refl)).
    rewrite IH; [rewrite <- app_assoc; reflexivity | assumption |].
    intros y I. rewrite set_mem_app, (F y (or_intror I)). cbn.
    rewrite orb_false_r, py_eq_sym.
    exact (proj1 (set_mem_false x l) Hx y I).
Qed.

(** [set(s)] of a set has the members of [s], in the same order. *)
Lemma set_of_list_id (s : pyset) : pyset_wf s -> set_of_list s = s.
Proof.
  intros W. unfold set_of_list.
  rewrite fold_set_add_fresh; [reflexivity | assumption | reflexivity].
Qed.

(** A set is a set of its own members. *)
Lemma pyset_wf_filter (p : pyval -> bool) (s : pyset) :
  pyset_wf s -> pyset_wf (filter p s).
Proof.
  induction s as [| a s IH]; cbn; [auto |].
  intros [Ha W]. destruct (p a); cbn; [| auto].
  split; [| auto].
  apply set_mem_false. intros y I. apply filter_In in I as [I _].
  exact (proj1 (set_mem_false a s) Ha y I).
Qed.

(** The loop of [get_string_and_numbers_sets], from any two sets that
    share no member with what is still to come. *)
Lemma string_and_numbers_fold (l : pyset) (ss ns : pyset) :
  pyset_wf l ->
  (forall x, In x l -> set_mem x ss = false /\ set_mem x ns = false) ->
  fold_left SummaryConstraint.string_and_numbers_step l (ss, ns)
  = ((ss ++ filter is_str l)%list, (ns ++ filter is_number_item l)%list).
Proof.
  revert ss ns. induction l as [| a l IH]; cbn; intros ss ns W F.
  - rewrite !app_nil_r. reflexivity.
  - destruct W as [Ha W].
    destruct (F a (or_introl eq_refl)) as [Fs Fn].
    assert (D : forall y, In y l -> py_eq y a = false).
    { intros y I. rewrite py_eq_sym.
      exact (proj1 (set_mem_false a l) Ha y I). }
    destruct (is_str a) eqn:Sa.
    + assert (Na : is_number_item a = false)
        by (destruct a; try discriminate; reflexivity).
      rewrite Na. unfold set_add. rewrite Fs.
      rewrite IH; [rewrite <- app_assoc; reflexivity | assumption |].
      intros y I. destruct (F y (or_intror I)) as [Gs Gn].
      split; [| assumption].
      rewrite set_mem_app, Gs. cbn. rewrite (D y I). reflexivity.
    + destruct (is_number_item a) eqn:Na.
      * unfold set_add. rewrite Fn.
        rewrite IH; [rewrite <- app_assoc; reflexivity | assumption |].
        intros y I. destruct (F y (or_intror I)) as [Gs Gn].
        split; [assumption |].
        rewrite set_mem_app, Gn. cbn. rewrite (D y I). reflexivity.
      * apply IH; [assumption |].
        intros y I. apply F. right; assumption.
Qed.

(** On a set, [get_string_and_numbers_sets] selects the strings and the
    numbers that are not booleans. *)
Lemma string_and_numbers_sets_filter (r : pyset) :
  pyset_wf r ->
  SummaryConstraint.string_and_numbers_sets r
  = (filter is_str r, filter is_number_item r).
Proof.
  intros W. unfold SummaryConstraint.string_and_numbers_sets.
  rewrite string_and_numbers_fold; [reflexivity | assumption |].
  intros x _. split; reflexivity.
Qed.

(* ------------------------------------------------------------------ *)
(** ** The set arm of [SummaryConstraint.__init__] *)

Lemma fold_set_add_nonempty (l : list pyval) (acc : pyset) :
  acc <> [] -> fold_left set_add l acc <> [].
Proof.
  revert acc. induction l as [| x l IH]; cbn; intros acc N; [assumption |].
  apply IH. unfold set_add. destruct (set_mem x acc); [assumption |].
  destruct acc; [congruence | discriminate].
Qed.

Lemma set_of_list_nonempty (l : list pyval) :
  l <> [] -> set_of_list l <> [].
Proof.
  destruct l as [| x l]; [congruence | intros _].
  unfold set_of_list; cbn. apply fold_set_add_nonempty.
  unfold set_add; cbn. discriminate.
Qed.

(** What [set()] makes of a reference input is a set, and it has a member
    when the input is true. *)
Lemma set_cast_wf (rs : set_like) (r : pyset) :
  set_like_wf rs -> set_cast rs = Ok r -> pyset_wf r.
Proof.
  destruct rs as [s | l | v]; cbn.
  - intros W E; injection E as <-; assumption.
  - intros _ E; injection E as <-; apply set_of_list_wf.
  - destruct v; try discriminate.
    intros _ E; injection E as <-; apply set_of_list_wf.
Qed.

Lemma set_cast_truthy (rs : set_like) (r : pyset) :
  truthy_set_like rs = true -> set_cast rs = Ok r ->
  truthy_set_like (ASet r) = true.
Proof.
  assert (T : forall s : pyset, s <> [] -> truthy_set_like (ASet s) = true)
    by (intros [| x s] N; [congruence | reflexivity]).
  destruct rs as [s | l | v]; cbn.
  - intros Ht E; injection E as <-; assumption.
  - intros Ht E; injection E as <-. apply T, set_of_list_nonempty.
    destruct l; [discriminate | discriminate].
  - destruct v; try discriminate.
    intros Ht E; injection E as <-. apply T, set_of_list_nonempty.
    destruct s; [discriminate | discriminate].
Qed.

(** The loop of [create_theta_sketch] feeds every item when the sketch
    takes them all, and raises [TypeError] at the first that it does not
    take. *)
Lemma theta_loop_accepts (s : pyset) (acc : theta_sketch) :
  forallb theta_accepts s = true ->
  SummaryConstraint.theta_loop s acc = Ok (acc ++ s)%list.
Proof.
  revert acc. induction s as [| x s IH]; cbn; intros acc A.
  - rewrite app_nil_r. reflexivity.
  - apply andb_true_iff in A as [Ax As].
    unfold theta_update. rewrite Ax. cbn.
    rewrite (IH _ As), <- app_assoc. reflexivity.
Qed.

Lemma theta_loop_rejects (s : pyset) (acc : theta_sketch) :
  forallb theta_accepts s = false ->
  SummaryConstraint.theta_loop s acc = Raise TypeError.
Proof.
  revert acc. induction s as [| x s IH]; cbn; intros acc A; [discriminate |].
  unfold theta_update. destruct (theta_accepts x); cbn in *.
  - apply IH. exact A.
  - reflexivity.
Qed.

(** The loop of [get_string_and_numbers_sets] adds members of the
    reference set only. *)
Lemma string_and_numbers_members (l ss ns : pyset) (x : pyval) :
  (In x (fst (fold_left SummaryConstraint.string_and_numbers_step l (ss, ns)))
   -> In x ss \/ In x l)
  /\ (In x (snd (fold_left SummaryConstraint.string_and_numbers_step l (ss, ns)))
      -> In x ns \/ In x l).
Proof.
  assert (A : forall (s : pyset) (a : pyval),
             In x (set_add s a) -> In x s \/ x = a).
  { intros s a. unfold set_add. destruct (set_mem a s); [auto |].
    intros I. apply in_app_or in I as [I | [<- | []]]; auto. }
  revert ss ns. induction l as [| a l IH]; cbn; intros ss ns; [auto |].
  destruct (is_str a); [| destruct (is_number_item a)];
    destruct (IH (set_add ss a) ns) as [S1 N1];
    destruct (IH ss (set_add ns a)) as [S2 N2];
    destruct (IH ss ns) as [S3 N3]; split; intros I;
    repeat match goal with
           | H : In x ?t -> _, I : In x ?t |- _ => apply H in I
           | I : _ \/ _ |- _ => destruct I as [I | I]
           | I : In x (set_add _ _) |- _ => apply A in I
           end; subst; auto.
Qed.

(** The sketch that takes the members of a set takes those of its two
    subsets. *)
Lemma subsets_accepted (r : pyset) :
  forallb theta_accepts r = true ->
  forallb theta_accepts (fst (SummaryConstraint.string_and_numbers_sets r))
  = true
  /\ forallb theta_accepts (snd (SummaryConstraint.string_and_numbers_sets r))
     = true.
Proof.
  intros A. rewrite forallb_forall in A.
  unfold SummaryConstraint.string_and_numbers_sets.
  split; apply forallb_forall; intros x I;
    destruct (string_and_numbers_members r [] [] x) as [S N];
    [apply S in I | apply N in I]; destruct I as [[] | I]; auto.
Qed.

(** The set arm of [__init__], once the operands have passed the test and
    the reference input is a set: the constraint when the sketch takes
    every member, [TypeError] when it does not. *)
Lemma set_arm (ff : string) (o : Op) (v uv : pyval)
    (sf tf : option string) (rs : set_like) (r : pyset) (nm : option string)
    (vb : bool) :
  is_set_op o = true ->
  truthy v || truthy uv || truthy_str sf || truthy_str tf
  || negb (truthy_set_like rs) = false ->
  set_cast rs = Ok r ->
  SummaryConstraint.__init__ ff o v uv sf tf rs nm vb
  = if forallb theta_accepts r
    then Ok (set_instance ff o v uv sf tf r nm vb)
    else Raise TypeError.
Proof.
  intros Ho A Ec. unfold SummaryConstraint.__init__. rewrite Ho, A, Ec.
  cbn -[SummaryConstraint.string_and_numbers_sets SummaryConstraint.theta_loop].
  destruct (forallb theta_accepts r) eqn:Ar.
  - destruct (subsets_accepted r Ar) as [As An].
    rewrite !theta_loop_accepts by assumption. reflexivity.
  - rewrite theta_loop_rejects by assumption. reflexivity.
Qed.

Lemma set_init_inv (ff : string) (o : Op) (v uv : pyval)
    (sf tf : option string) (rs : set_like) (nm : option string)
    (vb : bool) (c : SummaryConstraint.t) :
  is_set_op o = true ->
  SummaryConstraint.__init__ ff o v uv sf tf rs nm vb = Ok c ->
  exists r,
    set_cast rs = Ok r /\ truthy_set_like rs = true
    /\ c = set_instance ff o v uv sf tf r nm vb
    /\ forallb theta_accepts r = true.
Proof.
  intros Ho E.
  destruct (truthy v || truthy uv || truthy_str sf || truthy_str tf
            || negb (truthy_set_like rs)) eqn:A.
  - unfold SummaryConstraint.__init__ in E. rewrite Ho, A in E. discriminate.
  - destruct (set_cast rs) as [r | e] eqn:Ec.
    + rewrite (set_arm ff o v uv sf tf rs r nm vb Ho A Ec) in E.
      destruct (forallb theta_accepts r) eqn:Ar; [| discriminate].
      injection E as <-. exists r. repeat split; [| exact Ar].
      apply orb_false_iff in A as [_ A]. apply negb_false_iff in A. exact A.
    + unfold SummaryConstraint.__init__ in E. rewrite Ho, A, Ec in E.
      discriminate.
Qed.

Lemma set_init_ok (ff : string) (o : Op) (r : pyset)
    (nm : option string) (vb : bool) :
  is_set_op o = true ->
  truthy_set_like (ASet r) = true ->
  forallb theta_accepts r = true ->
  SummaryConstraint.__init__ ff o PNone PNone None None (ASet r) nm vb
  = Ok (set_instance ff o PNone PNone None None r nm vb).
Proof.
  intros Ho Hr Ar.
  rewrite (set_arm ff o PNone PNone None None (ASet r) r nm vb Ho);
    [rewrite Ar; reflexivity
    | change (negb (truthy_set_like (ASet r)) = false); rewrite Hr; reflexivity
    | reflexivity].
Qed.

(** C7. In a [SummaryConstraint] built with a set operator from a
    reference set, the members of the numeric subset are exactly the
    members of the reference set that are real numbers and not booleans,
    and the members of the string subset are exactly its strings; no
    boolean is in the numeric subset. *)
Theorem reference_set_partition
    (ff : string) (o : Op) (v uv : pyval) (sf tf : option string)
    (rs : set_like) (nm : option string) (vb : bool)
    (c : SummaryConstraint.t) :
  is_set_op o = true ->
  set_like_wf rs ->
  SummaryConstraint.__init__ ff o v uv sf tf rs nm vb = Ok c ->
  exists r strings numbers,
    set_cast rs = Ok r
    /\ SummaryConstraint.reference_set c = Some r
    /\ SummaryConstraint.ref_string_set c = Some strings
    /\ SummaryConstraint.ref_numbers_set c = Some numbers
    /\ (forall x, In x numbers
                  <-> In x r /\ is_real x = true /\ is_bool x = false)
    /\ (forall x, In x strings <-> In x r /\ is_str x = true)
    /\ (forall b, ~ In (PBool b) numbers).
Proof.
  intros Ho W E.
  destruct (set_init_inv _ _ _ _ _ _ _ _ _ _ Ho E) as (r & Ec & _ & -> & _).
  pose proof (set_cast_wf rs r W Ec) as Wr.
  unfold set_instance. rewrite (string_and_numbers_sets_filter r Wr). cbn.
  assert (N : forall x, In x (filter is_number_item r)
                        <-> In x r /\ is_real x = true /\ is_bool x = false).
  { intros x. rewrite filter_In. unfold is_number_item.
    rewrite andb_true_iff, negb_true_iff. reflexivity. }
  exists r, (filter is_str r), (filter is_number_item r).
  split; [assumption |].
  split; [reflexivity |]. split; [reflexivity |]. split; [reflexivity |].
  split; [exact N |]. split.
  - intros x. rewrite filter_In. reflexivity.
  - intros b I. apply N in I as (_ & _ & B). discriminate.
Qed.

Lemma reference_set_partition_witness :
  exists c strings numbers,
    SummaryConstraint.__init__ "distinct_column_values" IN_SET PNone PNone
      None None (ASet [PStr "a"; PBool true; PInt 2; PFloat (1 # 2)])
      None false = Ok c
    /\ SummaryConstraint.ref_string_set c = Some strings
    /\ SummaryConstraint.ref_numbers_set c = Some numbers
    /\ In (PStr "a") strings
    /\ In (PInt 2) numbers
    /\ In (PFloat (1 # 2)) numbers
    /\ ~ In (PStr "a") numbers
    /\ forall b, ~ In (PBool b) numbers.
Proof.
  destruct (reference_set_partition "distinct_column_values" IN_SET PNone
              PNone None None
              (ASet [PStr "a"; PBool true; PInt 2; PFloat (1 # 2)])
              None false
              (set_instance "distinct_column_values" IN_SET PNone PNone None
                 None [PStr "a"; PBool true; PInt 2; PFloat (1 # 2)] None
                 false)
              eq_refl
              (conj eq_refl (conj eq_refl (conj eq_refl (conj eq_refl I))))
              eq_refl)
    as (r & strings & numbers & Er & _ & Es & En & N & S & B).
  injection Er as <-.
  exists (set_instance "distinct_column_values" IN_SET PNone PNone None
            None [PStr "a"; PBool true; PInt 2; PFloat (1 # 2)] None false),
    strings, numbers.
  split; [reflexivity |]. split; [exact Es |]. split; [exact En |].
  split; [apply S; split; [left; reflexivity | reflexivity] |].
  split; [apply N; repeat split; right; right; left; reflexivity |].
  split; [apply N; repeat split; right; right; right; left; reflexivity |].
  split; [| exact B].
  intros I. apply N in I as (_ & R & _). discriminate.
Defined.

(* ------------------------------------------------------------------ *)
(** ** Merging collections *)

Section CollectionMerge.
Variable C : Type.
Variable c_name : C -> result string.

(** [other] absent or without members: [merge] returns [self]. *)
Lemma merge_with_nothing (self : Constraints.t C)
    (other : option (Constraints.t C)) :
  other = None \/ (exists o, other = Some o /\ Constraints.constraints o = []) ->
  Constraints.merge C c_name self other = Ok self.
Proof.
  intros [-> | (o & -> & E)]; cbn; [reflexivity |].
  rewrite E. reflexivity.
Qed.

(** [self] without members: the loop has nothing to iterate, and [merge]
    returns a collection with the members of [other]. *)
Lemma merge_of_nothing (self other : Constraints.t C) :
  Constraints.constraints self = [] ->
  Constraints.merge C c_name self (Some other) = Ok other.
Proof.
  destruct self as [d], other as [d']; cbn. intros ->.
  destruct d'; reflexivity.
Qed.

(** X25. Both with members: the first key of [self] is unpacked as if it
    were a pair, and the loop raises before any member is merged:
    [AttributeError] when the key has exactly two characters, since a
    string has no [merge], and [ValueError] for a key of any other
    length. *)
Lemma merge_of_members (self other : Constraints.t C) (k : string) (c : C)
    (d : Constraints.dict C) :
  Constraints.constraints self = (k, c) :: d ->
  Constraints.constraints other <> [] ->
  Constraints.merge C c_name self (Some other)
  = if (String.length k =? 2)%nat then Raise AttributeError
    else Raise ValueError.
Proof.
  destruct self as [d0], other as [d']; cbn. intros -> N'.
  destruct d' as [| e d']; [congruence |]. cbn.
  destruct k as [| a [| b [| ? ?]]]; reflexivity.
Qed.

End CollectionMerge.

(** C2, as the specification states it, fails: a collection without
    members merged with a collection that holds [value GT 0] under the
    name [x] returns the latter, although the name [x] is in one key set
    only; and the other way round [self] is returned. *)
Lemma collection_merge_keeps_unmatched :
  let empty : ValueConstraints.t := Constraints.mk [] in
  let other : ValueConstraints.t := Constraints.mk [("x", gt_zero)] in
  Constraints.keys (Constraints.constraints empty)
  <> Constraints.keys (Constraints.constraints other)
  /\ @ValueConstraints.merge example_builtins empty (Some other) = Ok other
  /\ @ValueConstraints.merge example_builtins other (Some empty) = Ok other.
Proof. cbn. repeat split. discriminate. Qed.

(** C2, amended. A name that only one of two collections has does not
    make [merge] fail when one of them has no members: with [other] absent
    or empty the result is [self], and with [self] empty the result holds
    the members of [other]. This holds for [ValueConstraints] and for
    [SummaryConstraints]. *)
Theorem collection_merge_with_empty `{Builtins} :
  (forall (self : ValueConstraints.t) (other : option ValueConstraints.t),
      other = None
      \/ (exists o, other = Some o /\ Constraints.constraints o = []) ->
      ValueConstraints.merge self other = Ok self)
  /\ (forall self other : ValueConstraints.t,
         Constraints.constraints self = [] ->
         ValueConstraints.merge self (Some other) = Ok other)
  /\ (forall (self : SummaryConstraints.t) (other : option SummaryConstraints.t),
         other = None
         \/ (exists o, other = Some o /\ Constraints.constraints o = []) ->
         SummaryConstraints.merge self other = Ok self)
  /\ (forall self other : SummaryConstraints.t,
         Constraints.constraints self = [] ->
         SummaryConstraints.merge self (Some other) = Ok other).
Proof.
  repeat split; intros.
  - apply merge_with_nothing; assumption.
  - apply merge_of_nothing; assumption.
  - apply merge_with_nothing; assumption.
  - apply merge_of_nothing; assumption.
Qed.

Lemma collection_merge_with_empty_witness :
  @ValueConstraints.merge example_builtins
    (Constraints.mk [("x", gt_zero)]) (Some (Constraints.mk []))
  = Ok (Constraints.mk [("x", gt_zero)])
  /\ @ValueConstraints.merge example_builtins
       (Constraints.mk []) (Some (Constraints.mk [("x", gt_zero)]))
     = Ok (Constraints.mk [("x", gt_zero)]).
Proof.
  split.
  - apply (proj1 (@collection_merge_with_empty example_builtins)).
    right. eexists. split; reflexivity.
  - apply (proj1 (proj2 (@collection_merge_with_empty example_builtins))).
    reflexivity.
Defined.

(* ------------------------------------------------------------------ *)
(** ** Merging two ValueConstraints *)

(** Every value but NaN equals itself. *)
Lemma py_eq_refl (v : pyval) : is_nan v = false -> py_eq v v = true.
Proof.
  unfold py_eq. destruct v; cbn; intros N.
  - reflexivity.
  - apply Qeq_bool_iff; reflexivity.
  - apply Qeq_bool_iff; reflexivity.
  - apply Qeq_bool_iff; reflexivity.
  - apply String.eqb_refl.
  - apply Pos.eqb_refl.
  - discriminate.
Qed.

Lemma py_eq_nan (v w : pyval) : is_nan v = true -> py_eq v w = false.
Proof. destruct v; try discriminate. destruct w; reflexivity. Qed.

Lemma Op_eqb_refl (o : Op) : Op_eqb o o = true.
Proof. destruct o; reflexivity. Qed.

Section ValueMerge.
Context `{Builtins}.

Lemma literal_constraint_init (o : Op) (v : pyval) (nm : option string)
    (vb : bool) (c : ValueConstraint.t) (n : string) :
  ValueConstraint.__init__ o v None nm vb = Ok c ->
  ValueConstraint.name c = Ok n ->
  literal_constraint o v n c.
Proof.
  unfold ValueConstraint.__init__, table_get.
  destruct (is_none v) eqn:Nv; cbn; [discriminate |].
  destruct (_value_funcs o) as [f |] eqn:T; cbn; [| discriminate].
  intros E N; injection E as <-.
  repeat split; cbn; eauto.
Qed.

(** Two constraints on the same literal, with the same operator and the
    same name, merge into a constraint on that literal whose counters are
    the sums, unless the literal is NaN. *)
Lemma value_merge_sums (o : Op) (v : pyval) (n : string)
    (a b : ValueConstraint.t) :
  is_nan v = false ->
  literal_constraint o v n a ->
  literal_constraint o v n b ->
  exists m,
    ValueConstraint.merge a (Some b) = Ok m
    /\ literal_constraint o v n m
    /\ ValueConstraint.total m
       = ValueConstraint.total a + ValueConstraint.total b
    /\ ValueConstraint.failures m
       = ValueConstraint.failures a + ValueConstraint.failures b.
Proof.
  intros An (Oa & Va & Nv & [f T] & Na) (Ob & Vb & _ & _ & Nb).
  unfold ValueConstraint.merge.
  rewrite Na, Nb, Oa, Ob, Va, Vb. cbn.
  rewrite String.eqb_refl, Op_eqb_refl, (py_eq_refl v An). cbn.
  unfold ValueConstraint.__init__, table_get. rewrite Nv, T. cbn.
  eexists. split; [reflexivity |].
  repeat split; cbn; eauto.
Qed.

(** X26. Three constraints on the same literal, which is not NaN, with
    the same operator and the same name, merge in every order and
    grouping, and the counters of a merge do not depend on the order of
    the operands nor on the grouping of successive merges. *)
Lemma value_merge_comm_assoc (o : Op) (v : pyval) (n : string)
    (a b c : ValueConstraint.t) :
  is_nan v = false ->
  literal_constraint o v n a ->
  literal_constraint o v n b ->
  literal_constraint o v n c ->
  exists ab ba bc ab_c a_bc,
    ValueConstraint.merge a (Some b) = Ok ab
    /\ ValueConstraint.merge b (Some a) = Ok ba
    /\ ValueConstraint.merge b (Some c) = Ok bc
    /\ ValueConstraint.merge ab (Some c) = Ok ab_c
    /\ ValueConstraint.merge a (Some bc) = Ok a_bc
    /\ ValueConstraint.total ab = ValueConstraint.total ba
    /\ ValueConstraint.failures ab = ValueConstraint.failures ba
    /\ ValueConstraint.total ab_c = ValueConstraint.total a_bc
    /\ ValueConstraint.failures ab_c = ValueConstraint.failures a_bc.
Proof.
  intros N A B C.
  destruct (value_merge_sums o v n a b N A B) as (ab & Eab & AB & Tab & Fab).
  destruct (value_merge_sums o v n b a N B A) as (ba & Eba & _ & Tba & Fba).
  destruct (value_merge_sums o v n b c N B C) as (bc & Ebc & BC & Tbc & Fbc).
  destruct (value_merge_sums o v n ab c N AB C) as (ab_c & E1 & _ & T1 & F1).
  destruct (value_merge_sums o v n a bc N A BC) as (a_bc & E2 & _ & T2 & F2).
  exists ab, ba, bc, ab_c, a_bc.
  repeat split; try assumption; lia.
Qed.

(** A constraint that holds a pattern has no [value] attribute, which
    [merge] reads: no merge of such a constraint with a constraint
    returns. *)
Lemma pattern_merge_never_returns (a b m : ValueConstraint.t) :
  ValueConstraint.value a = None ->
  ValueConstraint.merge a (Some b) <> Ok m.
Proof.
  intros Va. unfold ValueConstraint.merge. rewrite Va.
  destruct (ValueConstraint.name a); cbn; [| discriminate].
  destruct (ValueConstraint.name b); cbn; [| discriminate].
  destruct (py_assert _); cbn; [| discriminate].
  destruct (py_assert _); cbn; discriminate.
Qed.

End ValueMerge.

(** The [name] property takes the pattern branch for a literal whose
    truth value is false: without an explicit name, the constraint of
    scenario 1 has no name to render, and neither merges nor
    serializes. *)
Example unnamed_falsy_literal_has_no_name :
  @ValueConstraint.name example_builtins gt_zero = Raise AttributeError
  /\ @ValueConstraint.merge example_builtins gt_zero (Some gt_zero)
     = Raise AttributeError
  /\ @ValueConstraint.to_protobuf example_builtins gt_zero
     = Raise AttributeError.
Proof. repeat split. Qed.

(** A constraint on NaN does not merge with itself: the test
    [self.value == other.value] fails, NaN being different from NaN. *)
Example nan_literal_does_not_merge :
  exists c,
    @ValueConstraint.__init__ example_builtins GT PNaN None None false = Ok c
    /\ @ValueConstraint.merge example_builtins c (Some c)
       = Raise AssertionError.
Proof. eexists. split; reflexivity. Qed.

(** C1. Two [ValueConstraint]s built from the same operator, the same
    regular-expression pattern and the same name have identical identity
    fields, whatever their counters; their merge raises
    [AttributeError] instead of returning a constraint with the summed
    counters. *)
Theorem merge_of_pattern_constraints_raises `{Builtins}
    (o : Op) (p : string) (nm : option string) (vb vb' : bool)
    (a b : ValueConstraint.t) (t f t' f' : Z) :
  ValueConstraint.__init__ o PNone (Some p) nm vb = Ok a ->
  ValueConstraint.__init__ o PNone (Some p) nm vb' = Ok b ->
  ValueConstraint.merge
    (ValueConstraint.set_failures (ValueConstraint.set_total a t) f)
    (Some (ValueConstraint.set_failures (ValueConstraint.set_total b t') f'))
  = Raise AttributeError.
Proof.
  unfold ValueConstraint.__init__, table_get; cbn.
  destruct (_value_funcs o) as [fn |]; cbn; [| discriminate].
  destruct (re_valid p); [| discriminate].
  intros Ea Eb; injection Ea as <-; injection Eb as <-.
  unfold ValueConstraint.merge, ValueConstraint.name; cbn.
  destruct nm as [n |]; cbn; rewrite String.eqb_refl, Op_eqb_refl;
    reflexivity.
Qed.

Lemma merge_of_pattern_constraints_raises_witness :
  exists a,
    @ValueConstraint.__init__ example_builtins MATCH PNone (Some "a") None false
    = Ok a
    /\ @ValueConstraint.merge example_builtins
         (ValueConstraint.set_failures (ValueConstraint.set_total a 3) 1)
         (Some (ValueConstraint.set_failures (ValueConstraint.set_total a 2) 0))
       = Raise AttributeError.
Proof.
  eexists. split; [reflexivity |].
  exact (@merge_of_pattern_constraints_raises example_builtins MATCH "a" None
           false false _ _ 3 1 2 0 eq_refl eq_refl).
Defined.

(* ------------------------------------------------------------------ *)
(** ** The operand shapes of a SummaryConstraint *)

Lemma is_none_true (v : pyval) : is_none v = true -> v = PNone.
Proof. destruct v; try discriminate; reflexivity. Qed.

Ltac solve_shape :=
  first
    [ left; solve [repeat split; try discriminate; eauto]
    | right; left; solve [repeat split; try discriminate; eauto]
    | right; right; left; solve [repeat split; try discriminate; eauto]
    | right; right; right; solve [repeat split; try discriminate; eauto] ].

(** Without a set operator, what [__init__] returns has one of the four
    shapes, and is the instance with the arguments stored and the counters
    at zero. *)
Lemma field_init_inv (ff : string) (o : Op) (v uv : pyval)
    (sf tf : option string) (rs : set_like) (nm : option string)
    (vb : bool) (c : SummaryConstraint.t) :
  is_set_op o = false ->
  SummaryConstraint.__init__ ff o v uv sf tf rs nm vb = Ok c ->
  field_shape o v uv sf tf
  /\ exists fn, c = field_instance ff o v uv sf tf nm vb fn.
Proof.
  intros Ho. unfold SummaryConstraint.__init__, field_shape. rewrite Ho.
  destruct o; try discriminate Ho.
  1-8:
    (destruct (is_none uv) eqn:Nu; cbn; [| discriminate];
     destruct tf; cbn; [discriminate |];
     apply is_none_true in Nu; subst uv;
     destruct sf as [f2 |]; destruct (is_none v) eqn:Nv; cbn;
       try discriminate;
       try (apply is_none_true in Nv; subst v);
       intros E; injection E as <-;
       (split; [solve_shape | eexists; reflexivity])).
  destruct sf as [f2 |], tf as [f3 |]; try discriminate.
  - destruct (is_none v) eqn:Nv, (is_none uv) eqn:Nu; cbn; try discriminate.
    apply is_none_true in Nv, Nu; subst.
    intros E; injection E as <-.
    split; [solve_shape | eexists; reflexivity].
  - destruct (is_none v) eqn:Nv, (is_none uv) eqn:Nu; cbn; try discriminate.
    destruct (negb (is_int_or_float v) || negb (is_int_or_float uv));
      [discriminate |].
    destruct (py_ge v uv) as [[|] | e]; cbn; try discriminate.
    intros E; injection E as <-.
    split; [solve_shape | eexists; reflexivity].
Qed.

(** Without a set operator, [__init__] looks neither at the reference
    set nor at the name and the verbose flag, which it stores. *)
Lemma field_init_again (ff : string) (o : Op) (v uv : pyval)
    (sf tf : option string) (rs rs' : set_like) (nm nm' : option string)
    (vb vb' : bool) (fn : summary -> result bool) :
  is_set_op o = false ->
  SummaryConstraint.__init__ ff o v uv sf tf rs nm vb
  = Ok (field_instance ff o v uv sf tf nm vb fn) ->
  SummaryConstraint.__init__ ff o v uv sf tf rs' nm' vb'
  = Ok (field_instance ff o v uv sf tf nm' vb' fn).
Proof.
  intros Ho. unfold SummaryConstraint.__init__, field_instance. rewrite Ho.
  destruct o; try discriminate Ho.
  1-8:
    (destruct (negb (is_none uv) || match tf with Some _ => true | None => false end);
     [discriminate |];
     destruct sf as [f2 |]; destruct (is_none v); cbn; try discriminate;
     intros E; injection E as <-; reflexivity).
  destruct sf as [f2 |], tf as [f3 |]; try discriminate.
  - destruct (is_none v && is_none uv); [| discriminate].
    intros E; injection E as <-; reflexivity.
  - destruct (negb (is_none v) && negb (is_none uv)); [| discriminate].
    destruct (negb (is_int_or_float v) || negb (is_int_or_float uv));
      [discriminate |].
    destruct (py_ge v uv) as [[|] | e]; cbn; try discriminate.
    intros E; injection E as <-; reflexivity.
Qed.

(* ------------------------------------------------------------------ *)
(** ** Serializing and deserializing *)

(** An [int] below 2^53 in magnitude converts to the [float] of the same
    value. *)
Lemma float_of_int_exact (z : Z) :
  exact_int z = true -> float_of_int z = Ok (inject_Z z).
Proof.
  unfold exact_int, float_of_int. cbv zeta. intros E. rewrite E. reflexivity.
Qed.

(** A [double] field takes such a literal and reads back as the [float] of
    the same value. *)
Lemma to_double_exact (v : pyval) :
  exact_double v = true ->
  exists d, to_double v = Ok d /\ of_double d = as_float v.
Proof.
  destruct v as [| b | z | q | s | i |]; try discriminate; intros E;
    unfold to_double.
  - eexists; split; reflexivity.
  - cbn in E. rewrite (float_of_int_exact z E). eexists; split; reflexivity.
  - eexists; split; reflexivity.
  - eexists; split; reflexivity.
Qed.

(** Beyond 2^53 an [int] is rounded: 2^53 + 1 becomes 2^53, and an [int]
    of 1025 bits is refused. *)
Example float_of_int_rounds :
  float_of_int (2 ^ 53 + 1) = Ok (inject_Z (2 ^ 53))
  /\ float_of_int (2 ^ 53 + 3) = Ok (inject_Z (2 ^ 53 + 4))
  /\ float_of_int (- (2 ^ 53 + 1)) = Ok (inject_Z (- 2 ^ 53))
  /\ float_of_int (2 ^ 1024) = Raise OverflowError.
Proof. repeat split; vm_compute; reflexivity. Qed.

Lemma is_none_as_float (v : pyval) : is_none (as_float v) = is_none v.
Proof. destruct v; reflexivity. Qed.

Lemma is_int_or_float_as_float (v : pyval) :
  is_int_or_float (as_float v) = is_int_or_float v.
Proof. destruct v; reflexivity. Qed.

(** The comparisons do not tell a number from the [float] of the same
    value. *)
Lemma py_order_as_float (g : Q -> Q -> bool) (h : string -> string -> bool)
    (v w : pyval) :
  py_order g h (as_float v) (as_float w) = py_order g h v w.
Proof. destruct v, w; reflexivity. Qed.

Lemma py_eq_as_item (x y : pyval) : py_eq (as_item x) (as_item y) = py_eq x y.
Proof. destruct x, y; reflexivity. Qed.

Lemma set_mem_as_item (x : pyval) (r : pyset) :
  set_mem (as_item x) (map as_item r) = set_mem x r.
Proof.
  unfold set_mem. induction r as [| a r IH]; cbn; [reflexivity |].
  rewrite py_eq_as_item, IH. reflexivity.
Qed.

(** Read back from a message, the members of a set are still no two
    equal. *)
Lemma pyset_wf_as_item (r : pyset) : pyset_wf r -> pyset_wf (map as_item r).
Proof.
  induction r as [| a r IH]; cbn; [auto |].
  intros [Ha W]. rewrite set_mem_as_item. auto.
Qed.

Lemma filter_as_item (p : pyval -> bool) (r : pyset) :
  (forall x, p (as_item x) = p x) ->
  filter p (map as_item r) = map as_item (filter p r).
Proof.
  intros P. induction r as [| a r IH]; cbn; [reflexivity |].
  rewrite P. destruct (p a); cbn; rewrite IH; reflexivity.
Qed.

Lemma theta_accepts_as_item (r : pyset) :
  forallb theta_accepts r = true ->
  forallb theta_accepts (map as_item r) = true.
Proof.
  induction r as [| a r IH]; cbn; [reflexivity |].
  intros A. apply andb_true_iff in A as [Aa Ar].
  rewrite (IH Ar), andb_true_r. destruct a; try exact Aa; reflexivity.
Qed.

(** [ListValue.extend] takes the members that it holds with their values,
    and iterating the list yields them as floats where they were
    [int]s. *)
Lemma extend_exact (r : pyset) :
  forallb exact_item r = true ->
  exists l, ListValue.extend r = Ok l /\ ListValue.items l = map as_item r.
Proof.
  unfold ListValue.items.
  induction r as [| a r IH]; cbn -[to_double]; intros E.
  - exists []. split; reflexivity.
  - apply andb_true_iff in E as [Ea Er].
    destruct (IH Er) as (l & El & Il). rewrite El.
    destruct a as [| b | z | q | s | i |]; try discriminate Ea;
      cbn -[float_of_int];
      try (eexists; split; [reflexivity | cbn; rewrite Il; reflexivity]).
    cbn in Ea. rewrite (float_of_int_exact z Ea). cbn.
    eexists; split; [reflexivity | cbn; rewrite Il; reflexivity].
Qed.

(** Without a set operator, [__init__] accepts the floats of the values
    that it accepts. *)
Lemma field_init_wire (ff : string) (o : Op) (v uv : pyval)
    (sf tf : option string) (rs : set_like) (nm : option string)
    (vb : bool) (c : SummaryConstraint.t) :
  is_set_op o = false ->
  SummaryConstraint.__init__ ff o v uv sf tf rs nm vb = Ok c ->
  exists fn, forall rs' nm' vb',
    SummaryConstraint.__init__ ff o (as_float v) (as_float uv) sf tf rs' nm' vb'
    = Ok (field_instance ff o (as_float v) (as_float uv) sf tf nm' vb' fn).
Proof.
  intros Ho. unfold SummaryConstraint.__init__, field_instance. rewrite Ho.
  unfold py_ge, py_le.
  rewrite !is_none_as_float, !is_int_or_float_as_float, py_order_as_float.
  destruct o; try discriminate Ho.
  1-8:
    (destruct (negb (is_none uv) || match tf with Some _ => true | None => false end);
     [discriminate |];
     destruct sf as [f2 |]; destruct (is_none v); cbn; try discriminate;
     intros _; eexists; intros; reflexivity).
  destruct sf as [f2 |], tf as [f3 |]; try discriminate.
  - destruct (is_none v && is_none uv); [| discriminate].
    intros _; eexists; intros; reflexivity.
  - destruct (negb (is_none v) && negb (is_none uv)); [| discriminate].
    destruct (negb (is_int_or_float v) || negb (is_int_or_float uv));
      [discriminate |].
    destruct (py_order Qle_bool String.leb uv v) as [[|] | e]; cbn;
      try discriminate.
    intros _; eexists; intros; reflexivity.
Qed.

Section RoundTrip.
Context `{Builtins}.

(** A constraint without a set operator whose values a message holds: its
    message decodes to the constraint that [__init__] builds from the
    floats of these values and the same fields, under the rendered
    name. *)
Lemma field_roundtrip (ff : string) (o : Op) (v uv : pyval)
    (sf tf : option string) (nm : option string) (vb : bool)
    (fn fn' : summary -> result bool) (t f : Z) :
  is_set_op o = false ->
  field_shape o v uv sf tf ->
  is_none v || exact_double v = true ->
  is_none uv || exact_double uv = true ->
  (forall rs' nm' vb',
      SummaryConstraint.__init__ ff o (as_float v) (as_float uv) sf tf
        rs' nm' vb'
      = Ok (field_instance ff o (as_float v) (as_float uv) sf tf nm' vb' fn')) ->
  exists n m,
    SummaryConstraint.name (counted (field_instance ff o v uv sf tf nm vb fn) t f)
    = Ok n
    /\ SummaryConstraint.to_protobuf
         (counted (field_instance ff o v uv sf tf nm vb fn) t f) = Ok m
    /\ SummaryConstraint.from_protobuf m
       = Ok (Some (field_instance ff o (as_float v) (as_float uv) sf tf
                     (Some n) vb fn')).
Proof.
  intros Ho S Xv Xu I.
  destruct S as [(-> & -> & -> & Nv & Nu)
                | [(-> & -> & -> & f2 & f3 & -> & ->)
                  | [(Nb & -> & -> & -> & Nv)
                    | (Nb & -> & -> & -> & f2 & ->)]]].
  - rewrite Nv in Xv. rewrite Nu in Xu. cbn in Xv, Xu.
    destruct (to_double_exact v Xv) as (dv & Ev & Fv).
    destruct (to_double_exact uv Xu) as (du & Eu & Fu).
    unfold SummaryConstraint.to_protobuf, SummaryConstraint.name;
      cbn -[to_double].
    unfold SummaryBetweenConstraintMsg.of_value. rewrite Nv, Nu, Ev, Eu.
    destruct nm as [n |]; cbn; do 2 eexists;
      (split; [reflexivity |]); (split; [reflexivity |]);
      unfold SummaryConstraint.from_protobuf;
      cbn -[SummaryConstraint.__init__]; rewrite Fv, Fu, I; reflexivity.
  - unfold SummaryConstraint.to_protobuf, SummaryConstraint.name; cbn.
    destruct nm as [n |]; cbn; do 2 eexists;
      (split; [reflexivity |]); (split; [reflexivity |]);
      unfold SummaryConstraint.from_protobuf;
      cbn -[SummaryConstraint.__init__];
      rewrite (I (AVal PNone) _ vb); reflexivity.
  - rewrite Nv in Xv. cbn in Xv.
    destruct (to_double_exact v Xv) as (dv & Ev & Fv).
    unfold SummaryConstraint.to_protobuf, SummaryConstraint.name;
      cbn -[to_double].
    unfold SummaryConstraintMsg.of_value. rewrite Nv, Ev.
    destruct o; try discriminate Ho; try congruence;
      destruct nm as [n |]; cbn; do 2 eexists;
      (split; [reflexivity |]); (split; [reflexivity |]);
      unfold SummaryConstraint.from_protobuf;
      cbn -[SummaryConstraint.__init__];
      rewrite Fv, (I (AVal PNone) _ vb); reflexivity.
  - unfold SummaryConstraint.to_protobuf, SummaryConstraint.name; cbn.
    destruct o; try discriminate Ho; try congruence;
      destruct nm as [n |]; cbn; do 2 eexists;
      (split; [reflexivity |]); (split; [reflexivity |]);
      unfold SummaryConstraint.from_protobuf;
      cbn -[SummaryConstraint.__init__];
      rewrite (I (AVal PNone) _ vb); reflexivity.
Qed.

(** A constraint with a set operator whose members a message holds: its
    message decodes to the constraint that [__init__] builds from the
    members as the message yields them. *)
Lemma set_roundtrip (ff : string) (o : Op) (v uv : pyval)
    (sf tf : option string) (r : pyset) (nm : option string) (vb : bool)
    (t f : Z) :
  is_set_op o = true ->
  pyset_wf r ->
  truthy_set_like (ASet r) = true ->
  forallb theta_accepts r = true ->
  forallb exact_item r = true ->
  exists n m,
    SummaryConstraint.name (counted (set_instance ff o v uv sf tf r nm vb) t f)
    = Ok n
    /\ SummaryConstraint.to_protobuf
         (counted (set_instance ff o v uv sf tf r nm vb) t f) = Ok m
    /\ SummaryConstraint.from_protobuf m
       = Ok (Some (set_instance ff o PNone PNone None None (map as_item r)
                     (Some n) vb)).
Proof.
  intros Ho W T A X.
  destruct (extend_exact r X) as (l & El & Il).
  assert (T' : truthy_set_like (ASet (map as_item r)) = true)
    by (destruct r; [discriminate | reflexivity]).
  pose proof (set_init_ok ff o (map as_item r)) as I.
  unfold SummaryConstraint.to_protobuf, SummaryConstraint.name;
    cbn -[ListValue.extend].
  rewrite Ho, El; cbn.
  destruct nm as [n |]; cbn; do 2 eexists;
    (split; [reflexivity |]); (split; [reflexivity |]);
    unfold SummaryConstraint.from_protobuf;
    cbn -[SummaryConstraint.__init__ set_of_list];
    rewrite Il, (set_of_list_id _ (pyset_wf_as_item r W)),
      (I _ vb Ho T' (theta_accepts_as_item r A)); reflexivity.
Qed.

(** A constraint on a literal that a message holds: its message decodes
    to the constraint that [__init__] builds from the float of the
    literal. *)
Lemma literal_roundtrip (o : Op) (v : pyval) (n : string)
    (c : ValueConstraint.t) :
  exact_double v = true ->
  literal_constraint o v n c ->
  exists m c',
    ValueConstraint.to_protobuf c = Ok m
    /\ ValueConstraint.from_protobuf m = Ok c'
    /\ literal_constraint o (as_float v) n c'
    /\ ValueConstraint.regex_pattern c' = None
    /\ ValueConstraint.total c' = 0
    /\ ValueConstraint.failures c' = 0.
Proof.
  intros X (Oc & Vc & Nv & [fn T] & Nc).
  destruct (to_double_exact v X) as (d & Ed & Fd).
  unfold ValueConstraint.to_protobuf. rewrite Vc, Nc, Oc. cbn -[to_double].
  unfold ValueConstraintMsg.of_value. rewrite Nv, Ed. cbn.
  eexists. eexists. split; [reflexivity |].
  unfold ValueConstraint.from_protobuf, ValueConstraint.__init__, table_get.
  cbn. rewrite Fd, is_none_as_float, Nv, T. cbn. split; [reflexivity |].
  repeat split; cbn; eauto. rewrite is_none_as_float. exact Nv.
Qed.

(** A constraint on a pattern: its message carries the pattern, which
    [from_protobuf] does not read; what it builds holds the default of the
    [value] field as a literal, and no pattern. *)
Lemma pattern_roundtrip (o : Op) (p : string) (nm : option string)
    (vb : bool) (c : ValueConstraint.t) :
  ValueConstraint.__init__ o PNone (Some p) nm vb = Ok c ->
  exists m c',
    ValueConstraint.to_protobuf c = Ok m
    /\ ValueConstraintMsg.operand m = ValueConstraintMsg.RegexPattern p
    /\ ValueConstraint.from_protobuf m = Ok c'
    /\ ValueConstraint.value c' = Some (PFloat 0)
    /\ ValueConstraint.regex_pattern c' = None.
Proof.
  unfold ValueConstraint.__init__, table_get; cbn.
  destruct (_value_funcs o) as [fn |] eqn:T; cbn; [| discriminate].
  destruct (re_valid p); [| discriminate].
  intros E; injection E as <-.
  unfold ValueConstraint.to_protobuf, ValueConstraint.name; cbn.
  destruct nm as [n |]; cbn;
    (eexists; eexists; split; [reflexivity |]; split; [reflexivity |];
     unfold ValueConstraint.from_protobuf, ValueConstraint.__init__, table_get;
     cbn; rewrite T; cbn; repeat split; reflexivity).
Qed.

End RoundTrip.

(** What a message does not hold: a text literal, which a [double] field
    refuses, so that [to_protobuf] raises [TypeError]; and an [int] that
    [float] rounds, which comes back as another number. *)
Example literals_lost_on_the_wire :
  (exists c,
      @ValueConstraint.__init__ example_builtins EQ (PStr "abc") None None false
      = Ok c
      /\ @ValueConstraint.to_protobuf example_builtins c = Raise TypeError)
  /\ (exists c m c',
         @ValueConstraint.__init__ example_builtins EQ (PInt (2 ^ 53 + 1)) None
           None false = Ok c
         /\ @ValueConstraint.to_protobuf example_builtins c = Ok m
         /\ @ValueConstraint.from_protobuf example_builtins m = Ok c'
         /\ ValueConstraint.value c' = Some (PFloat (inject_Z (2 ^ 53)))
         /\ forall v, ValueConstraint.value c = Some v ->
                      py_eq v (PFloat (inject_Z (2 ^ 53))) = false).
Proof.
  split.
  - eexists. split; reflexivity.
  - do 3 eexists. split; [reflexivity |]. split; [vm_compute; reflexivity |].
    split; [reflexivity |]. split; [reflexivity |].
    intros v E. injection E as <-. vm_compute. reflexivity.
Qed.

(** C3, as the specification states it, fails: [ValueConstraint(GT, 5)]
    updated once has [total] 1, and what its message decodes to has
    [total] 0. *)
Lemma roundtrip_resets_counters :
  exists c0 m c',
    @ValueConstraint.__init__ example_builtins GT (PInt 5) None None false
    = Ok c0
    /\ let c := fst (@ValueConstraint.update example_builtins c0 (PInt 7)) in
       @ValueConstraint.to_protobuf example_builtins c = Ok m
       /\ @ValueConstraint.from_protobuf example_builtins m = Ok c'
       /\ ValueConstraint.total c = 1
       /\ ValueConstraint.total c' = 0
       /\ ValueConstraint.total c' <> ValueConstraint.total c.
Proof.
  do 3 eexists. split; [reflexivity |]. cbn.
  repeat split; discriminate.
Qed.

(** C3, amended. A message holds a number as a double. Take a
    [ValueConstraint] on a literal that is a [float], a [bool] or an
    [int] below 2^53 in magnitude and whose name renders, or a
    [SummaryConstraint] whose values are such literals and whose
    reference set has text, [bool]s, [float]s and such [int]s as members.
    Its message decodes to a constraint with the same operator and the
    same operand shape, whose contents have the same values: the literal
    as a [float] and no pattern; or the members of the reference set and
    of its two derived subsets, an [int] as a [float]; or the value and
    the upper value as [float]s and the bound fields. The message has no
    counters, and the decoded constraint has [total] and [failures] at
    zero whatever the counters of the original. *)
Theorem roundtrip_keeps_operand_resets_counters `{Builtins} :
  (forall (o : Op) (v : pyval) (nm : option string) (vb : bool)
          (c0 : ValueConstraint.t) (t f : Z) (n : string),
      ValueConstraint.__init__ o v None nm vb = Ok c0 ->
      ValueConstraint.name c0 = Ok n ->
      exact_double v = true ->
      let c := ValueConstraint.set_failures (ValueConstraint.set_total c0 t) f in
      exists m c',
        ValueConstraint.to_protobuf c = Ok m
        /\ ValueConstraint.from_protobuf m = Ok c'
        /\ ValueConstraint.op c' = ValueConstraint.op c
        /\ ValueConstraint.value c = Some v
        /\ ValueConstraint.value c' = Some (as_float v)
        /\ ValueConstraint.regex_pattern c' = ValueConstraint.regex_pattern c
        /\ ValueConstraint.total c' = 0
        /\ ValueConstraint.failures c' = 0)
  /\ (forall (ff : string) (o : Op) (v uv : pyval) (sf tf : option string)
             (rs : set_like) (nm : option string) (vb : bool)
             (c0 : SummaryConstraint.t) (t f : Z),
         set_like_wf rs ->
         SummaryConstraint.__init__ ff o v uv sf tf rs nm vb = Ok c0 ->
         wire_exact c0 ->
         let c := counted c0 t f in
         exists m c',
           SummaryConstraint.to_protobuf c = Ok m
           /\ SummaryConstraint.from_protobuf m = Ok (Some c')
           /\ SummaryConstraint.op c' = SummaryConstraint.op c
           /\ SummaryConstraint.first_field c' = SummaryConstraint.first_field c
           /\ on_wire (SummaryConstraint.reference_set c)
                (SummaryConstraint.reference_set c')
           /\ on_wire (SummaryConstraint.ref_string_set c)
                (SummaryConstraint.ref_string_set c')
           /\ on_wire (SummaryConstraint.ref_numbers_set c)
                (SummaryConstraint.ref_numbers_set c')
           /\ (is_set_op (SummaryConstraint.op c) = false ->
               SummaryConstraint.value c'
               = as_float (SummaryConstraint.value c)
               /\ SummaryConstraint.upper_value c'
                  = as_float (SummaryConstraint.upper_value c)
               /\ SummaryConstraint.second_field c'
                  = SummaryConstraint.second_field c
               /\ SummaryConstraint.third_field c'
                  = SummaryConstraint.third_field c)
           /\ SummaryConstraint.total c' = 0
           /\ SummaryConstraint.failures c' = 0).
Proof.
  split.
  - intros o v nm vb c0 t f n E N X c.
    pose proof (literal_constraint_init o v nm vb c0 n E N) as L.
    assert (Lc : literal_constraint o v n c).
    { destruct L as (Oc & Vc & Nv & T & Nc).
      destruct c0; cbn in *. repeat split; assumption. }
    destruct (literal_roundtrip o v n c X Lc)
      as (m & c' & Em & Ec & (Oc' & Vc' & _) & Pc' & Tc' & Fc').
    exists m, c'.
    destruct Lc as (Oc & Vc & _).
    assert (Pc : ValueConstraint.regex_pattern c = None).
    { revert E. unfold ValueConstraint.__init__.
      destruct (negb (is_none v)); [| discriminate].
      destruct (table_get _value_funcs o); cbn; [| discriminate].
      intros E; injection E as <-. reflexivity. }
    repeat split; congruence.
  - intros ff o v uv sf tf rs nm vb c0 t f W E X c. subst c.
    destruct (is_set_op o) eqn:Ho.
    + destruct (set_init_inv _ _ _ _ _ _ _ _ _ _ Ho E)
        as (r & Ec & Tr & -> & Ar).
      pose proof (set_cast_wf rs r W Ec) as Wr.
      destruct (set_roundtrip ff o v uv sf tf r nm vb t f Ho Wr
                  (set_cast_truthy rs r Tr Ec) Ar X)
        as (n & m & _ & Em & Ed).
      exists m, (set_instance ff o PNone PNone None None (map as_item r)
                   (Some n) vb).
      split; [exact Em |]. split; [exact Ed |].
      unfold set_instance.
      rewrite (string_and_numbers_sets_filter r Wr),
        (string_and_numbers_sets_filter _ (pyset_wf_as_item r Wr)),
        !filter_as_item by (intros x; destruct x; reflexivity).
      cbn. rewrite Ho.
      repeat split; try apply Permutation_refl; discriminate.
    + destruct (field_init_inv _ _ _ _ _ _ _ _ _ _ Ho E) as (S & fn & ->).
      destruct (field_init_wire _ _ _ _ _ _ _ _ _ _ Ho E) as (fn' & I).
      destruct X as [Xv Xu]; cbn in Xv, Xu.
      destruct (field_roundtrip ff o v uv sf tf nm vb fn fn' t f Ho S Xv Xu I)
        as (n & m & _ & Em & Ed).
      exists m, (field_instance ff o (as_float v) (as_float uv) sf tf
                   (Some n) vb fn').
      cbn. repeat split; assumption.
Qed.

Lemma roundtrip_keeps_operand_resets_counters_witness :
  (exists m c',
      @ValueConstraint.to_protobuf example_builtins (value_counted gt_five 4 2)
      = Ok m
      /\ @ValueConstraint.from_protobuf example_builtins m = Ok c'
      /\ ValueConstraint.value (value_counted gt_five 4 2) = Some (PInt 5)
      /\ ValueConstraint.value c' = Some (PFloat 5)
      /\ ValueConstraint.total c' = 0)
  /\ (exists m c',
         @SummaryConstraint.to_protobuf example_builtins
           (counted (set_instance "distinct_column_values" IN_SET PNone PNone
                       None None [PStr "a"; PInt 1] None false) 3 1)
         = Ok m
         /\ SummaryConstraint.from_protobuf m = Ok (Some c')
         /\ on_wire (Some [PStr "a"; PInt 1])
              (SummaryConstraint.reference_set c')
         /\ SummaryConstraint.total c' = 0).
Proof.
  split.
  - destruct (proj1 (@roundtrip_keeps_operand_resets_counters example_builtins)
                GT (PInt 5) None false gt_five 4 2 "value GT 5"
                eq_refl eq_refl eq_refl)
      as (m & c' & Em & Ec & _ & Vc & Vc' & _ & Tc & _).
    exists m, c'. repeat split; assumption.
  - destruct (proj2 (@roundtrip_keeps_operand_resets_counters example_builtins)
                "distinct_column_values" IN_SET PNone PNone None None
                (ASet [PStr "a"; PInt 1]) None false
                (set_instance "distinct_column_values" IN_SET PNone PNone
                   None None [PStr "a"; PInt 1] None false) 3 1
                (conj eq_refl (conj eq_refl I)) eq_refl eq_refl)
      as (m & c' & Em & Ec & _ & _ & R & _ & _ & _ & Tc & _).
    exists m, c'. repeat split; assumption.
Defined.

(* ------------------------------------------------------------------ *)
(** ** Merging two SummaryConstraints *)

Lemma opt_str_eq_refl (a : option string) : opt_str_eq a a = true.
Proof. destruct a; cbn; [apply String.eqb_refl | reflexivity]. Qed.

(** A set without NaN equals itself. *)
Lemma set_subset_refl (s : pyset) : no_nan s = true -> set_subset s s = true.
Proof.
  unfold no_nan, set_subset. rewrite !forallb_forall. intros N x I.
  unfold set_mem. apply existsb_exists. exists x. split; [assumption |].
  apply py_eq_refl. specialize (N x I). apply negb_true_iff in N. exact N.
Qed.

Lemma set_eq_refl (s : pyset) : no_nan s = true -> set_eq s s = true.
Proof. intros N. unfold set_eq. rewrite (set_subset_refl s N). reflexivity. Qed.

(** X27. Two instances of one construction, whatever their counters,
    merge into a constraint whose counters are the sums, and the order of
    the operands does not matter to them, provided that neither value nor
    a member of the reference set is NaN, which differs from itself. *)
Lemma summary_merge_sums `{Builtins}
    (ff : string) (o : Op) (v uv : pyval) (sf tf : option string)
    (rs : set_like) (nm : option string) (vb : bool)
    (c0 : SummaryConstraint.t) (t f t' f' : Z) :
  SummaryConstraint.__init__ ff o v uv sf tf rs nm vb = Ok c0 ->
  is_nan v = false ->
  is_nan uv = false ->
  (forall r, SummaryConstraint.reference_set c0 = Some r -> no_nan r = true) ->
  exists m m',
    SummaryConstraint.merge (counted c0 t f) (Some (counted c0 t' f')) = Ok m
    /\ SummaryConstraint.merge (counted c0 t' f') (Some (counted c0 t f)) = Ok m'
    /\ SummaryConstraint.total m = t + t'
    /\ SummaryConstraint.failures m = f + f'
    /\ SummaryConstraint.total m' = SummaryConstraint.total m
    /\ SummaryConstraint.failures m' = SummaryConstraint.failures m.
Proof.
  intros E Nv Nu Nr.
  assert (G : forall a b a' b',
             exists m,
               SummaryConstraint.merge (counted c0 a b) (Some (counted c0 a' b'))
               = Ok m
               /\ SummaryConstraint.total m = a + a'
               /\ SummaryConstraint.failures m = b + b').
  { intros a b a' b'. destruct (is_set_op o) eqn:Ho.
    - destruct (set_init_inv _ _ _ _ _ _ _ _ _ _ Ho E)
        as (r & Ec & Tr & -> & Ar).
      pose proof (set_init_ok ff o r) as I.
      specialize (Nr r eq_refl).
      unfold SummaryConstraint.merge, SummaryConstraint.name.
      cbn -[SummaryConstraint.__init__]. rewrite Ho.
      cbn -[SummaryConstraint.__init__].
      destruct nm as [n |]; cbn -[SummaryConstraint.__init__];
        rewrite String.eqb_refl, Op_eqb_refl, (py_eq_refl v Nv),
          String.eqb_refl, opt_str_eq_refl, (set_eq_refl r Nr);
        cbn -[SummaryConstraint.__init__];
        rewrite (I _ vb Ho (set_cast_truthy rs r Tr Ec) Ar);
        eexists; (split; [reflexivity |]); split; reflexivity.
    - destruct (field_init_inv _ _ _ _ _ _ _ _ _ _ Ho E) as (S & fn & ->).
      pose proof (fun rs' nm' vb' =>
                    field_init_again ff o v uv sf tf rs rs' nm nm' vb vb' fn
                      Ho E) as I.
      unfold SummaryConstraint.merge, SummaryConstraint.name.
      cbn -[SummaryConstraint.__init__]. rewrite Ho.
      destruct S as [(-> & -> & -> & _ & _)
                    | [(-> & -> & -> & f2 & f3 & -> & ->)
                      | [(Nb & -> & -> & -> & _)
                        | (Nb & -> & -> & -> & f2 & ->)]]].
      3, 4: destruct o; try discriminate Ho; try congruence.
      all: destruct nm as [n |]; cbn -[SummaryConstraint.__init__];
        rewrite ?String.eqb_refl, ?(py_eq_refl v Nv), ?(py_eq_refl uv Nu);
        cbn -[SummaryConstraint.__init__];
        rewrite ?String.eqb_refl, ?(py_eq_refl v Nv), ?(py_eq_refl uv Nu);
        cbn -[SummaryConstraint.__init__];
        rewrite ?String.eqb_refl, ?(py_eq_refl v Nv), ?(py_eq_refl uv Nu);
        cbn -[SummaryConstraint.__init__];
        rewrite I;
        eexists; (split; [reflexivity |]); split; reflexivity. }
  destruct (G t f t' f') as (m & Em & Tm & Fm).
  destruct (G t' f' t f) as (m' & Em' & Tm' & Fm').
  exists m, m'. repeat split; try assumption; lia.
Qed.

(* ------------------------------------------------------------------ *)
(** ** Further properties: ValueConstraint *)

Lemma Qlt_bool_iff (a b : Q) : Qlt_bool a b = true <-> (a < b)%Q.
Proof.
  unfold Qlt_bool. rewrite negb_true_iff. split.
  - intros E. apply Qnot_le_lt. intros L.
    apply Qle_bool_iff in L. congruence.
  - intros L. destruct (Qle_bool b a) eqn:E; [| reflexivity].
    apply Qle_bool_iff in E. exfalso. exact (Qlt_not_le _ _ L E).
Qed.

Lemma Qeq_bool_false (a b : Q) : Qeq_bool a b = false <-> ~ (a == b)%Q.
Proof.
  split.
  - intros E Q. apply Qeq_bool_iff in Q. congruence.
  - intros N. destruct (Qeq_bool a b) eqn:E; [| reflexivity].
    apply Qeq_bool_iff in E. contradiction.
Qed.

Section ValueFacts.
Context `{Builtins}.

(** What [__init__] returns from a literal: the literal stored, no
    pattern, the table entry bound to the literal, counters at zero. *)
Lemma value_init_literal (o : Op) (v : pyval) (nm : option string)
    (vb : bool) (c : ValueConstraint.t) :
  ValueConstraint.__init__ o v None nm vb = Ok c ->
  is_none v = false
  /\ exists f, _value_funcs o = Some f
               /\ c = ValueConstraint.mk nm vb o 0 0 (Some v) None (f (Lit v)).
Proof.
  unfold ValueConstraint.__init__, table_get.
  destruct (is_none v); cbn; [discriminate |].
  destruct (_value_funcs o) as [f |]; cbn; [| discriminate].
  intros E; injection E as <-. split; [reflexivity |]. eauto.
Qed.

(** The same from a pattern. *)
Lemma value_init_pattern (o : Op) (p : string) (nm : option string)
    (vb : bool) (c : ValueConstraint.t) :
  ValueConstraint.__init__ o PNone (Some p) nm vb = Ok c ->
  re_valid p = true
  /\ exists f, _value_funcs o = Some f
               /\ c = ValueConstraint.mk nm vb o 0 0 None (Some p)
                        (f (Pattern p)).
Proof.
  unfold ValueConstraint.__init__, table_get; cbn.
  destruct (_value_funcs o) as [f |]; cbn; [| discriminate].
  destruct (re_valid p); [| discriminate].
  intros E; injection E as <-. split; [reflexivity |]. eauto.
Qed.

End ValueFacts.

(** X1. [ValueConstraint.__init__] raises [ValueError] when both a literal
    and a pattern are given and when neither is; what it returns holds
    the literal and no pattern, or the pattern (which compiles) and no
    literal, has both counters at zero and an operator other than
    BETWEEN and the set operators. *)
Theorem value_init_exclusive `{Builtins} (o : Op) (v : pyval) (pattern : option string)
    (nm : option string) (vb : bool) :
  ((is_none v = true /\ pattern = None)
   \/ (is_none v = false /\ pattern <> None) ->
   ValueConstraint.__init__ o v pattern nm vb = Raise ValueError)
  /\ (forall c,
         ValueConstraint.__init__ o v pattern nm vb = Ok c ->
         ((is_none v = false /\ pattern = None
           /\ ValueConstraint.value c = Some v
           /\ ValueConstraint.regex_pattern c = None)
          \/ (v = PNone /\ exists p, pattern = Some p /\ re_valid p = true
                /\ ValueConstraint.value c = None
                /\ ValueConstraint.regex_pattern c = Some p))
         /\ ValueConstraint.total c = 0
         /\ ValueConstraint.failures c = 0
         /\ ValueConstraint.op c = o
         /\ is_set_op o = false /\ o <> BTWN).
Proof.
  split.
  - intros [[Nv ->] | [Nv Np]]; unfold ValueConstraint.__init__.
    + rewrite Nv. reflexivity.
    + destruct pattern; [| congruence]. rewrite Nv. reflexivity.
  - intros c E.
    assert (T : forall f, _value_funcs o = Some f ->
                          is_set_op o = false /\ o <> BTWN)
      by (intros f; destruct o; cbn; try discriminate;
          (split; [reflexivity | discriminate])).
    destruct pattern as [p |].
    + destruct (is_none v) eqn:Nv.
      * apply is_none_true in Nv; subst v.
        destruct (value_init_pattern o p nm vb c E) as (V & f & Tf & ->).
        cbn. split; [right; split; [reflexivity | eauto] |].
        repeat split; try reflexivity; apply (T f Tf).
      * unfold ValueConstraint.__init__ in E. rewrite Nv in E. discriminate.
    + destruct (value_init_literal o v nm vb c E) as (Nv & f & Tf & ->).
      cbn. split; [left; auto |].
      repeat split; try reflexivity; apply (T f Tf).
Qed.

Lemma value_init_exclusive_witness :
  @ValueConstraint.__init__ example_builtins MATCH (PInt 1) (Some "a") None
    false = Raise ValueError
  /\ @ValueConstraint.__init__ example_builtins GT PNone None None false
     = Raise ValueError.
Proof.
  split.
  - apply (proj1 (@value_init_exclusive example_builtins MATCH (PInt 1)
                    (Some "a") None false)).
    right. split; [reflexivity | discriminate].
  - apply (proj1 (@value_init_exclusive example_builtins GT PNone None None
                    false)).
    left. split; reflexivity.
Defined.

(** The comparison of two numbers by an entry of [_value_funcs], as a
    boolean. *)
Lemma value_funcs_compare `{Builtins} (o : Op)
    (f : operand -> pyval -> result bool)
    (x v : pyval) (qx qv : Q) :
  is_compare_op o = true ->
  _value_funcs o = Some f ->
  num_of x = Some qx ->
  num_of v = Some qv ->
  exists b, f (Lit x) v = Ok b /\ (b = true <-> compare_holds o qv qx).
Proof.
  intros Ho Tf Nx Nv.
  destruct o; try discriminate Ho; cbn in Tf; injection Tf as <-;
    unfold cmp_operand, eq_operand, py_gt, py_ge, py_lt, py_le, py_order,
      py_eq; rewrite ?Nx, ?Nv; cbn; eexists; (split; [reflexivity |]).
  - apply Qlt_bool_iff.
  - apply Qle_bool_iff.
  - apply Qeq_bool_iff.
  - rewrite negb_true_iff. apply Qeq_bool_false.
  - apply Qle_bool_iff.
  - apply Qlt_bool_iff.
Qed.

(** X2. A [ValueConstraint] built from a numeric literal and one of the
    six comparison operators, updated with a number: [total] grows by
    one, [failures] stays when the number is in the relation to the
    literal and grows by one when it is not; the call returns when the
    constraint is not verbose. *)
Theorem value_update_compares `{Builtins}
    (o : Op) (x v : pyval) (qx qv : Q) (nm : option string) (vb : bool)
    (c0 : ValueConstraint.t) (t f : Z) :
  is_compare_op o = true ->
  num_of x = Some qx ->
  num_of v = Some qv ->
  ValueConstraint.__init__ o x None nm vb = Ok c0 ->
  let c' := fst (ValueConstraint.update (value_counted c0 t f) v) in
  ValueConstraint.total c' = t + 1
  /\ (compare_holds o qv qx -> ValueConstraint.failures c' = f)
  /\ (~ compare_holds o qv qx -> ValueConstraint.failures c' = f + 1)
  /\ (vb = false ->
      snd (ValueConstraint.update (value_counted c0 t f) v) = Ok tt).
Proof.
  intros Ho Nx Nv E.
  destruct (value_init_literal o x nm vb c0 E) as (_ & fn & Tf & ->).
  destruct (value_funcs_compare o fn x v qx qv Ho Tf Nx Nv) as (b & Eb & Hb).
  unfold ValueConstraint.update, value_counted; cbn.
  assert (M : is_match_op o = false) by (destruct o; try discriminate; reflexivity).
  rewrite M, Eb; cbn.
  destruct b; cbn.
  - repeat split; try reflexivity.
    intros N. exfalso. apply N, Hb. reflexivity.
  - assert (N : ~ compare_holds o qv qx)
      by (intros Hc; apply Hb in Hc; discriminate).
    destruct vb; cbn; repeat split; try reflexivity;
      try (intros Hc; contradiction); discriminate.
Qed.

Lemma value_update_compares_witness :
  let c' := fst (@ValueConstraint.update example_builtins
                   (value_counted gt_zero 3 1) (PFloat (1 # 2))) in
  ValueConstraint.total c' = 3 + 1 /\ ValueConstraint.failures c' = 1.
Proof.
  destruct (@value_update_compares example_builtins GT (PInt 0)
              (PFloat (1 # 2)) (inject_Z 0) (1 # 2) None false gt_zero 3 1
              eq_refl eq_refl eq_refl eq_refl) as (T & F & _).
  split; [exact T | apply F; reflexivity].
Defined.

(** X3. With an ordering operator and a numeric literal, an input that is
    not a number makes [update] raise [TypeError] after [total] has
    grown by one, [failures] unchanged; with EQ and NE no input raises,
    and every input that is not a number counts as different from the
    literal. NaN is a [float] and raises nothing: it fails every
    comparison but NE. *)
Theorem value_update_on_other_type `{Builtins}
    (o : Op) (x v : pyval) (qx : Q) (nm : option string)
    (c0 : ValueConstraint.t) (t f : Z) :
  num_of x = Some qx ->
  num_of v = None ->
  ValueConstraint.__init__ o x None nm false = Ok c0 ->
  (is_nan v = false ->
   (is_ordering_op o = true ->
    ValueConstraint.update (value_counted c0 t f) v
    = (value_counted c0 (t + 1) f, Raise TypeError))
   /\ (o = EQ ->
       ValueConstraint.update (value_counted c0 t f) v
       = (value_counted c0 (t + 1) (f + 1), Ok tt))
   /\ (o = NE ->
       ValueConstraint.update (value_counted c0 t f) v
       = (value_counted c0 (t + 1) f, Ok tt)))
  /\ (is_nan v = true ->
      (is_compare_op o = true -> o <> NE ->
       ValueConstraint.update (value_counted c0 t f) v
       = (value_counted c0 (t + 1) (f + 1), Ok tt))
      /\ (o = NE ->
          ValueConstraint.update (value_counted c0 t f) v
          = (value_counted c0 (t + 1) f, Ok tt))).
Proof.
  intros Nx Nv E.
  destruct (value_init_literal o x nm false c0 E) as (_ & fn & Tf & ->).
  assert (Eq : py_eq v x = false).
  { unfold py_eq. rewrite Nv. destruct v, x; try discriminate; reflexivity. }
  split.
  - intros Nn.
    assert (Ol : forall g h, py_order g h v x = Raise TypeError).
    { intros g h. unfold py_order. rewrite Nv.
      destruct v, x; try discriminate; reflexivity. }
    assert (Or : forall g h, py_order g h x v = Raise TypeError).
    { intros g h. unfold py_order. rewrite Nx, Nv.
      destruct v, x; try discriminate; reflexivity. }
    split; [| split].
    + intros Ho. destruct o; try discriminate Ho; cbn in Tf;
        injection Tf as <-; unfold ValueConstraint.update, value_counted; cbn;
        unfold py_gt, py_ge, py_lt, py_le; rewrite ?Ol, ?Or; reflexivity.
    + intros ->. cbn in Tf; injection Tf as <-.
      unfold ValueConstraint.update, value_counted; cbn. rewrite Eq.
      reflexivity.
    + intros ->. cbn in Tf; injection Tf as <-.
      unfold ValueConstraint.update, value_counted; cbn. rewrite Eq.
      reflexivity.
  - intros Nn.
    assert (Ol : forall g h, py_order g h v x = Ok false).
    { intros g h. unfold py_order. rewrite Nv.
      destruct v, x; try discriminate; reflexivity. }
    assert (Or : forall g h, py_order g h x v = Ok false).
    { intros g h. unfold py_order. rewrite Nx, Nv.
      destruct v, x; try discriminate; reflexivity. }
    split.
    + intros Ho Ne. destruct o; try discriminate Ho; try congruence;
        cbn in Tf; injection Tf as <-;
        unfold ValueConstraint.update, value_counted; cbn;
        unfold py_gt, py_ge, py_lt, py_le; rewrite ?Ol, ?Or, ?Eq; reflexivity.
    + intros ->. cbn in Tf; injection Tf as <-.
      unfold ValueConstraint.update, value_counted; cbn. rewrite Eq.
      reflexivity.
Qed.

Lemma value_update_on_other_type_witness :
  @ValueConstraint.update example_builtins (value_counted gt_zero 3 1)
    (PStr "abc")
  = (value_counted gt_zero 4 1, Raise TypeError)
  /\ @ValueConstraint.update example_builtins (value_counted gt_zero 3 1) PNaN
     = (value_counted gt_zero 4 2, Ok tt).
Proof.
  split.
  - exact (proj1 (proj1 (@value_update_on_other_type example_builtins GT
                           (PInt 0) (PStr "abc") (inject_Z 0) None gt_zero 3 1
                           eq_refl eq_refl eq_refl) eq_refl) eq_refl).
  - refine (proj1 (proj2 (@value_update_on_other_type example_builtins GT
                           (PInt 0) PNaN (inject_Z 0) None gt_zero 3 1
                           eq_refl eq_refl eq_refl) eq_refl) eq_refl _).
    discriminate.
Defined.

(** X4. A MATCH and a NOMATCH constraint built from the same pattern,
    updated with the same text: both calls return, and exactly one of the
    two counts a failure, the MATCH constraint when the pattern does not
    match the text and the NOMATCH constraint when it does. *)
Theorem match_and_nomatch_are_complementary `{Builtins}
    (p s : string) (nm nm' : option string) (vb vb' : bool)
    (m n : ValueConstraint.t) :
  ValueConstraint.__init__ MATCH PNone (Some p) nm vb = Ok m ->
  ValueConstraint.__init__ NOMATCH PNone (Some p) nm' vb' = Ok n ->
  snd (ValueConstraint.update m (PStr s)) = Ok tt
  /\ snd (ValueConstraint.update n (PStr s)) = Ok tt
  /\ ValueConstraint.failures (fst (ValueConstraint.update m (PStr s)))
     = (if re_match p s then 0 else 1)
  /\ ValueConstraint.failures (fst (ValueConstraint.update n (PStr s)))
     = (if re_match p s then 1 else 0).
Proof.
  intros Em En.
  destruct (value_init_pattern MATCH p nm vb m Em) as (_ & f & Tf & ->).
  destruct (value_init_pattern NOMATCH p nm' vb' n En) as (_ & g & Tg & ->).
  cbn in Tf, Tg. injection Tf as <-. injection Tg as <-.
  unfold ValueConstraint.update, ValueConstraint.name; cbn.
  destruct (re_match p s); cbn;
    destruct vb, vb', nm, nm'; cbn; repeat split; reflexivity.
Qed.

Lemma match_and_nomatch_are_complementary_witness :
  exists m n,
    @ValueConstraint.__init__ example_builtins MATCH PNone (Some "ab") None
      true = Ok m
    /\ @ValueConstraint.__init__ example_builtins NOMATCH PNone (Some "ab")
         None true = Ok n
    /\ ValueConstraint.failures
         (fst (@ValueConstraint.update example_builtins m (PStr "abc"))) = 0
    /\ ValueConstraint.failures
         (fst (@ValueConstraint.update example_builtins n (PStr "abc"))) = 1.
Proof.
  do 2 eexists. split; [reflexivity |]. split; [reflexivity |].
  destruct (@match_and_nomatch_are_complementary example_builtins "ab" "abc"
              None None true true _ _ eq_refl eq_refl) as (_ & _ & Fm & Fn).
  split; [exact Fm | exact Fn].
Defined.

(** X5. A MATCH or NOMATCH constraint built from a pattern, serialized
    and deserialized: the constraint that [from_protobuf] returns holds a
    literal instead of the pattern, and its [update] raises
    [AttributeError] on every text, after counting the call in [total]. *)
Theorem decoded_pattern_constraint_rejects_text `{Builtins}
    (o : Op) (p s : string) (nm : option string) (vb : bool)
    (c : ValueConstraint.t) :
  is_match_op o = true ->
  ValueConstraint.__init__ o PNone (Some p) nm vb = Ok c ->
  exists m c',
    ValueConstraint.to_protobuf c = Ok m
    /\ ValueConstraint.from_protobuf m = Ok c'
    /\ ValueConstraint.regex_pattern c' = None
    /\ ValueConstraint.update c' (PStr s)
       = (ValueConstraint.set_total c' 1, Raise AttributeError).
Proof.
  intros Ho E.
  destruct (value_init_pattern o p nm vb c E) as (_ & f & Tf & ->).
  unfold ValueConstraint.to_protobuf, ValueConstraint.name; cbn.
  destruct o; try discriminate Ho; cbn in Tf; injection Tf as <-;
    destruct nm; cbn; do 2 eexists;
    (split; [reflexivity |]); (split; [reflexivity |]);
    split; reflexivity.
Qed.

Lemma decoded_pattern_constraint_rejects_text_witness :
  exists c m c',
    @ValueConstraint.__init__ example_builtins MATCH PNone (Some "ab") None
      false = Ok c
    /\ @ValueConstraint.to_protobuf example_builtins c = Ok m
    /\ @ValueConstraint.from_protobuf example_builtins m = Ok c'
    /\ @ValueConstraint.update example_builtins c' (PStr "abc")
       = (ValueConstraint.set_total c' 1, Raise AttributeError).
Proof.
  eexists.
  destruct (@decoded_pattern_constraint_rejects_text example_builtins MATCH
              "ab" "abc" None false _ eq_refl eq_refl)
    as (m & c' & Em & Ec & _ & Eu).
  exists m, c'. repeat split; assumption.
Defined.

(** What a [merge] that returns has checked, and what it returns. *)
Lemma value_merge_inv `{Builtins} (a b m : ValueConstraint.t) :
  ValueConstraint.merge a (Some b) = Ok m ->
  (exists n va vb,
      ValueConstraint.name a = Ok n /\ ValueConstraint.name b = Ok n
      /\ ValueConstraint.value a = Some va
      /\ ValueConstraint.value b = Some vb
      /\ py_eq va vb = true
      /\ ValueConstraint._name m = Some n)
  /\ ValueConstraint.op a = ValueConstraint.op b
  /\ ValueConstraint.op m = ValueConstraint.op a
  /\ ValueConstraint.value m = ValueConstraint.value a
  /\ ValueConstraint._verbose m = ValueConstraint._verbose a
  /\ ValueConstraint.total m
     = ValueConstraint.total a + ValueConstraint.total b
  /\ ValueConstraint.failures m
     = ValueConstraint.failures a + ValueConstraint.failures b.
Proof.
  unfold ValueConstraint.merge.
  destruct (ValueConstraint.name a) as [n1 |] eqn:Na; cbn -[ValueConstraint.__init__]; [| discriminate].
  destruct (ValueConstraint.name b) as [n2 |] eqn:Nb; cbn -[ValueConstraint.__init__]; [| discriminate].
  destruct (n1 =? n2)%string eqn:En; cbn -[ValueConstraint.__init__]; [| discriminate].
  apply String.eqb_eq in En; subst n2.
  destruct (Op_eqb (ValueConstraint.op a) (ValueConstraint.op b)) eqn:Eo;
    cbn -[ValueConstraint.__init__]; [| discriminate].
  destruct (ValueConstraint.value a) as [va |] eqn:Va; cbn -[ValueConstraint.__init__]; [| discriminate].
  destruct (ValueConstraint.value b) as [vb |] eqn:Vb; cbn -[ValueConstraint.__init__]; [| discriminate].
  destruct (py_eq va vb) eqn:Ev; cbn -[ValueConstraint.__init__]; [| discriminate].
  destruct (ValueConstraint.__init__ (ValueConstraint.op a) va None (Some n1)
              (ValueConstraint._verbose a)) as [c |] eqn:Ei;
    cbn -[ValueConstraint.__init__]; [| discriminate].
  intros E; injection E as <-.
  destruct (value_init_literal _ _ _ _ _ Ei) as (_ & f & _ & ->). cbn.
  split; [exists n1, va, vb; repeat split; assumption |].
  repeat split; try reflexivity.
  destruct (ValueConstraint.op a), (ValueConstraint.op b);
    try discriminate Eo; reflexivity.
Qed.

(** X6. Whenever [ValueConstraint.merge] returns a constraint for two
    instances, both have a literal, equal under [==], the same operator
    and the same rendered name; the result has that operator, the literal
    and the name of the first, the verbose flag of the first, and
    counters that are the sums. *)
Theorem value_merge_returns_sums `{Builtins} (a b m : ValueConstraint.t) :
  ValueConstraint.merge a (Some b) = Ok m ->
  (exists n va vb,
      ValueConstraint.name a = Ok n /\ ValueConstraint.name b = Ok n
      /\ ValueConstraint.value a = Some va
      /\ ValueConstraint.value b = Some vb
      /\ py_eq va vb = true
      /\ ValueConstraint._name m = Some n)
  /\ ValueConstraint.op a = ValueConstraint.op b
  /\ ValueConstraint.op m = ValueConstraint.op a
  /\ ValueConstraint.value m = ValueConstraint.value a
  /\ ValueConstraint._verbose m = ValueConstraint._verbose a
  /\ ValueConstraint.total m
     = ValueConstraint.total a + ValueConstraint.total b
  /\ ValueConstraint.failures m
     = ValueConstraint.failures a + ValueConstraint.failures b.
Proof. apply value_merge_inv. Qed.

Lemma value_merge_returns_sums_witness :
  exists m,
    @ValueConstraint.merge example_builtins (value_counted gt_five 3 1)
      (Some (value_counted gt_five 2 2)) = Ok m
    /\ ValueConstraint.total m = 3 + 2
    /\ ValueConstraint.failures m = 1 + 2.
Proof.
  eexists. split; [reflexivity |].
  destruct (@value_merge_returns_sums example_builtins
              (value_counted gt_five 3 1) (value_counted gt_five 2 2) _
              eq_refl)
    as (_ & _ & _ & _ & _ & T & F).
  split; [exact T | exact F].
Defined.

(* ------------------------------------------------------------------ *)
(** ** Further properties: SummaryConstraint *)

Lemma opt_str_eq_true (a b : option string) : opt_str_eq a b = true -> a = b.
Proof.
  destruct a, b; cbn; try discriminate; [| reflexivity].
  intros E. apply String.eqb_eq in E. congruence.
Qed.

Lemma Op_eqb_true (a b : Op) : Op_eqb a b = true -> a = b.
Proof. destruct a, b; cbn; try discriminate; reflexivity. Qed.

(** What a [merge] that returns has checked, and what it returns. *)
Lemma summary_merge_inv `{Builtins} (a b m : SummaryConstraint.t) :
  SummaryConstraint.merge a (Some b) = Ok m ->
  (exists n, SummaryConstraint.name a = Ok n
             /\ SummaryConstraint.name b = Ok n)
  /\ SummaryConstraint.op a = SummaryConstraint.op b
  /\ py_eq (SummaryConstraint.value a) (SummaryConstraint.value b) = true
  /\ SummaryConstraint.first_field a = SummaryConstraint.first_field b
  /\ SummaryConstraint.second_field a = SummaryConstraint.second_field b
  /\ SummaryConstraint.total m
     = SummaryConstraint.total a + SummaryConstraint.total b
  /\ SummaryConstraint.failures m
     = SummaryConstraint.failures a + SummaryConstraint.failures b.
Proof.
  unfold SummaryConstraint.merge.
  destruct (SummaryConstraint.name a) as [n1 |] eqn:Na;
    cbn -[SummaryConstraint.__init__]; [| discriminate].
  destruct (SummaryConstraint.name b) as [n2 |] eqn:Nb;
    cbn -[SummaryConstraint.__init__]; [| discriminate].
  destruct (n1 =? n2)%string eqn:En;
    cbn -[SummaryConstraint.__init__]; [| discriminate].
  apply String.eqb_eq in En; subst n2.
  destruct (Op_eqb (SummaryConstraint.op a) (SummaryConstraint.op b)) eqn:Eo;
    cbn -[SummaryConstraint.__init__]; [| discriminate].
  destruct (py_eq (SummaryConstraint.value a) (SummaryConstraint.value b))
    eqn:Ev; cbn -[SummaryConstraint.__init__]; [| discriminate].
  destruct (SummaryConstraint.first_field a =? SummaryConstraint.first_field b)%string
    eqn:Ef; cbn -[SummaryConstraint.__init__]; [| discriminate].
  destruct (opt_str_eq (SummaryConstraint.second_field a)
              (SummaryConstraint.second_field b)) eqn:Es;
    cbn -[SummaryConstraint.__init__]; [| discriminate].
  match goal with
  | |- bind ?X _ = _ -> _ => destruct X as [mc | e]
  end; cbn; [| discriminate].
  intros E; injection E as <-.
  split; [exists n1; split; reflexivity |].
  split; [apply Op_eqb_true; assumption |].
  split; [reflexivity |].
  split; [apply String.eqb_eq; assumption |].
  split; [apply opt_str_eq_true; assumption |].
  destruct mc; split; reflexivity.
Qed.

(** X7. Whenever [SummaryConstraint.merge] returns a constraint for two
    instances, both render the same name and have the same operator, the
    same first and second field and values equal under [==]; the counters
    of the result are the sums. *)
Theorem summary_merge_returns_sums `{Builtins}
    (a b m : SummaryConstraint.t) :
  SummaryConstraint.merge a (Some b) = Ok m ->
  (exists n, SummaryConstraint.name a = Ok n
             /\ SummaryConstraint.name b = Ok n)
  /\ SummaryConstraint.op a = SummaryConstraint.op b
  /\ py_eq (SummaryConstraint.value a) (SummaryConstraint.value b) = true
  /\ SummaryConstraint.first_field a = SummaryConstraint.first_field b
  /\ SummaryConstraint.second_field a = SummaryConstraint.second_field b
  /\ SummaryConstraint.total m
     = SummaryConstraint.total a + SummaryConstraint.total b
  /\ SummaryConstraint.failures m
     = SummaryConstraint.failures a + SummaryConstraint.failures b.
Proof. apply summary_merge_inv. Qed.

Lemma summary_merge_returns_sums_witness :
  SummaryConstraint.__init__ "min" GE (PInt 0) PNone None None (AVal PNone)
    None false = Ok min_ge_zero
  /\ exists m,
       @SummaryConstraint.merge example_builtins (counted min_ge_zero 3 1)
         (Some (counted min_ge_zero 2 2)) = Ok m
       /\ SummaryConstraint.total m = 3 + 2
       /\ SummaryConstraint.failures m = 1 + 2.
Proof.
  split; [reflexivity |]. eexists. split; [reflexivity |].
  destruct (@summary_merge_returns_sums example_builtins
              (counted min_ge_zero 3 1) (counted min_ge_zero 2 2) _ eq_refl)
    as (_ & _ & _ & _ & _ & T & F).
  split; [exact T | exact F].
Defined.

(** X8. [failures] never exceeds [total], in either class: a call of
    [update] keeps [0 <= failures <= total] whether it returns or raises,
    and a [merge] that returns yields it from operands that have it. *)
Theorem failures_never_exceed_total `{Builtins} :
  (forall (c : ValueConstraint.t) (v : pyval),
      counters_ok (ValueConstraint.total c) (ValueConstraint.failures c) ->
      let c' := fst (ValueConstraint.update c v) in
      counters_ok (ValueConstraint.total c') (ValueConstraint.failures c'))
  /\ (forall a b m : ValueConstraint.t,
         counters_ok (ValueConstraint.total a) (ValueConstraint.failures a) ->
         counters_ok (ValueConstraint.total b) (ValueConstraint.failures b) ->
         ValueConstraint.merge a (Some b) = Ok m ->
         counters_ok (ValueConstraint.total m) (ValueConstraint.failures m))
  /\ (forall (c : SummaryConstraint.t) (d : update_dict),
         counters_ok (SummaryConstraint.total c) (SummaryConstraint.failures c) ->
         let c' := fst (SummaryConstraint.update c d) in
         counters_ok (SummaryConstraint.total c')
           (SummaryConstraint.failures c'))
  /\ (forall a b m : SummaryConstraint.t,
         counters_ok (SummaryConstraint.total a) (SummaryConstraint.failures a) ->
         counters_ok (SummaryConstraint.total b) (SummaryConstraint.failures b) ->
         SummaryConstraint.merge a (Some b) = Ok m ->
         counters_ok (SummaryConstraint.total m)
           (SummaryConstraint.failures m)).
Proof.
  unfold counters_ok. split; [| split; [| split]].
  - intros c v I. cbv zeta.
    destruct (value_update_shape c v) as (f & -> & Hf).
    destruct c; cbn in *. lia.
  - intros a b m Ia Ib E.
    destruct (value_merge_inv a b m E) as (_ & _ & _ & _ & _ & T & F).
    lia.
  - intros c d I. cbv zeta.
    destruct (summary_update_shape c d) as (f & -> & Hf).
    destruct c; cbn in *. lia.
  - intros a b m Ia Ib E.
    destruct (summary_merge_inv a b m E) as (_ & _ & _ & _ & _ & T & F).
    lia.
Qed.

Lemma failures_never_exceed_total_witness :
  let c' := fst (@ValueConstraint.update example_builtins
                   (value_counted gt_zero 4 4) (PInt (-1))) in
  counters_ok (ValueConstraint.total c') (ValueConstraint.failures c').
Proof.
  apply (proj1 (@failures_never_exceed_total example_builtins)
           (value_counted gt_zero 4 4) (PInt (-1))).
  unfold counters_ok. cbn. lia.
Defined.

(** X9. With one of the six comparison operators,
    [SummaryConstraint.__init__] returns exactly when neither an upper
    value nor a third field is given and exactly one of [value] and
    [second_field] is; every other combination raises [ValueError]. With
    MATCH or NOMATCH it never returns. *)
Theorem summary_init_compare_exclusive
    (ff : string) (o : Op) (v uv : pyval) (sf tf : option string)
    (rs : set_like) (nm : option string) (vb : bool) :
  (is_compare_op o = true ->
   ((exists c, SummaryConstraint.__init__ ff o v uv sf tf rs nm vb = Ok c)
    <-> (uv = PNone /\ tf = None
         /\ ((is_none v = false /\ sf = None)
             \/ (v = PNone /\ sf <> None))))
   /\ (forall e, SummaryConstraint.__init__ ff o v uv sf tf rs nm vb = Raise e ->
                 e = ValueError))
  /\ (is_match_op o = true ->
      forall c, SummaryConstraint.__init__ ff o v uv sf tf rs nm vb <> Ok c).
Proof.
  split.
  - intros Ho.
    assert (Hs : is_set_op o = false) by (destruct o; try discriminate; reflexivity).
    split; [split |].
    + intros [c E].
      destruct (field_init_inv _ _ _ _ _ _ _ _ _ _ Hs E) as (S & _).
      destruct S as [(-> & _) | [(-> & _)
                    | [(_ & -> & -> & -> & Nv) | (_ & -> & -> & -> & f2 & ->)]]];
        try discriminate Ho.
      * repeat split; left; split; [assumption | reflexivity].
      * repeat split; right; split; [reflexivity | discriminate].
    + intros (-> & -> & [[Nv ->] | [-> Ns]]);
        unfold SummaryConstraint.__init__; rewrite Hs;
        destruct o; try discriminate Ho; cbn.
      all: try (rewrite Nv; cbn; eauto; fail).
      all: destruct sf; [cbn; eauto | congruence].
    + intros e. unfold SummaryConstraint.__init__. rewrite Hs.
      destruct o; try discriminate Ho;
        (destruct (negb (is_none uv) || match tf with Some _ => true | None => false end);
         [intros E; injection E as <-; reflexivity |]);
        destruct sf, (is_none v); cbn; try discriminate;
        intros E; injection E as <-; reflexivity.
  - intros Ho c. unfold SummaryConstraint.__init__.
    destruct o; try discriminate Ho; cbn;
      (destruct (negb (is_none uv) || match tf with Some _ => true | None => false end);
       [discriminate |]);
      destruct sf, (is_none v); cbn; discriminate.
Qed.

Lemma summary_init_compare_exclusive_witness :
  (exists c, SummaryConstraint.__init__ "min" GE (PInt 0) PNone None None
               (AVal PNone) None false = Ok c)
  /\ SummaryConstraint.__init__ "min" GE (PInt 0) PNone (Some "max") None
       (AVal PNone) None false = Raise ValueError
  /\ SummaryConstraint.__init__ "min" GE PNone PNone None None
       (AVal PNone) None false = Raise ValueError.
Proof.
  split; [| split; reflexivity].
  apply (proj1 (proj1 (summary_init_compare_exclusive "min" GE (PInt 0) PNone
                         None None (AVal PNone) None false) eq_refl)).
  repeat split. left. split; reflexivity.
Defined.

(** X10. With a set operator, [SummaryConstraint.__init__] returns exactly
    when [value], [upper_value] and the two bound fields are all false
    or absent, the reference input is true and can be made a set, and the
    sketch takes every member of that set, that is text and numbers. A
    true operand makes it raise [ValueError]; a reference input that is
    true and not iterable, and a set with a member that the sketch does
    not take, such as [None], make it raise [TypeError]. *)
Theorem summary_init_set_checked
    (ff : string) (o : Op) (v uv : pyval) (sf tf : option string)
    (rs : set_like) (nm : option string) (vb : bool) :
  is_set_op o = true ->
  ((exists c, SummaryConstraint.__init__ ff o v uv sf tf rs nm vb = Ok c)
   <-> (truthy v = false /\ truthy uv = false
        /\ truthy_str sf = false /\ truthy_str tf = false
        /\ truthy_set_like rs = true
        /\ exists r, set_cast rs = Ok r /\ forallb theta_accepts r = true))
  /\ (truthy v = true \/ truthy uv = true
      \/ truthy_str sf = true \/ truthy_str tf = true ->
      SummaryConstraint.__init__ ff o v uv sf tf rs nm vb = Raise ValueError)
  /\ (truthy v = false -> truthy uv = false ->
      truthy_str sf = false -> truthy_str tf = false ->
      truthy_set_like rs = true ->
      set_cast rs = Raise TypeError
      \/ (exists r, set_cast rs = Ok r /\ forallb theta_accepts r = false) ->
      SummaryConstraint.__init__ ff o v uv sf tf rs nm vb = Raise TypeError)
  /\ (forall e, SummaryConstraint.__init__ ff o v uv sf tf rs nm vb = Raise e ->
                configuration_error e).
Proof.
  intros Ho. unfold configuration_error.
  destruct (truthy v || truthy uv || truthy_str sf || truthy_str tf
            || negb (truthy_set_like rs)) eqn:A.
  - assert (E : SummaryConstraint.__init__ ff o v uv sf tf rs nm vb
                = Raise ValueError)
      by (unfold SummaryConstraint.__init__; rewrite Ho, A; reflexivity).
    rewrite E.
    split; [split; [intros [c R]; discriminate |] |].
    { intros (Tv & Tu & Ts & Tt & Tr & _).
      rewrite Tv, Tu, Ts, Tt, Tr in A. discriminate. }
    split; [reflexivity |].
    split; [| intros e R; injection R as <-; auto].
    intros Tv Tu Ts Tt Tr _. rewrite Tv, Tu, Ts, Tt, Tr in A. discriminate.
  - pose proof A as A'.
    apply orb_false_iff in A' as [A' Tr]. apply negb_false_iff in Tr.
    apply orb_false_iff in A' as [A' Tt].
    apply orb_false_iff in A' as [A' Ts].
    apply orb_false_iff in A' as [Tv Tu].
    destruct (set_cast rs) as [r | e] eqn:Ec.
    + rewrite (set_arm ff o v uv sf tf rs r nm vb Ho A Ec).
      destruct (forallb theta_accepts r) eqn:Ar.
      * split; [split; [intros _; repeat split; eauto | intros _; eauto] |].
        split; [intros [B | [B | [B | B]]]; congruence |].
        split; [| intros e R; discriminate].
        intros _ _ _ _ _ [B | (r' & B & C)]; [discriminate |].
        injection B as <-. congruence.
      * split; [split; [intros [c R]; discriminate |] |].
        { intros (_ & _ & _ & _ & _ & r' & B & C).
          injection B as <-. congruence. }
        split; [intros [B | [B | [B | B]]]; congruence |].
        split; [reflexivity | intros e R; injection R as <-; auto].
    + assert (Ee : e = TypeError).
      { destruct rs as [s | l | x]; cbn in Ec; try discriminate.
        destruct x; cbn in Ec; congruence. }
      subst e.
      assert (E : SummaryConstraint.__init__ ff o v uv sf tf rs nm vb
                  = Raise TypeError)
        by (unfold SummaryConstraint.__init__; rewrite Ho, A, Ec; reflexivity).
      rewrite E.
      split; [split; [intros [c R]; discriminate
                     | intros (_ & _ & _ & _ & _ & r & B & _); discriminate] |].
      split; [intros [B | [B | [B | B]]]; congruence |].
      split; [reflexivity | intros e R; injection R as <-; auto].
Qed.

Lemma summary_init_set_checked_witness :
  SummaryConstraint.__init__ "distinct_column_values" IN_SET (PInt 3) PNone
    None None (ASet [PInt 1]) None false = Raise ValueError
  /\ SummaryConstraint.__init__ "distinct_column_values" IN_SET PNone PNone
       None None (AVal (PInt 5)) None false = Raise TypeError
  /\ SummaryConstraint.__init__ "distinct_column_values" IN_SET PNone PNone
       None None (ASet [PStr "a"; PNone]) None false = Raise TypeError
  /\ exists c,
       SummaryConstraint.__init__ "distinct_column_values" IN_SET PNone PNone
         None None (ASet [PStr "a"; PInt 1]) None false = Ok c.
Proof.
  pose proof (summary_init_set_checked "distinct_column_values" IN_SET
                (PInt 3) PNone None None (ASet [PInt 1]) None false eq_refl)
    as (_ & V & _).
  pose proof (summary_init_set_checked "distinct_column_values" IN_SET
                PNone PNone None None (AVal (PInt 5)) None false eq_refl)
    as (_ & _ & T & _).
  pose proof (summary_init_set_checked "distinct_column_values" IN_SET
                PNone PNone None None (ASet [PStr "a"; PNone]) None false
                eq_refl)
    as (_ & _ & U & _).
  pose proof (summary_init_set_checked "distinct_column_values" IN_SET
                PNone PNone None None (ASet [PStr "a"; PInt 1]) None false
                eq_refl)
    as ([_ R] & _).
  split; [apply V; left; reflexivity |].
  split; [apply T; try reflexivity; left; reflexivity |].
  split; [apply U; try reflexivity; right; eexists; split; reflexivity |].
  apply R. repeat split. eexists; split; reflexivity.
Defined.

(** X11. With BETWEEN and a bound value left out, [__init__] returns
    exactly when both values are left out and both bound fields are
    given; a mix of a value and a field, or a single bound, raises
    [ValueError]. *)
Theorem summary_init_between_fields
    (ff : string) (v uv : pyval) (sf tf : option string)
    (rs : set_like) (nm : option string) (vb : bool) :
  is_none v = true \/ is_none uv = true ->
  ((exists c, SummaryConstraint.__init__ ff BTWN v uv sf tf rs nm vb = Ok c)
   <-> (v = PNone /\ uv = PNone /\ sf <> None /\ tf <> None))
  /\ (forall e, SummaryConstraint.__init__ ff BTWN v uv sf tf rs nm vb = Raise e ->
                e = ValueError).
Proof.
  intros N. unfold SummaryConstraint.__init__; cbn.
  destruct sf as [f2 |], tf as [f3 |], (is_none v) eqn:Nv,
    (is_none uv) eqn:Nu; cbn;
    try apply is_none_true in Nv; try apply is_none_true in Nu; subst;
    try (destruct N; discriminate);
    (split; [split; [intros [c E]; try discriminate; repeat split; discriminate
                    | intros (A & B & C & D); try congruence;
                      try (subst; discriminate); eauto]
            | intros e E; try discriminate; injection E as <-; reflexivity]).
Qed.

Lemma summary_init_between_fields_witness :
  (exists c, SummaryConstraint.__init__ "mean" BTWN PNone PNone (Some "min")
               (Some "max") (AVal PNone) None false = Ok c)
  /\ SummaryConstraint.__init__ "mean" BTWN (PInt 1) PNone None (Some "max")
       (AVal PNone) None false = Raise ValueError.
Proof.
  split; [| reflexivity].
  apply (proj1 (summary_init_between_fields "mean" PNone PNone (Some "min")
                  (Some "max") (AVal PNone) None false
                  (or_introl eq_refl))).
  repeat split; discriminate.
Defined.

(** A [SummaryConstraint] that [__init__] returned has a name to render,
    the explicit one when there is one. *)
Lemma summary_name_renders `{Builtins}
    (ff : string) (o : Op) (v uv : pyval) (sf tf : option string)
    (rs : set_like) (nm : option string) (vb : bool)
    (c0 : SummaryConstraint.t) (t f : Z) :
  SummaryConstraint.__init__ ff o v uv sf tf rs nm vb = Ok c0 ->
  exists n,
    SummaryConstraint.name (counted c0 t f) = Ok n
    /\ (forall n', nm = Some n' -> n = n').
Proof.
  intros E. destruct (is_set_op o) eqn:Ho.
  - destruct (set_init_inv _ _ _ _ _ _ _ _ _ _ Ho E) as (r & _ & _ & -> & _).
    unfold SummaryConstraint.name; cbn. rewrite Ho; cbn.
    destruct nm as [n |]; eexists; (split; [reflexivity |]);
      intros n' E'; congruence.
  - destruct (field_init_inv _ _ _ _ _ _ _ _ _ _ Ho E) as (_ & fn & ->).
    unfold SummaryConstraint.name; cbn. rewrite Ho.
    destruct o; try discriminate Ho;
      destruct nm as [n |]; eexists; (split; [reflexivity |]);
      intros n' E'; congruence.
Qed.

(** X12. [report] of a [SummaryConstraint] that [__init__] returned always
    returns: the name, which is the explicit one when one was given, and
    the two counters. *)
Theorem summary_report_returns `{Builtins}
    (ff : string) (o : Op) (v uv : pyval) (sf tf : option string)
    (rs : set_like) (nm : option string) (vb : bool)
    (c0 : SummaryConstraint.t) (t f : Z) :
  SummaryConstraint.__init__ ff o v uv sf tf rs nm vb = Ok c0 ->
  exists n,
    SummaryConstraint.report (counted c0 t f) = Ok (n, t, f)
    /\ (forall n', nm = Some n' -> n = n').
Proof.
  intros E.
  destruct (summary_name_renders ff o v uv sf tf rs nm vb c0 t f E)
    as (n & N & Hn).
  exists n. split; [| exact Hn].
  unfold SummaryConstraint.report. rewrite N. destruct c0; reflexivity.
Qed.

Lemma summary_report_returns_witness :
  exists n,
    @SummaryConstraint.report example_builtins (counted min_ge_zero 7 2)
    = Ok (n, 7, 2).
Proof.
  destruct (@summary_report_returns example_builtins "min" GE (PInt 0) PNone
              None None (AVal PNone) None false min_ge_zero 7 2 eq_refl)
    as (n & R & _).
  exists n. exact R.
Defined.

(** The interval test on numbers. *)
Lemma chained_le_numeric (lo x hi : pyval) (ql qx qh : Q) :
  num_of lo = Some ql -> num_of x = Some qx -> num_of hi = Some qh ->
  exists b, chained_le lo x (Ok hi) = Ok b
            /\ (b = true <-> (ql <= qx /\ qx <= qh)%Q).
Proof.
  intros Nl Nx Nh.
  assert (A : py_le lo x = Ok (Qle_bool ql qx))
    by (unfold py_le, py_order; rewrite Nl, Nx; reflexivity).
  assert (B : py_le x hi = Ok (Qle_bool qx qh))
    by (unfold py_le, py_order; rewrite Nx, Nh; reflexivity).
  unfold chained_le. rewrite A. cbn.
  destruct (Qle_bool ql qx) eqn:L; cbn.
  - rewrite B. eexists. split; [reflexivity |].
    rewrite <- !Qle_bool_iff. rewrite L. intuition.
  - eexists. split; [reflexivity |].
    rewrite <- !Qle_bool_iff. rewrite L. intuition discriminate.
Qed.

(** X13. A BETWEEN constraint on the literal bounds [lower] and [upper],
    verbose or not, updated with a bundle whose summary has the number
    [x] in the tested field: [failures] stays when [lower <= x <= upper],
    bounds included, and grows by one otherwise; [total] grows by one. *)
Theorem between_update_includes_bounds `{Builtins}
    (ff : string) (lower upper x : pyval) (ql qu qx : Q)
    (nm : option string) (vb : bool) (c0 : SummaryConstraint.t) (t f : Z)
    (s : summary) (st nt : theta_sketch) :
  num_of lower = Some ql -> num_of upper = Some qu -> num_of x = Some qx ->
  getattr s ff = Ok x ->
  SummaryConstraint.__init__ ff BTWN lower upper None None (AVal PNone) nm
    vb = Ok c0 ->
  let c' := fst (SummaryConstraint.update (counted c0 t f)
                   (mk_update_dict (Some s) (Some st) (Some nt))) in
  SummaryConstraint.total c' = t + 1
  /\ ((ql <= qx /\ qx <= qu)%Q -> SummaryConstraint.failures c' = f)
  /\ (~ (ql <= qx /\ qx <= qu)%Q -> SummaryConstraint.failures c' = f + 1).
Proof.
  intros Nl Nu Nx G E.
  assert (Vl : is_none lower = false) by (destruct lower; try discriminate; reflexivity).
  assert (Vu : is_none upper = false) by (destruct upper; try discriminate; reflexivity).
  rewrite (between_literals_init ff lower upper None None (AVal PNone) nm vb
             Vl Vu) in E.
  destruct (negb (is_int_or_float lower) || negb (is_int_or_float upper));
    [discriminate |].
  destruct (py_ge lower upper) as [[|] | e]; try discriminate.
  injection E as <-.
  destruct (chained_le_numeric lower x upper ql qx qu Nl Nx Nu) as (b & Eb & Hb).
  unfold SummaryConstraint.update, SummaryConstraint.evaluate,
    SummaryConstraint.count_failure, counted, _summary_funcs1_BTWN; cbn.
  rewrite G; cbn. rewrite Eb. destruct b; cbn.
  - repeat split; try reflexivity.
    intros N. exfalso. apply N, Hb. reflexivity.
  - destruct vb; cbn; repeat split; try reflexivity;
      intros I; apply Hb in I; discriminate.
Qed.

Lemma between_update_includes_bounds_witness :
  exists c0,
    SummaryConstraint.__init__ "mean" BTWN (PInt 1) (PInt 3) None None
      (AVal PNone) None true = Ok c0
    /\ SummaryConstraint.failures
         (fst (@SummaryConstraint.update example_builtins (counted c0 5 2)
                 (mk_update_dict (Some [("mean", PInt 3)]) (Some []) (Some []))))
       = 2
    /\ SummaryConstraint.failures
         (fst (@SummaryConstraint.update example_builtins (counted c0 5 2)
                 (mk_update_dict (Some [("mean", PInt 4)]) (Some []) (Some []))))
       = 2 + 1.
Proof.
  eexists. split; [reflexivity |]. split.
  - refine (proj1 (proj2 (@between_update_includes_bounds example_builtins
              "mean" (PInt 1) (PInt 3) (PInt 3) (inject_Z 1) (inject_Z 3)
              (inject_Z 3) None true _ 5 2 [("mean", PInt 3)] [] []
              eq_refl eq_refl eq_refl eq_refl eq_refl)) _).
    split; discriminate.
  - refine (proj2 (proj2 (@between_update_includes_bounds example_builtins
              "mean" (PInt 1) (PInt 3) (PInt 4) (inject_Z 1) (inject_Z 3)
              (inject_Z 4) None true _ 5 2 [("mean", PInt 4)] [] []
              eq_refl eq_refl eq_refl eq_refl eq_refl)) _).
    intros [_ L]. apply L. reflexivity.
Defined.

(** X14. A comparison between two fields counts what the comparison with
    a literal counts, when the literal is the value that the summary has
    in the second field: after the same bundle both constraints have the
    same [total] and the same [failures]. *)
Theorem field_comparison_as_literal `{Builtins}
    (ff f2 : string) (o : Op) (y : pyval) (nm nm' : option string)
    (vb vb' : bool) (cf cl : SummaryConstraint.t) (t f : Z)
    (s : summary) (d : update_dict) :
  is_compare_op o = true ->
  number_summary d = Some s ->
  getattr s f2 = Ok y ->
  SummaryConstraint.__init__ ff o PNone PNone (Some f2) None (AVal PNone)
    nm vb = Ok cf ->
  SummaryConstraint.__init__ ff o y PNone None None (AVal PNone) nm' vb'
  = Ok cl ->
  let cf' := fst (SummaryConstraint.update (counted cf t f) d) in
  let cl' := fst (SummaryConstraint.update (counted cl t f) d) in
  SummaryConstraint.total cf' = SummaryConstraint.total cl'
  /\ SummaryConstraint.failures cf' = SummaryConstraint.failures cl'.
Proof.
  intros Ho Ns G Ef El.
  assert (Ev : SummaryConstraint.evaluate
                 (SummaryConstraint.set_total (counted cf t f) (t + 1)) d
               = SummaryConstraint.evaluate
                   (SummaryConstraint.set_total (counted cl t f) (t + 1)) d).
  { revert Ef El. unfold SummaryConstraint.__init__.
    destruct o; try discriminate Ho; cbn;
      (destruct (is_none y); cbn; [discriminate |]);
      intros Ef El; injection Ef as <-; injection El as <-;
      unfold SummaryConstraint.evaluate; cbn; rewrite Ns; cbn;
      destruct (string_theta d); cbn; try reflexivity;
      destruct (number_theta d); cbn; try reflexivity;
      destruct (getattr s ff); cbn; try reflexivity;
      rewrite G; reflexivity. }
  assert (T : forall c, SummaryConstraint.total (counted c t f) = t)
    by (intros c; destruct c; reflexivity).
  cbv zeta. unfold SummaryConstraint.update. rewrite !T, Ev. clear Ev.
  destruct (SummaryConstraint.evaluate
              (SummaryConstraint.set_total (counted cl t f) (t + 1)) d)
    as [[|] | e];
    unfold SummaryConstraint.count_failure;
    destruct cf, cl; cbn; try (split; reflexivity).
  destruct _verbose, _verbose0; cbn; split; reflexivity.
Qed.

Lemma field_comparison_as_literal_witness :
  exists cf cl,
    SummaryConstraint.__init__ "min" LT PNone PNone (Some "max") None
      (AVal PNone) None false = Ok cf
    /\ SummaryConstraint.__init__ "min" LT (PInt 9) PNone None None
         (AVal PNone) None false = Ok cl
    /\ let d := mk_update_dict (Some [("min", PInt 2); ("max", PInt 9)])
                  (Some []) (Some []) in
       SummaryConstraint.failures
         (fst (@SummaryConstraint.update example_builtins (counted cf 0 0) d))
       = SummaryConstraint.failures
           (fst (@SummaryConstraint.update example_builtins (counted cl 0 0) d)).
Proof.
  do 2 eexists. split; [reflexivity |]. split; [reflexivity |].
  exact (proj2 (@field_comparison_as_literal example_builtins "min" "max" LT
                  (PInt 9) None None false false _ _ 0 0
                  [("min", PInt 2); ("max", PInt 9)]
                  (mk_update_dict (Some [("min", PInt 2); ("max", PInt 9)])
                     (Some []) (Some []))
                  eq_refl eq_refl eq_refl eq_refl eq_refl)).
Defined.

(** X15. [update] reads the three keys of the bundle before it looks at
    the operator: when [number_summary], [string_theta] or [number_theta]
    is missing, the call raises [KeyError] for every constraint, with
    [total] already one more and [failures] unchanged. *)
Theorem summary_update_missing_key `{Builtins}
    (c : SummaryConstraint.t) (d : update_dict) :
  number_summary d = None \/ string_theta d = None \/ number_theta d = None ->
  SummaryConstraint.update c d
  = (SummaryConstraint.set_total c (SummaryConstraint.total c + 1),
     Raise KeyError).
Proof.
  intros M. unfold SummaryConstraint.update, SummaryConstraint.evaluate.
  destruct (number_summary d); cbn;
    [| reflexivity].
  destruct (string_theta d); cbn; [| reflexivity].
  destruct (number_theta d); cbn; [| reflexivity].
  destruct M as [M | [M | M]]; discriminate.
Qed.

Lemma summary_update_missing_key_witness :
  @SummaryConstraint.update example_builtins min_ge_zero
    (mk_update_dict (Some [("min", PInt 1)]) None None)
  = (SummaryConstraint.set_total min_ge_zero 1, Raise KeyError).
Proof.
  apply (@summary_update_missing_key example_builtins min_ge_zero
           (mk_update_dict (Some [("min", PInt 1)]) None None)).
  right; left; reflexivity.
Defined.

(** The entries of [_summary_funcs1] for the set operators, as the
    relation they decide. *)
Lemma set_funcs_spec `{Builtins} (o : Op) (reference column : theta_sketch) :
  is_set_op o = true ->
  exists g, _summary_funcs1_set o = Some g
            /\ (g reference column = true
                <-> set_relation_holds o reference column).
Proof.
  intros Ho. destruct o; try discriminate Ho; cbn;
    eexists; (split; [reflexivity |]).
  - apply Qeq_bool_iff.
  - apply Qeq_bool_iff.
  - rewrite andb_true_iff, !Qeq_bool_iff. split.
    + intros [A B]. split; [rewrite A; exact B | exact B].
    + intros [A B]. split; [rewrite A, B; reflexivity | exact B].
Qed.

(** X16. A set constraint built from a reference set, verbose or not,
    updated with a complete bundle: [failures] stays exactly when the
    relation of the operator holds between the strings of the reference
    set and the string sketch of the column and between its non-boolean
    numbers and the number sketch; the other members of the reference
    set, and the sketch of the whole set, play no part. EQ_SET requires
    what IN_SET and CONTAIN_SET require together. *)
Theorem set_update_uses_subsets `{Builtins}
    (ff : string) (o : Op) (v uv : pyval) (sf tf : option string)
    (rs : set_like) (r : pyset) (nm : option string) (vb : bool)
    (c0 : SummaryConstraint.t) (t f : Z)
    (s : summary) (cs cn : theta_sketch) :
  is_set_op o = true ->
  set_like_wf rs ->
  set_cast rs = Ok r ->
  SummaryConstraint.__init__ ff o v uv sf tf rs nm vb = Ok c0 ->
  let c' := fst (SummaryConstraint.update (counted c0 t f)
                   (mk_update_dict (Some s) (Some cs) (Some cn))) in
  let holds := set_relation_holds o (filter is_str r) cs
               /\ set_relation_holds o (filter is_number_item r) cn in
  SummaryConstraint.total c' = t + 1
  /\ (holds -> SummaryConstraint.failures c' = f)
  /\ (~ holds -> SummaryConstraint.failures c' = f + 1).
Proof.
  intros Ho W Ec E.
  destruct (set_init_inv _ _ _ _ _ _ _ _ _ _ Ho E) as (r' & Ec' & _ & -> & _).
  assert (r' = r) by congruence. subst r'.
  pose proof (set_cast_wf rs r W Ec) as Wr.
  unfold set_instance. rewrite (string_and_numbers_sets_filter r Wr).
  cbn [fst snd].
  destruct (set_funcs_spec o (filter is_str r) cs Ho) as (g & Tg & Hs).
  destruct (set_funcs_spec o (filter is_number_item r) cn Ho)
    as (g' & Tg' & Hn).
  assert (g' = g) by congruence. subst g'.
  unfold SummaryConstraint.update, SummaryConstraint.evaluate,
    SummaryConstraint.count_failure, counted, table_get; cbn.
  rewrite Ho, Tg; cbn.
  destruct (g (filter is_str r) cs) eqn:A,
    (g (filter is_number_item r) cn) eqn:B; cbn;
    try (destruct vb; cbn);
    (split; [reflexivity |]); split; try reflexivity;
    try (intros N; exfalso; apply N; split; [apply Hs | apply Hn]; reflexivity);
    intros [P Q]; apply Hs in P; apply Hn in Q; discriminate.
Qed.

Lemma set_update_uses_subsets_witness :
  exists c0,
    SummaryConstraint.__init__ "distinct_column_values" IN_SET PNone PNone
      None None (ASet [PStr "a"; PStr "b"; PBool true]) None true = Ok c0
    /\ SummaryConstraint.failures
         (fst (@SummaryConstraint.update example_builtins (counted c0 4 1)
                 (mk_update_dict (Some []) (Some [PStr "a"]) (Some []))))
       = 1.
Proof.
  eexists. split; [reflexivity |].
  refine (proj1 (proj2 (@set_update_uses_subsets example_builtins
            "distinct_column_values" IN_SET PNone PNone None None
            (ASet [PStr "a"; PStr "b"; PBool true])
            [PStr "a"; PStr "b"; PBool true] None true _ 4 1 [] [PStr "a"] []
            eq_refl (conj eq_refl (conj eq_refl (conj eq_refl I)))
            eq_refl eq_refl)) _).
  split; apply Qeq_bool_iff; reflexivity.
Defined.

(** X17. [SummaryConstraint.from_protobuf] raises [ValueError] for a
    message without operand; for a message whose [between] part is
    neither the pair of values nor the pair of fields it returns [None]
    and raises nothing; and it returns [None] in no other case. *)
Theorem summary_from_protobuf_shapes (m : SummaryConstraintMsg.t) :
  (SummaryConstraintMsg.operand m = SummaryConstraintMsg.Unset ->
   SummaryConstraint.from_protobuf m = Raise ValueError)
  /\ (SummaryConstraint.from_protobuf m = Ok None <->
      exists b,
        SummaryConstraintMsg.operand m = SummaryConstraintMsg.Between b
        /\ ~ (SummaryBetweenConstraintMsg.lower_value b <> None
              /\ SummaryBetweenConstraintMsg.upper_value b <> None
              /\ SummaryBetweenConstraintMsg.second_field b = None
              /\ SummaryBetweenConstraintMsg.third_field b = None)
        /\ ~ (SummaryBetweenConstraintMsg.lower_value b = None
              /\ SummaryBetweenConstraintMsg.upper_value b = None
              /\ SummaryBetweenConstraintMsg.second_field b <> None
              /\ SummaryBetweenConstraintMsg.third_field b <> None)).
Proof.
  unfold SummaryConstraint.from_protobuf.
  destruct m as [n ff o opd vb]. split.
  - cbn. intros ->. reflexivity.
  - destruct opd as [| v | f2 | b | items];
      cbn -[SummaryConstraint.__init__ set_of_list].
    + split; [discriminate | intros (b & E & _); discriminate].
    + split; [| intros (b & E & _); discriminate].
      destruct (SummaryConstraint.__init__ _ _ _ _ _ _ _ _ _); discriminate.
    + split; [| intros (b & E & _); discriminate].
      destruct (SummaryConstraint.__init__ _ _ _ _ _ _ _ _ _); discriminate.
    + destruct b as [[lo |] [up |] [s2 |] [s3 |]];
        cbn -[SummaryConstraint.__init__];
        try (split; [intros _; eexists; split; [reflexivity |];
                     split; intros (A & B & C & D); cbn in *; congruence
                    | reflexivity]).
      * split.
        -- destruct (SummaryConstraint.__init__ _ _ _ _ _ _ _ _ _); discriminate.
        -- intros (b & E & N & _). injection E as <-. exfalso. apply N.
           cbn. repeat split; discriminate.
      * split.
        -- destruct (SummaryConstraint.__init__ _ _ _ _ _ _ _ _ _); discriminate.
        -- intros (b & E & _ & N). injection E as <-. exfalso. apply N.
           cbn. repeat split; discriminate.
    + split; [| intros (b & E & _); discriminate].
      destruct (SummaryConstraint.__init__ _ _ _ _ _ _ _ _ _); discriminate.
Qed.

Lemma summary_from_protobuf_shapes_witness :
  SummaryConstraint.from_protobuf
    (SummaryConstraintMsg.mk "n" "mean" BTWN SummaryConstraintMsg.Unset false)
  = Raise ValueError.
Proof.
  exact (proj1 (summary_from_protobuf_shapes
                  (SummaryConstraintMsg.mk "n" "mean" BTWN
                     SummaryConstraintMsg.Unset false)) eq_refl).
Defined.

(* ------------------------------------------------------------------ *)
(** ** Further properties: the collections *)

Section CollectionFacts.
Variables C V : Type.
Variable c_name : C -> result string.
Variable c_update : C -> V -> C * result unit.
Variable c_report : C -> result (string * Z * Z).

Lemma dict_get_set_same (d : Constraints.dict C) (k : string) (c : C) :
  Constraints.dict_get (Constraints.dict_set d k c) k = Some c.
Proof.
  induction d as [| [k' c'] d IH]; cbn.
  - rewrite String.eqb_refl. reflexivity.
  - destruct (k' =? k)%string eqn:E; cbn; rewrite E; [reflexivity | exact IH].
Qed.

Lemma dict_get_set_other (d : Constraints.dict C) (k k' : string) (c : C) :
  k <> k' ->
  Constraints.dict_get (Constraints.dict_set d k c) k'
  = Constraints.dict_get d k'.
Proof.
  intros N. induction d as [| [k0 c0] d IH]; cbn.
  - destruct (k =? k')%string eqn:E; [| reflexivity].
    apply String.eqb_eq in E. contradiction.
  - destruct (k0 =? k)%string eqn:E; cbn.
    + apply String.eqb_eq in E; subst k0.
      destruct (k =? k')%string eqn:E'; [| reflexivity].
      apply String.eqb_eq in E'. contradiction.
    + rewrite IH. reflexivity.
Qed.

Lemma keys_dict_set (d : Constraints.dict C) (k : string) (c : C) :
  (In k (Constraints.keys d)
   /\ Constraints.keys (Constraints.dict_set d k c) = Constraints.keys d)
  \/ (~ In k (Constraints.keys d)
      /\ Constraints.keys (Constraints.dict_set d k c)
         = (Constraints.keys d ++ [k])%list).
Proof.
  induction d as [| [k' c'] d IH]; cbn.
  - right. split; [intros [] | reflexivity].
  - destruct (k' =? k)%string eqn:E; cbn.
    + apply String.eqb_eq in E; subst k'. left. split; [left |]; reflexivity.
    + apply String.eqb_neq in E.
      destruct IH as [[I K] | [N K]]; unfold Constraints.keys in *.
      * left. split; [right; exact I | rewrite K; reflexivity].
      * right. split; [intros [A | A]; [contradiction | contradiction] |].
        rewrite K. reflexivity.
Qed.

Lemma dict_set_keeps_NoDup (d : Constraints.dict C) (k : string) (c : C) :
  NoDup (Constraints.keys d) ->
  NoDup (Constraints.keys (Constraints.dict_set d k c)).
Proof.
  intros N. destruct (keys_dict_set d k c) as [[_ K] | [I K]]; rewrite K.
  - exact N.
  - apply NoDup_app; [exact N | constructor; [intros [] | constructor] |].
    intros x Ix [<- | []]. contradiction.
Qed.

Lemma find_snoc (f : C -> bool) (l : list C) (c : C) :
  find f (l ++ [c])%list
  = match find f l with
    | Some x => Some x
    | None => if f c then Some c else None
    end.
Proof.
  induction l as [| a l IH]; cbn; [reflexivity |].
  destruct (f a); [reflexivity | exact IH].
Qed.

(** The dictionary comprehension of [__init__]: each name maps to the
    last member of the list that renders it. *)
Lemma by_name_spec (l : list C) (acc d : Constraints.dict C) :
  Constraints.by_name C c_name l acc = Ok d ->
  NoDup (Constraints.keys acc) ->
  NoDup (Constraints.keys d)
  /\ forall n,
       Constraints.dict_get d n
       = match find (named c_name n) (rev l) with
         | Some c => Some c
         | None => Constraints.dict_get acc n
         end.
Proof.
  revert acc. induction l as [| c l IH]; cbn; intros acc E N.
  - injection E as <-. split; [exact N | reflexivity].
  - destruct (c_name c) as [n0 |] eqn:Nc; cbn in E; [| discriminate].
    destruct (IH _ E (dict_set_keeps_NoDup acc n0 c N)) as [Nd G].
    split; [exact Nd |].
    intros n. rewrite G, find_snoc.
    destruct (find (named c_name n) (rev l)); [reflexivity |].
    unfold named. rewrite Nc.
    destruct (n0 =? n)%string eqn:En.
    + apply String.eqb_eq in En; subst. apply dict_get_set_same.
    + apply String.eqb_neq in En. apply dict_get_set_other. exact En.
Qed.

End CollectionFacts.

(** X18. A collection built from a list of constraints is keyed by their
    names: the keys are distinct, and a name maps to the last constraint
    of the list that renders it, so a later constraint replaces an
    earlier one of the same name; a name no member renders is absent. *)
Theorem collection_of_list_last_wins (C : Type)
    (c_name : C -> result string) (l : list C) (self : Constraints.t C) :
  Constraints.__init__ C c_name (Constraints.OfList l) = Ok self ->
  NoDup (Constraints.keys (Constraints.constraints self))
  /\ forall n,
       Constraints.dict_get (Constraints.constraints self) n
       = find (named c_name n) (rev l).
Proof.
  cbn. destruct (Constraints.by_name C c_name l []) as [d |] eqn:E; cbn;
    [| discriminate].
  intros R; injection R as <-. cbn.
  destruct (by_name_spec C c_name l [] d E (NoDup_nil _)) as [N G].
  split; [exact N |].
  intros n. rewrite G. destruct (find _ _); reflexivity.
Qed.

Lemma collection_of_list_last_wins_witness :
  exists self,
    @ValueConstraints.__init__ example_builtins
      (Constraints.OfList [value_counted gt_five 1 0; value_counted gt_five 2 1])
    = Ok self
    /\ Constraints.dict_get (Constraints.constraints self) "value GT 5"
       = Some (value_counted gt_five 2 1).
Proof.
  eexists. split; [reflexivity |].
  destruct (collection_of_list_last_wins ValueConstraint.t
              (@ValueConstraint.name example_builtins)
              [value_counted gt_five 1 0; value_counted gt_five 2 1] _
              eq_refl) as [_ G].
  rewrite G. reflexivity.
Defined.

Section CollectionLoops.
Variables C V : Type.
Variable c_update : C -> V -> C * result unit.
Variable c_report : C -> result (string * Z * Z).

Lemma update_all_spec (d d' : Constraints.dict C) (v : V) (out : result unit) :
  Constraints.update_all C V c_update d v = (d', out) ->
  (out = Ok tt -> Forall2 (updated_entry C V c_update v) d d')
  /\ (forall e, out = Raise e ->
        exists d1 d1' k c c' d2,
          d = (d1 ++ (k, c) :: d2)%list
          /\ d' = (d1' ++ (k, c') :: d2)%list
          /\ Forall2 (updated_entry C V c_update v) d1 d1'
          /\ c_update c v = (c', Raise e)).
Proof.
  revert d' out. induction d as [| [k c] d IH]; cbn; intros d' out E.
  - injection E as <- <-. split; [intros _; constructor | discriminate].
  - destruct (c_update c v) as [c' [[] | e]] eqn:U.
    + destruct (Constraints.update_all C V c_update d v) as [r' o] eqn:R.
      injection E as <- <-.
      destruct (IH r' o eq_refl) as [A B]. split.
      * intros O. constructor; [split; [reflexivity | exact U] | auto].
      * intros e O.
        destruct (B e O) as (d1 & d1' & k0 & c0 & c0' & d2 & -> & -> & F & U0).
        exists ((k, c) :: d1), ((k, c') :: d1'), k0, c0, c0', d2.
        repeat split; try reflexivity; try assumption.
        constructor; [split; [reflexivity | exact U] | exact F].
    + injection E as <- <-. split; [discriminate |].
      intros e' O; injection O as <-.
      exists [], [], k, c, c', d. repeat split; try reflexivity; [constructor | exact U].
Qed.

Lemma report_all_spec (l : list C) (r : list (string * Z * Z)) :
  Constraints.report_all C c_report l = Ok r ->
  Forall2 (fun c x => c_report c = Ok x) l r.
Proof.
  revert r. induction l as [| c l IH]; cbn; intros r E.
  - injection E as <-. constructor.
  - destruct (c_report c) as [x |] eqn:Rc; cbn in E; [| discriminate].
    destruct (Constraints.report_all C c_report l) as [xs |]; cbn in E;
      [| discriminate].
    injection E as <-. constructor; [exact Rc | apply IH; reflexivity].
Qed.

End CollectionLoops.

(** X19. [update] of a collection hands the input to every member, in
    order and once: when it returns, each entry keeps its key and holds
    the member after its own [update], which returned; when it raises,
    the members before the one whose [update] raised have been updated,
    that member is left as its [update] left it, and the members after
    it are untouched. *)
Theorem collection_update_broadcasts (C V : Type)
    (c_update : C -> V -> C * result unit)
    (self self' : Constraints.t C) (v : V) (out : result unit) :
  Constraints.update C V c_update self v = (self', out) ->
  (out = Ok tt ->
   Forall2 (updated_entry C V c_update v)
     (Constraints.constraints self) (Constraints.constraints self'))
  /\ (forall e, out = Raise e ->
        exists d1 d1' k c c' d2,
          Constraints.constraints self = (d1 ++ (k, c) :: d2)%list
          /\ Constraints.constraints self' = (d1' ++ (k, c') :: d2)%list
          /\ Forall2 (updated_entry C V c_update v) d1 d1'
          /\ c_update c v = (c', Raise e)).
Proof.
  unfold Constraints.update.
  destruct (Constraints.update_all C V c_update (Constraints.constraints self) v)
    as [d o] eqn:E.
  intros R; injection R as <- <-. cbn.
  exact (update_all_spec C V c_update _ _ v o E).
Qed.

Lemma collection_update_broadcasts_witness :
  exists d1 d1' k c c' d2,
    [("a", gt_five); ("b", gt_five)] = (d1 ++ (k, c) :: d2)%list
    /\ Constraints.constraints
         (fst (@ValueConstraints.update example_builtins
                 (Constraints.mk [("a", gt_five); ("b", gt_five)])
                 (PStr "x")))
       = (d1' ++ (k, c') :: d2)%list
    /\ @ValueConstraint.update example_builtins c (PStr "x")
       = (c', Raise TypeError).
Proof.
  destruct (proj2 (collection_update_broadcasts ValueConstraint.t pyval
                     (@ValueConstraint.update example_builtins)
                     (Constraints.mk [("a", gt_five); ("b", gt_five)])
                     _ (PStr "x") _ eq_refl) TypeError eq_refl)
    as (d1 & d1' & k & c & c' & d2 & A & B & _ & U).
  exists d1, d1', k, c, c', d2. repeat split; assumption.
Defined.

(** X20. [report] of a collection returns [None] exactly when the
    collection has no member; otherwise it returns the reports of the
    members, one per member and in the order of the entries. *)
Theorem collection_report_lists_members (C : Type)
    (c_report : C -> result (string * Z * Z))
    (self : Constraints.t C) (r : option (list (string * Z * Z))) :
  Constraints.report C c_report self = Ok r ->
  (r = None <-> Constraints.constraints self = [])
  /\ (forall l, r = Some l ->
                Forall2 (fun e x => c_report (snd e) = Ok x)
                  (Constraints.constraints self) l).
Proof.
  unfold Constraints.report, Constraints.values.
  destruct (Constraints.report_all C c_report
              (map snd (Constraints.constraints self))) as [v |] eqn:E;
    cbn; [| discriminate].
  pose proof (report_all_spec C c_report _ _ E) as F.
  assert (G : Forall2 (fun e x => c_report (snd e) = Ok x)
                (Constraints.constraints self) v).
  { clear E. revert v F.
    induction (Constraints.constraints self) as [| e d IH]; cbn; intros v F.
    - inversion F; constructor.
    - inversion F; subst. constructor; [assumption | apply IH; assumption]. }
  destruct v as [| x v]; intros R; injection R as <-.
  - split; [| discriminate]. split; [intros _ | reflexivity].
    inversion G; reflexivity.
  - split.
    + split; [discriminate |]. intros Z. rewrite Z in G. inversion G.
    + intros l L; injection L as <-. exact G.
Qed.

Lemma collection_report_lists_members_witness :
  @ValueConstraints.report example_builtins (Constraints.mk []) = Ok None
  /\ ((None : option (list (string * Z * Z))) = None
      <-> @Constraints.constraints ValueConstraint.t (Constraints.mk []) = []).
Proof.
  split; [reflexivity |].
  exact (proj1 (collection_report_lists_members ValueConstraint.t
                  (@ValueConstraint.report example_builtins)
                  (Constraints.mk []) None eq_refl)).
Defined.

Section CollectionWire.
Variables C M : Type.
Variable c_name : C -> result string.
Variable c_to_protobuf : C -> result M.
Variable c_from_protobuf : M -> result (option C).

Lemma to_from_protobuf_all (d : Constraints.dict C) :
  Forall (fun e => exists c', decodes c_to_protobuf c_from_protobuf (snd e) c'
                              /\ c_name c' = Ok (fst e)) d ->
  exists ms l',
    Constraints.to_protobuf_all C M c_to_protobuf (map snd d) = Ok ms
    /\ List.length ms = List.length d
    /\ Constraints.from_protobuf_all C M c_from_protobuf ms
       = Ok (map Some l')
    /\ Forall2 (fun e c' => c_name c' = Ok (fst e)
                            /\ decodes c_to_protobuf c_from_protobuf (snd e) c')
         d l'.
Proof.
  induction d as [| e d IH]; intros F.
  - exists [], []. repeat split; constructor.
  - inversion F as [| ? ? [c' [(m & Em & Ed) Hn]] Fl]; subst.
    destruct (IH Fl) as (ms & l' & Et & Len & Ef & F2).
    exists (m :: ms), (c' :: l'). cbn. rewrite Em, Et, Ed, Ef. cbn.
    repeat split; [congruence |].
    constructor; [split; [exact Hn | exists m; split; assumption] | exact F2].
Qed.

Lemma by_name_decoded_some (l : list C) (acc : Constraints.dict C) :
  Constraints.by_name_decoded C c_name (map Some l) acc
  = Constraints.by_name C c_name l acc.
Proof.
  revert acc. induction l as [| c l IH]; cbn; intros acc; [reflexivity |].
  destruct (c_name c); cbn; [apply IH | reflexivity].
Qed.

(** Members whose names are the keys of a dictionary, taken in its
    order, are entered under those keys. *)
Lemma by_name_of_entries (d : Constraints.dict C) (l : list C)
    (acc : Constraints.dict C) :
  Forall2 (fun e c => c_name c = Ok (fst e)) d l ->
  NoDup (Constraints.keys acc ++ Constraints.keys d)%list ->
  Constraints.by_name C c_name l acc
  = Ok (acc ++ combine (Constraints.keys d) l)%list.
Proof.
  intros F. revert acc. induction F as [| [k c0] c d l Hn F IH]; cbn;
    intros acc N.
  - rewrite app_nil_r. reflexivity.
  - cbn in Hn. rewrite Hn. cbn.
    assert (Nk : ~ In k (Constraints.keys acc)).
    { intros I. apply NoDup_remove_2 in N. apply N.
      apply in_or_app. left; exact I. }
    assert (S : Constraints.dict_set acc k c = (acc ++ [(k, c)])%list).
    { clear - Nk. induction acc as [| [k' c'] acc IHa]; cbn; [reflexivity |].
      destruct (k' =? k)%string eqn:E.
      - apply String.eqb_eq in E; subst. exfalso. apply Nk. left; reflexivity.
      - rewrite IHa; [reflexivity |]. intros I. apply Nk. right; exact I. }
    rewrite S, IH.
    + rewrite <- app_assoc. reflexivity.
    + unfold Constraints.keys in *. rewrite map_app. cbn.
      rewrite <- app_assoc. exact N.
Qed.

(** A collection keyed by names that survive decoding goes through
    [to_protobuf] and [from_protobuf] with its keys, in order. *)
Lemma collection_roundtrip_entries (d : Constraints.dict C) :
  d <> [] ->
  NoDup (Constraints.keys d) ->
  Forall (fun e => exists c', decodes c_to_protobuf c_from_protobuf (snd e) c'
                              /\ c_name c' = Ok (fst e)) d ->
  exists ms self',
    Constraints.to_protobuf C M c_to_protobuf (Constraints.mk d) = Ok (Some ms)
    /\ Constraints.from_protobuf C M c_name c_from_protobuf ms
       = Ok (Some self')
    /\ Constraints.keys (Constraints.constraints self') = Constraints.keys d
    /\ Forall2 (fun x y => fst x = fst y
                           /\ decodes c_to_protobuf c_from_protobuf
                                (snd x) (snd y))
         d (Constraints.constraints self').
Proof.
  intros Ne Nd F.
  destruct (to_from_protobuf_all d F) as (ms & l' & Et & Len & Ef & F2).
  assert (Lm : ms <> []) by (destruct ms, d; cbn in *; congruence).
  assert (Ll : map Some l' <> []).
  { apply Forall2_length in F2. destruct l', d; cbn in *; congruence. }
  exists ms, (Constraints.mk (combine (Constraints.keys d) l')).
  unfold Constraints.to_protobuf, Constraints.from_protobuf, Constraints.values.
  cbn -[combine]. rewrite Et, Ef. cbn -[combine].
  rewrite by_name_decoded_some.
  rewrite (by_name_of_entries d l' []);
    [| clear - F2; induction F2 as [| e c ? ? [Hn _] ? IH]; constructor;
       [exact Hn | exact IH]
     | exact Nd].
  cbn -[combine].
  split; [destruct ms; [congruence | reflexivity] |].
  split; [destruct (map Some l'); [congruence | reflexivity] |].
  clear - F2. unfold Constraints.keys. split.
  - induction F2 as [| e c ? ? _ ? IH]; cbn; [reflexivity |].
    f_equal. exact IH.
  - induction F2 as [| e c ? ? [_ D] ? IH]; cbn; constructor.
    + split; [reflexivity | exact D].
    + exact IH.
Qed.

End CollectionWire.

(** Entering constraints by name keeps what holds of all of them, and
    every entry is under the name of its constraint. *)
Lemma by_name_entries (C : Type) (c_name : C -> result string)
    (P : C -> Prop) (l : list C) (acc d : Constraints.dict C) :
  Constraints.by_name C c_name l acc = Ok d ->
  Forall P l ->
  Forall (fun e => P (snd e) /\ c_name (snd e) = Ok (fst e)) acc ->
  Forall (fun e => P (snd e) /\ c_name (snd e) = Ok (fst e)) d.
Proof.
  revert acc. induction l as [| c l IH]; cbn; intros acc E Fl Fa.
  - injection E as <-. exact Fa.
  - destruct (c_name c) as [n |] eqn:Nc; cbn in E; [| discriminate].
    inversion Fl; subst. apply (IH _ E); [assumption |].
    clear - Fa Nc H1. induction acc as [| [k' c'] acc IHa]; cbn.
    + constructor; [split; assumption | constructor].
    + inversion Fa; subst. destruct (k' =? n)%string eqn:En.
      * apply String.eqb_eq in En; subst.
        constructor; [split; assumption | assumption].
      * constructor; [assumption | apply IHa; assumption].
Qed.

(** The message of a [SummaryConstraint] that [__init__] returned and
    whose operands a message holds decodes to a constraint under the same
    name, with the same operator and tested field, the members of the
    reference set as the message yields them, and counters at zero. *)
Lemma built_summary_decodes `{Builtins} (c : SummaryConstraint.t) :
  built_summary c ->
  wire_exact c ->
  exists n c',
    SummaryConstraint.name c = Ok n
    /\ decodes SummaryConstraint.to_protobuf SummaryConstraint.from_protobuf
         c c'
    /\ SummaryConstraint.name c' = Ok n
    /\ SummaryConstraint.op c' = SummaryConstraint.op c
    /\ SummaryConstraint.first_field c' = SummaryConstraint.first_field c
    /\ on_wire (SummaryConstraint.reference_set c)
         (SummaryConstraint.reference_set c')
    /\ SummaryConstraint.total c' = 0
    /\ SummaryConstraint.failures c' = 0.
Proof.
  intros (ff & o & v & uv & sf & tf & rs & nm & vb & c0 & t & f & W & E & ->) X.
  destruct (is_set_op o) eqn:Ho.
  - destruct (set_init_inv _ _ _ _ _ _ _ _ _ _ Ho E)
      as (r & Ec & Tr & -> & Ar).
    destruct (set_roundtrip ff o v uv sf tf r nm vb t f Ho
                (set_cast_wf rs r W Ec) (set_cast_truthy rs r Tr Ec) Ar X)
      as (n & m & N & Em & Ed).
    exists n, (set_instance ff o PNone PNone None None (map as_item r)
                 (Some n) vb).
    split; [exact N |]. split; [exists m; split; assumption |].
    unfold SummaryConstraint.name; cbn. rewrite Ho.
    repeat split. apply Permutation_refl.
  - destruct (field_init_inv _ _ _ _ _ _ _ _ _ _ Ho E) as (S & fn & ->).
    destruct (field_init_wire _ _ _ _ _ _ _ _ _ _ Ho E) as (fn' & I).
    destruct X as [Xv Xu]; cbn in Xv, Xu.
    destruct (field_roundtrip ff o v uv sf tf nm vb fn fn' t f Ho S Xv Xu I)
      as (n & m & N & Em & Ed).
    exists n, (field_instance ff o (as_float v) (as_float uv) sf tf (Some n)
                 vb fn').
    split; [exact N |]. split; [exists m; split; assumption |].
    unfold SummaryConstraint.name; cbn. rewrite Ho.
    destruct o; try discriminate Ho; repeat split.
Qed.

(** X21. A [SummaryConstraints] collection built from a list of
    constraints that [__init__] returned and whose operands a message
    holds with their values, and not empty, goes through [to_protobuf]
    and [from_protobuf]: the decoded collection has the same keys in the
    same order, and under each key a constraint with the operator and the
    tested field of the original, the members of its reference set as the
    message yields them, an [int] as a [float], and both counters at
    zero. *)
Theorem summary_collection_roundtrip `{Builtins}
    (l : list SummaryConstraint.t) (self : SummaryConstraints.t) :
  Forall (fun c => built_summary c /\ wire_exact c) l ->
  SummaryConstraints.__init__ (Constraints.OfList l) = Ok self ->
  Constraints.constraints self <> [] ->
  exists msg self',
    SummaryConstraints.to_protobuf self = Ok (Some msg)
    /\ SummaryConstraints.from_protobuf msg = Ok (Some self')
    /\ Constraints.keys (Constraints.constraints self')
       = Constraints.keys (Constraints.constraints self)
    /\ Forall2 (fun x y =>
                  fst x = fst y
                  /\ SummaryConstraint.op (snd y) = SummaryConstraint.op (snd x)
                  /\ SummaryConstraint.first_field (snd y)
                     = SummaryConstraint.first_field (snd x)
                  /\ on_wire (SummaryConstraint.reference_set (snd x))
                       (SummaryConstraint.reference_set (snd y))
                  /\ SummaryConstraint.total (snd y) = 0
                  /\ SummaryConstraint.failures (snd y) = 0)
         (Constraints.constraints self) (Constraints.constraints self').
Proof.
  intros Fl E Ne.
  unfold SummaryConstraints.__init__ in E. cbn in E.
  destruct (Constraints.by_name _ SummaryConstraint.name l []) as [d |] eqn:B;
    cbn in E; [| discriminate].
  injection E as <-. cbn in *.
  pose proof (by_name_entries _ _
                (fun c => built_summary c /\ wire_exact c) l [] d B Fl
                (Forall_nil _)) as Fd.
  destruct (by_name_spec _ SummaryConstraint.name l [] d B (NoDup_nil _))
    as [Nd _].
  destruct (collection_roundtrip_entries _ _ SummaryConstraint.name
              SummaryConstraint.to_protobuf SummaryConstraint.from_protobuf
              d Ne Nd) as (ms & self' & Et & Ef & K & F2).
  { clear - Fd. induction Fd as [| e d [[Be Xe] Ne] _ IH]; constructor;
      [| exact IH].
    destruct (built_summary_decodes (snd e) Be Xe) as (n & c' & N & D & N' & _).
    exists c'. split; [exact D | congruence]. }
  exists (SummaryConstraintMsgs.mk ms), self'.
  unfold SummaryConstraints.to_protobuf, SummaryConstraints.from_protobuf.
  rewrite Et. cbn. split; [reflexivity |]. split; [exact Ef |].
  split; [exact K |].
  clear - F2 Fd. induction F2 as [| x y ? ? [Kx (m & Em & Ed)] ? IH];
    constructor.
  - inversion Fd as [| ? ? [[Bx Xx] _] ?]; subst.
    destruct (built_summary_decodes (snd x) Bx Xx)
      as (n & c' & _ & (m' & Em' & Ed') & _ & O & Ff & R & T & Fz).
    assert (c' = snd y) by congruence. subst c'. auto 10.
  - apply IH. inversion Fd; assumption.
Qed.

Lemma summary_collection_roundtrip_witness :
  let in_set :=
    set_instance "distinct_column_values" IN_SET PNone PNone None None
      [PStr "a"; PInt 1] None false in
  exists self msg self',
    @SummaryConstraints.__init__ example_builtins
      (Constraints.OfList [counted in_set 2 0; counted min_ge_zero 3 1])
    = Ok self
    /\ @SummaryConstraints.to_protobuf example_builtins self = Ok (Some msg)
    /\ @SummaryConstraints.from_protobuf example_builtins msg = Ok (Some self')
    /\ Constraints.keys (Constraints.constraints self')
       = ["summary distinct_column_values IN_SET {a, 1}";
          "summary min GE 0/None"].
Proof.
  intros in_set.
  exists (Constraints.mk
            [("summary distinct_column_values IN_SET {a, 1}",
              counted in_set 2 0);
             ("summary min GE 0/None", counted min_ge_zero 3 1)]).
  destruct (@summary_collection_roundtrip example_builtins
              [counted in_set 2 0; counted min_ge_zero 3 1]
              (Constraints.mk
                 [("summary distinct_column_values IN_SET {a, 1}",
                   counted in_set 2 0);
                  ("summary min GE 0/None", counted min_ge_zero 3 1)]))
    as (msg & self' & Et & Ef & K & _).
  - constructor; [| constructor; [| constructor]].
    + split; [| reflexivity].
      exists "distinct_column_values", IN_SET, PNone, PNone, None, None,
        (ASet [PStr "a"; PInt 1]), None, false, in_set, 2, 0.
      repeat split.
    + split; [| split; reflexivity].
      exists "min", GE, (PInt 0), PNone, None, None, (AVal PNone), None, false,
        min_ge_zero, 3, 1.
      repeat split.
  - reflexivity.
  - discriminate.
  - exists msg, self'. split; [reflexivity |]. repeat split; assumption.
Defined.

(* ------------------------------------------------------------------ *)
(** ** Further properties: DatasetConstraints *)

Section DatasetFacts.
Variable C : Type.
Variable c_name : C -> result string.
Variable c_report : C -> result (string * Z * Z).

Lemma repackage_spec (m m' : list (string * DatasetConstraints.column C)) :
  DatasetConstraints.repackage C c_name m = Ok m' ->
  Forall2 (repackaged C c_name) m m'.
Proof.
  revert m'. induction m as [| [k v] m IH]; cbn; intros m' E.
  - injection E as <-. constructor.
  - destruct v as [l | c |]; cbn in E.
    + destruct (Constraints.by_name C c_name l []) as [d |] eqn:B; cbn in E;
        [| discriminate].
      destruct (DatasetConstraints.repackage C c_name m) as [r |]; cbn in E;
        [| discriminate].
      injection E as <-. constructor; [| apply IH; reflexivity].
      split; [reflexivity |]. cbn. rewrite B. cbn. eauto.
    + destruct (DatasetConstraints.repackage C c_name m) as [r |]; cbn in E;
        [| discriminate].
      injection E as <-. constructor; [| apply IH; reflexivity].
      split; reflexivity.
    + destruct (DatasetConstraints.repackage C c_name m) as [r |]; cbn in E;
        [| discriminate].
      injection E as <-. constructor; [| apply IH; reflexivity].
      split; reflexivity.
Qed.

Lemma repackaged_keys (m m' : list (string * DatasetConstraints.column C)) :
  Forall2 (repackaged C c_name) m m' -> map fst m' = map fst m.
Proof.
  induction 1 as [| x y ? ? [K _] ? IH]; cbn; [reflexivity |].
  rewrite K, IH. reflexivity.
Qed.

(** [report] goes through every column, and every column it goes
    through is a collection. *)
Lemma report_columns_spec (m : list (string * DatasetConstraints.column C))
    (xs : list (string * option (list (string * Z * Z)))) :
  DatasetConstraints.report_columns C c_report m = Ok xs ->
  map fst xs = map fst m
  /\ Forall2 (fun e x => exists c,
                snd e = DatasetConstraints.ACollection c
                /\ Constraints.report C c_report c = Ok (snd x)) m xs.
Proof.
  revert xs. induction m as [| [k v] m IH]; cbn; intros xs E.
  - injection E as <-. split; [reflexivity | constructor].
  - destruct (DatasetConstraints.column_report C c_report v) as [x |] eqn:R;
      cbn in E; [| discriminate].
    destruct (DatasetConstraints.report_columns C c_report m) as [r |];
      cbn in E; [| discriminate].
    injection E as <-. destruct (IH r eq_refl) as [K F]. cbn. split.
    + rewrite K. reflexivity.
    + constructor; [| exact F].
      destruct v as [l | c |]; cbn in R; try discriminate.
      exists c. split; [reflexivity | exact R].
Qed.

End DatasetFacts.

(** What [__init__] stores. *)
Lemma dataset_init_repackages_aux `{Builtins} (P : Type) (props : P)
    (vm : option (list (string * DatasetConstraints.column ValueConstraint.t)))
    (sm : option (list (string * DatasetConstraints.column SummaryConstraint.t)))
    (d : DatasetConstraints.t P) :
  DatasetConstraints.__init__ P props vm sm = Ok d ->
  DatasetConstraints.dataset_properties d = props
  /\ Forall2 (repackaged _ ValueConstraint.name)
       (match vm with Some m => m | None => [] end)
       (DatasetConstraints.value_constraint_map d)
  /\ Forall2 (repackaged _ SummaryConstraint.name)
       (match sm with Some m => m | None => [] end)
       (DatasetConstraints.summary_constraint_map d).
Proof.
  unfold DatasetConstraints.__init__.
  destruct (DatasetConstraints.repackage _ ValueConstraint.name _)
    as [vm' |] eqn:Ev; cbn; [| discriminate].
  destruct (DatasetConstraints.repackage _ SummaryConstraint.name _)
    as [sm' |] eqn:Es; cbn; [| discriminate].
  intros E; injection E as <-. cbn.
  split; [reflexivity |].
  split; [exact (repackage_spec _ _ _ _ Ev) | exact (repackage_spec _ _ _ _ Es)].
Qed.

(** X22. [DatasetConstraints.__init__] keeps the properties and the
    column names of both maps, in order; a column given as a list of
    constraints holds afterwards the collection built from that list, and
    every other column is as it was given. Arguments left out give empty
    maps. *)
Theorem dataset_init_repackages `{Builtins} (P : Type) (props : P)
    (vm : option (list (string * DatasetConstraints.column ValueConstraint.t)))
    (sm : option (list (string * DatasetConstraints.column SummaryConstraint.t)))
    (d : DatasetConstraints.t P) :
  DatasetConstraints.__init__ P props vm sm = Ok d ->
  DatasetConstraints.dataset_properties d = props
  /\ map fst (DatasetConstraints.value_constraint_map d)
     = map fst (match vm with Some m => m | None => [] end)
  /\ map fst (DatasetConstraints.summary_constraint_map d)
     = map fst (match sm with Some m => m | None => [] end)
  /\ Forall2 (repackaged _ ValueConstraint.name)
       (match vm with Some m => m | None => [] end)
       (DatasetConstraints.value_constraint_map d)
  /\ Forall2 (repackaged _ SummaryConstraint.name)
       (match sm with Some m => m | None => [] end)
       (DatasetConstraints.summary_constraint_map d).
Proof.
  intros E.
  destruct (dataset_init_repackages_aux P props vm sm d E) as (A & Fv & Fs).
  split; [exact A |].
  split; [exact (repackaged_keys _ _ _ _ Fv) |].
  split; [exact (repackaged_keys _ _ _ _ Fs) |].
  split; assumption.
Qed.

Lemma dataset_init_repackages_witness :
  exists d,
    @DatasetConstraints.__init__ unit example_builtins tt
      (Some [("age", DatasetConstraints.AList [value_counted gt_five 1 0])])
      None = Ok d
    /\ DatasetConstraints.dataset_properties d = tt.
Proof.
  eexists. split; [reflexivity |].
  match goal with
  | |- DatasetConstraints.dataset_properties ?d = _ =>
      exact (proj1 (@dataset_init_repackages example_builtins unit tt
                      (Some [("age", DatasetConstraints.AList
                                       [value_counted gt_five 1 0])])
                      None d eq_refl))
  end.
Defined.

(** X23. When [DatasetConstraints.report] returns, it has one entry per
    column, named by the column: the value-constraint columns in their
    order, then the summary-constraint columns in theirs. *)
Theorem dataset_report_by_column `{Builtins} (P : Type)
    (d : DatasetConstraints.t P)
    (r : list (string * option (list (string * Z * Z)))) :
  DatasetConstraints.report P d = Ok r ->
  map fst r
  = (map fst (DatasetConstraints.value_constraint_map d)
     ++ map fst (DatasetConstraints.summary_constraint_map d))%list.
Proof.
  unfold DatasetConstraints.report.
  destruct (DatasetConstraints.report_columns _ ValueConstraint.report _)
    as [l1 |] eqn:E1; cbn; [| discriminate].
  destruct (DatasetConstraints.report_columns _ SummaryConstraint.report _)
    as [l2 |] eqn:E2; cbn; [| discriminate].
  intros E; injection E as <-.
  rewrite map_app.
  rewrite (proj1 (report_columns_spec _ _ _ _ E1)).
  rewrite (proj1 (report_columns_spec _ _ _ _ E2)). reflexivity.
Qed.

Lemma dataset_report_by_column_witness :
  exists r,
    @DatasetConstraints.report unit example_builtins
      (DatasetConstraints.mk tt
         [("age", DatasetConstraints.ACollection
                    (Constraints.mk [("value GT 5", gt_five)]))]
         [("age", DatasetConstraints.ACollection
                    (Constraints.mk [("summary min GE 0/None", min_ge_zero)]))])
    = Ok r
    /\ map fst r = ["age"; "age"].
Proof.
  eexists. split; [reflexivity |].
  match goal with
  | |- map fst ?r = _ =>
      exact (@dataset_report_by_column example_builtins unit
               (DatasetConstraints.mk tt
                  [("age", DatasetConstraints.ACollection
                             (Constraints.mk [("value GT 5", gt_five)]))]
                  [("age", DatasetConstraints.ACollection
                             (Constraints.mk
                                [("summary min GE 0/None", min_ge_zero)]))])
               r eq_refl)
  end.
Defined.

Lemma decode_columns_none (C M : Type)
    (decode : M -> result (option (Constraints.t C)))
    (m : list (string * M)) (m' : list (string * DatasetConstraints.column C))
    (k : string) (v : M) :
  DatasetConstraints.decode_columns decode m = Ok m' ->
  In (k, v) m ->
  decode v = Ok None ->
  In (k, DatasetConstraints.ANone) m'.
Proof.
  revert m'. induction m as [| [k0 v0] m IH]; cbn; intros m' E I D;
    [contradiction |].
  destruct (decode v0) as [c |] eqn:D0; cbn in E; [| discriminate].
  destruct (DatasetConstraints.decode_columns decode m) as [r |]; cbn in E;
    [| discriminate].
  injection E as <-. destruct I as [I | I].
  - injection I as -> ->. rewrite D in D0. injection D0 as <-. left; reflexivity.
  - right. apply IH; [reflexivity | assumption | assumption].
Qed.

Lemma repackaged_none (C : Type) (c_name : C -> result string)
    (m m' : list (string * DatasetConstraints.column C)) (k : string) :
  Forall2 (repackaged C c_name) m m' ->
  In (k, DatasetConstraints.ANone) m ->
  In (k, DatasetConstraints.ANone) m'.
Proof.
  induction 1 as [| x y ? ? [K V] ? IH]; cbn; [contradiction |].
  intros [I | I]; [| right; apply IH; exact I].
  subst x. cbn in *. left. destruct y; cbn in *; congruence.
Qed.

Lemma report_columns_none (C : Type)
    (c_report : C -> result (string * Z * Z))
    (m : list (string * DatasetConstraints.column C)) (k : string)
    (xs : list (string * option (list (string * Z * Z)))) :
  In (k, DatasetConstraints.ANone) m ->
  DatasetConstraints.report_columns C c_report m <> Ok xs.
Proof.
  intros I E. destruct (report_columns_spec C c_report m xs E) as [_ F].
  clear E. induction F as [| e x ? ? [c [A _]] ? IH]; cbn in I; [contradiction |].
  destruct I as [I | I]; [subst e; discriminate | exact (IH I)].
Qed.

(** X24. A dataset message in which a column has no constraint message
    decodes to a dataset whose column maps to [None], the result of the
    collection's [from_protobuf] for an empty message; [report] of that
    dataset never returns, since it calls [report] on every column. *)
Theorem decoded_empty_column_has_no_report `{Builtins} (P : Type)
    (msg : DatasetConstraintMsg.t P) (d : DatasetConstraints.t P)
    (k : string) :
  DatasetConstraints.from_protobuf P msg = Ok d ->
  In (k, ValueConstraintMsgs.mk [])
    (DatasetConstraintMsg.value_constraints msg)
  \/ In (k, SummaryConstraintMsgs.mk [])
       (DatasetConstraintMsg.summary_constraints msg) ->
  (In (k, DatasetConstraints.ANone) (DatasetConstraints.value_constraint_map d)
   \/ In (k, DatasetConstraints.ANone)
        (DatasetConstraints.summary_constraint_map d))
  /\ forall r, DatasetConstraints.report P d <> Ok r.
Proof.
  unfold DatasetConstraints.from_protobuf.
  destruct (DatasetConstraints.decode_columns ValueConstraints.from_protobuf _)
    as [vm |] eqn:Dv; cbn -[DatasetConstraints.__init__]; [| discriminate].
  destruct (DatasetConstraints.decode_columns SummaryConstraints.from_protobuf _)
    as [sm |] eqn:Ds; cbn -[DatasetConstraints.__init__]; [| discriminate].
  intros E I.
  destruct (dataset_init_repackages_aux P _ (Some vm) (Some sm) d E)
    as (_ & Fv & Fs).
  assert (N : In (k, DatasetConstraints.ANone)
                (DatasetConstraints.value_constraint_map d)
              \/ In (k, DatasetConstraints.ANone)
                   (DatasetConstraints.summary_constraint_map d)).
  { destruct I as [I | I]; [left | right].
    - apply (repackaged_none _ _ _ _ _ Fv).
      exact (decode_columns_none _ _ _ _ _ _ _ Dv I eq_refl).
    - apply (repackaged_none _ _ _ _ _ Fs).
      exact (decode_columns_none _ _ _ _ _ _ _ Ds I eq_refl). }
  split; [exact N |].
  intros r. unfold DatasetConstraints.report.
  destruct (DatasetConstraints.report_columns _ ValueConstraint.report _)
    as [l1 |] eqn:E1; cbn; [| discriminate].
  destruct (DatasetConstraints.report_columns _ SummaryConstraint.report _)
    as [l2 |] eqn:E2; cbn; [| discriminate].
  destruct N as [N | N].
  - exfalso. exact (report_columns_none _ _ _ _ _ N E1).
  - exfalso. exact (report_columns_none _ _ _ _ _ N E2).
Qed.

Lemma decoded_empty_column_has_no_report_witness :
  exists d,
    @DatasetConstraints.from_protobuf unit example_builtins
      (DatasetConstraintMsg.mk tt [("age", ValueConstraintMsgs.mk [])] [])
    = Ok d
    /\ forall r, @DatasetConstraints.report unit example_builtins d <> Ok r.
Proof.
  eexists. split; [reflexivity |].
  refine (proj2 (@decoded_empty_column_has_no_report example_builtins unit
                   (DatasetConstraintMsg.mk tt
                      [("age", ValueConstraintMsgs.mk [])] [])
                   (DatasetConstraints.mk tt
                      [("age", DatasetConstraints.ANone)] [])
                   "age" eq_refl _)).
  left. left. reflexivity.
Defined.

(* ------------------------------------------------------------------ *)
(** ** Witnesses of the merge properties *)

Lemma merge_of_members_witness :
  @ValueConstraints.merge example_builtins
    (Constraints.mk [("value GT 5", gt_five)])
    (Some (Constraints.mk [("value GT 5", gt_five)]))
  = Raise ValueError
  /\ @ValueConstraints.merge example_builtins
       (Constraints.mk [("ab", gt_five)])
       (Some (Constraints.mk [("ab", gt_five)]))
     = Raise AttributeError.
Proof.
  split.
  - apply (merge_of_members ValueConstraint.t
             (@ValueConstraint.name example_builtins)
             (Constraints.mk [("value GT 5", gt_five)])
             (Constraints.mk [("value GT 5", gt_five)])
             "value GT 5" gt_five []); [reflexivity | discriminate].
  - apply (merge_of_members ValueConstraint.t
             (@ValueConstraint.name example_builtins)
             (Constraints.mk [("ab", gt_five)])
             (Constraints.mk [("ab", gt_five)])
             "ab" gt_five []); [reflexivity | discriminate].
Defined.

Lemma gt_five_is_literal (t f : Z) :
  @literal_constraint example_builtins GT (PInt 5) "value GT 5"
    (value_counted gt_five t f).
Proof.
  repeat split. eexists. reflexivity.
Defined.

Lemma value_merge_comm_assoc_witness :
  exists ab ba bc ab_c a_bc,
    @ValueConstraint.merge example_builtins (value_counted gt_five 1 0)
      (Some (value_counted gt_five 2 1)) = Ok ab
    /\ @ValueConstraint.merge example_builtins (value_counted gt_five 2 1)
         (Some (value_counted gt_five 1 0)) = Ok ba
    /\ @ValueConstraint.merge example_builtins (value_counted gt_five 2 1)
         (Some (value_counted gt_five 3 3)) = Ok bc
    /\ @ValueConstraint.merge example_builtins ab
         (Some (value_counted gt_five 3 3)) = Ok ab_c
    /\ @ValueConstraint.merge example_builtins (value_counted gt_five 1 0)
         (Some bc) = Ok a_bc
    /\ ValueConstraint.total ab_c = ValueConstraint.total a_bc.
Proof.
  destruct (@value_merge_comm_assoc example_builtins GT (PInt 5) "value GT 5"
              (value_counted gt_five 1 0) (value_counted gt_five 2 1)
              (value_counted gt_five 3 3) eq_refl
              (gt_five_is_literal 1 0) (gt_five_is_literal 2 1)
              (gt_five_is_literal 3 3))
    as (ab & ba & bc & ab_c & a_bc & E1 & E2 & E3 & E4 & E5 & _ & _ & T & _).
  exists ab, ba, bc, ab_c, a_bc. repeat split; assumption.
Defined.

Lemma summary_merge_sums_witness :
  exists m m',
    @SummaryConstraint.merge example_builtins (counted min_ge_zero 3 1)
      (Some (counted min_ge_zero 2 2)) = Ok m
    /\ @SummaryConstraint.merge example_builtins (counted min_ge_zero 2 2)
         (Some (counted min_ge_zero 3 1)) = Ok m'
    /\ SummaryConstraint.total m = 3 + 2
    /\ SummaryConstraint.failures m = 1 + 2.
Proof.
  destruct (@summary_merge_sums example_builtins "min" GE (PInt 0) PNone None
              None (AVal PNone) None false min_ge_zero 3 1 2 2 eq_refl
              eq_refl eq_refl)
    as (m & m' & E & E' & T & F & _); [discriminate |].
  exists m, m'. repeat split; assumption.
Defined.

(* ------------------------------------------------------------------ *)
(** ** Further properties: names *)

(** X28. With MATCH or NOMATCH and an input that is not text, [update]
    counts the call and a failure whatever else happens; the call returns
    when the constraint is not verbose or its name renders, which it does
    for every constraint that [__init__] built from a pattern. *)
Theorem match_update_on_non_text `{Builtins}
    (c : ValueConstraint.t) (v : pyval) :
  is_match_op (ValueConstraint.op c) = true ->
  is_str v = false ->
  fst (ValueConstraint.update c v)
  = value_counted c (ValueConstraint.total c + 1)
      (ValueConstraint.failures c + 1)
  /\ (ValueConstraint._verbose c = false
      \/ (exists n, ValueConstraint.name c = Ok n) ->
      snd (ValueConstraint.update c v) = Ok tt)
  /\ (forall p nm vb,
         ValueConstraint.__init__ (ValueConstraint.op c) PNone (Some p) nm vb
         = Ok c ->
         snd (ValueConstraint.update c v) = Ok tt).
Proof.
  intros Ho Hv. split; [| split].
  - apply match_update_counts_failure; assumption.
  - apply match_update_returns; assumption.
  - intros p nm vb E. apply match_update_returns; try assumption.
    right. exact (pattern_constraint_has_name _ p nm vb c E).
Qed.

Lemma match_update_on_non_text_witness :
  exists c,
    @ValueConstraint.__init__ example_builtins MATCH PNone (Some "ab") None
      true = Ok c
    /\ @ValueConstraint.update example_builtins c (PInt 5)
       = (value_counted c 1 1, Ok tt).
Proof.
  eexists. split; [reflexivity |].
  match goal with
  | |- ValueConstraint.update ?c ?v = _ =>
      destruct (@match_update_on_non_text example_builtins c v
                  eq_refl eq_refl) as (A & _ & B);
      specialize (B "ab" None true eq_refl);
      rewrite (surjective_pairing (ValueConstraint.update c v)), A, B
  end.
  reflexivity.
Defined.

(** X29. The name of a [ValueConstraint] that [__init__] returned renders
    exactly when a name was given, or the constraint holds a pattern, or
    its literal is true; for an unnamed constraint on a literal that is
    false, such as 0 or the empty string, [name] and [report] raise
    [AttributeError]. *)
Theorem value_name_renders_iff `{Builtins}
    (o : Op) (v : pyval) (pattern nm : option string) (vb : bool)
    (c0 : ValueConstraint.t) (t f : Z) :
  ValueConstraint.__init__ o v pattern nm vb = Ok c0 ->
  ((exists n, ValueConstraint.report (value_counted c0 t f) = Ok (n, t, f))
   <-> (nm <> None \/ pattern <> None \/ truthy v = true))
  /\ (nm = None -> pattern = None -> truthy v = false ->
      ValueConstraint.name (value_counted c0 t f) = Raise AttributeError
      /\ ValueConstraint.report (value_counted c0 t f) = Raise AttributeError).
Proof.
  intros E. destruct pattern as [p |].
  - destruct (is_none v) eqn:Nv.
    + apply is_none_true in Nv; subst v.
      destruct (value_init_pattern o p nm vb c0 E) as (_ & fn & _ & ->).
      unfold ValueConstraint.report, ValueConstraint.name; cbn.
      split; [| intros _ A; discriminate].
      split; [intros _; right; left; discriminate |].
      intros _. destruct nm; cbn; eauto.
    + unfold ValueConstraint.__init__ in E. rewrite Nv in E. discriminate.
  - destruct (value_init_literal o v nm vb c0 E) as (Nv & fn & _ & ->).
    unfold ValueConstraint.report, ValueConstraint.name; cbn.
    destruct nm as [n |]; cbn.
    + split; [| discriminate].
      split; [intros _; left; discriminate | eauto].
    + destruct (truthy v) eqn:Tv; cbn.
      * split; [| discriminate].
        split; [intros _; right; right; reflexivity | eauto].
      * split; [| intros _ _ _; split; reflexivity].
        split; [intros [n A]; discriminate |].
        intros [A | [A | A]]; congruence.
Qed.

Lemma value_name_renders_iff_witness :
  @ValueConstraint.report example_builtins (value_counted gt_zero 2 1)
  = Raise AttributeError.
Proof.
  exact (proj2 (proj2 (@value_name_renders_iff example_builtins GT (PInt 0)
                         None None false gt_zero 2 1 eq_refl)
                  eq_refl eq_refl eq_refl)).
Defined.

Lemma In_firstn (n : nat) (s : pyset) (y : pyval) :
  In y (firstn n s) -> In y s.
Proof.
  revert s. induction n as [| n IH]; intros [| x s]; cbn;
    try contradiction.
  intros [A | A]; [left; exact A | right; apply IH; exact A].
Qed.

Lemma pyset_wf_firstn (n : nat) (s : pyset) :
  pyset_wf s -> pyset_wf (firstn n s).
Proof.
  revert s. induction n as [| n IH]; intros [| x s]; cbn; auto.
  intros [Hx W]. split; [| apply IH; exact W].
  apply set_mem_false. intros y I.
  apply (proj1 (set_mem_false x s) Hx). exact (In_firstn n s y I).
Qed.

(** X30. The generated name of a set constraint built from a caller's set
    shows the reference set whole when it has at most 20 members;
    otherwise it shows a set of the first 20 members that iterating the
    reference set yields, in the order in which that new set is iterated,
    with the closing brace replaced by an ellipsis. A name given to
    [__init__] is used as it is. *)
Theorem set_constraint_name_preview `{Builtins}
    (ff : string) (o : Op) (v uv : pyval) (sf tf : option string)
    (r : pyset) (nm : option string) (vb : bool)
    (c0 : SummaryConstraint.t) (t f : Z) :
  is_set_op o = true ->
  pyset_wf r ->
  SummaryConstraint.__init__ ff o v uv sf tf (ASet r) nm vb = Ok c0 ->
  (forall n, nm = Some n ->
             SummaryConstraint.name (counted c0 t f) = Ok n)
  /\ (nm = None -> (List.length r <= 20)%nat ->
      SummaryConstraint.name (counted c0 t f)
      = Ok ("summary " ++ ff ++ " " ++ Op_Name o ++ " " ++ set_str r))
  /\ (nm = None -> (20 < List.length r)%nat ->
      exists shown,
        Permutation shown (firstn 20 r)
        /\ SummaryConstraint.name (counted c0 t f)
           = Ok ("summary " ++ ff ++ " " ++ Op_Name o ++ " "
                 ++ drop_last (set_str shown) ++ ", ...}")).
Proof.
  intros Ho Wr E.
  destruct (set_init_inv _ _ _ _ _ _ _ _ _ _ Ho E) as (r' & Ec & _ & -> & _).
  cbn in Ec. injection Ec as <-.
  unfold SummaryConstraint.name, counted, set_instance.
  cbn -[set_of_list firstn Z.ltb String.append]. rewrite Ho.
  split; [| split].
  - intros n ->. reflexivity.
  - intros -> L.
    assert (B : (20 <? Z.of_nat (List.length r)) = false)
      by (apply Z.ltb_ge; lia).
    rewrite B. reflexivity.
  - intros -> L.
    assert (B : (20 <? Z.of_nat (List.length r)) = true)
      by (apply Z.ltb_lt; lia).
    rewrite B, (set_of_list_id _ (pyset_wf_firstn 20 r Wr)).
    exists (firstn 20 r). split; [apply Permutation_refl | reflexivity].
Qed.

Lemma set_constraint_name_preview_witness :
  exists c0,
    SummaryConstraint.__init__ "distinct_column_values" IN_SET PNone PNone
      None None (ASet [PInt 1; PInt 2]) None false = Ok c0
    /\ @SummaryConstraint.name example_builtins (counted c0 0 0)
       = Ok "summary distinct_column_values IN_SET {1, 2}".
Proof.
  eexists. split; [reflexivity |].
  refine (proj1 (proj2 (@set_constraint_name_preview example_builtins
            "distinct_column_values" IN_SET PNone PNone None None
            [PInt 1; PInt 2] None false _ 0 0
            eq_refl (conj eq_refl (conj eq_refl I)) eq_refl))
            eq_refl _).
  cbn. lia.
Defined.
